(** * facemap/pose/pose.py: the pose-estimation pipeline of class [Pose]

    A shallow embedding of the orchestrator in [src/facemap/pose/pose.py]
    and the properties of its specification.

    Conventions.
    - [self] and the outside world (files on disk, the calls made to the
      progress host, the wall clock) are one explicit state [St]; a method
      is a function [St -> St * res A] in the state-and-exception monad [M].
      The state survives a raised exception, as mutations of a Python
      object and writes to disk do.
    - Python integers are [Z]; image coordinates and seconds are exact
      rationals [Q] (rounding of binary64 is not modelled).
    - Collaborators that live outside [pose.py] (frame decoding, the
      network, the random generator, the wall-clock cost of each step) are
      fields of an environment record [Env].
    - The [while] loop of [predict_landmarks] takes a fuel bound; a run cut
      off by it ends in [OutOfFuel], and the properties show that fuel for
      one pass per requested frame is never used up.
    - The network is an object of its own: [net] is what [self.net] is
      bound to and [net_mode] the mode that object is in, which
      [self.net.eval()] changes without rebinding the attribute.
    - Output to stdout ([print]) and the tqdm bar written to a local
      [StringIO] are left out. *)

From Stdlib Require Import ZArith QArith Qround String Ascii List Lia.
From stdpp Require Import base option list sorting gmap strings.

Local Open Scope Z_scope.

(** ** Exceptions and results *)

Inductive exn : Type :=
| AttributeError (obj attr : string)   (* 'NoneType' object has no attribute .. *)
| ZeroDivisionError
| UnboundLocalError (var : string)
| IndexError
| TypeError
| ValueError
| RuntimeError                         (* torch: shape mismatch *)
| External (what : string)             (* raised inside a collaborator *)
| OutOfFuel.
(** [OutOfFuel] is not a Python exception: it marks a run of the model
    that was cut off by its fuel bound before the [while] loop ended. *)

Inductive res (A : Type) : Type :=
| Ok (a : A)
| Raise (e : exn).
Arguments Ok {A} a.
Arguments Raise {A} e.

(** ** Data *)

(** A bounding box is the Python list [[x1, x2, y1, y2]]. *)
Record BBox : Type := mkBBox { x1 : Z; x2 : Z; y1 : Z; y2 : Z }.

(** The network, as far as [pose.py] looks into it. *)
Record Net : Type := mkNet { net_bodyparts : list string }.

(** The mode of a network object, as far as [pose.py] decides it:
    [AsReceived], the mode its producer left it in (the caller of the
    constructor, the trainer, or [FMnet]'s constructor: a new torch module
    is in training mode), or [EvalMode], after [self.net.eval()]. *)
Inductive mode : Type := AsReceived | EvalMode.

(** One decoded batch of frames (rows of pixel intensities). *)
Definition Img : Type := list (list Z).

(** One row of the prediction buffer: per keypoint (x, y, likelihood). *)
Definition Triple : Type := (Q * Q * Q)%type.

(** The GUI object, as far as [pose.py] reads and writes it. *)
Record Gui : Type := mkGui {
  gui_filenames : list (list string);
  gui_bbox : list BBox;
  save_path : string;
  poseFilepath : list string;
  is_pose_loaded : bool
}.

(** The format arguments of each prompt handed to the progress host; the
    constructor stands for the fixed text of the template. *)
Inductive prompt : Type :=
| NoBboxSet (gui_bbox : list BBox) (resize : bool)
| LoadingModel
| ProcessingVideo (filename : string)
| SavedTo (savepath : string)
| FinishedSubset
| TimeElapsed (seconds : Q).

(** The calls made to the host, in order. *)
Inductive event : Type :=
| Message (p : prompt) (hide_progress : option bool)
                                       (* utils.update_mainwindow_message *)
| ProgressBar (done_frames : Z)        (* utils.update_mainwindow_progressbar *)
| GuiCall (method : string)            (* self.gui.<method>(..) *)
| GetFrames (cframes : list Z)         (* utils.get_frames *)
| Stored (start stop : Z).             (* rows pred_data[start:stop] assigned *)

(** The RunMetadata dictionary: its keys are Python strings. *)
Inductive pyval : Type :=
| PyInt (z : Z)
| PyFloat (q : Q)
| PyBBox (b : BBox)
| PyStrs (l : list string)
| PySizes (ly lx : list Z).

(** A pandas DataFrame: three-level column labels (scorer, bodyparts,
    coords), row labels, and the cells row by row; [None] is NaN. *)
Definition Label : Type := (string * string * string)%type.

Record DataFrame : Type := mkDataFrame {
  columns : list Label;
  row_index : list Z;
  cells : list (list (option Q))
}.

(** What a file holds. *)
Inductive file : Type :=
| HdfTable (key : string) (table : DataFrame)
| Pickle (d : gmap string pyval).

(** The instance and the world.  [Ly] and [Lx] hold, per video, the number
    of rows and of columns of a frame, that is its height and its width:
    line 301 allocates the frame buffer as (batch, channel, Ly, Lx). *)
Record St : Type := mkSt {
  gui : option Gui;
  filenames : list (list string);
  cumframes : list Z;
  Ly : list Z;
  Lx : list Z;
  nframes : Z;
  bodyparts : option (list string);
  bbox : list BBox;
  bbox_set : bool;
  resize : bool;
  add_padding : bool;
  net : option Net;
  finetuned_model : bool;
  (* the world *)
  disk : gmap string file;
  log : list event;
  now : Q;
  (* the network object [self.net] is bound to *)
  net_mode : mode
}.

Definition with_gui (g : option Gui) (s : St) : St :=
  mkSt g (filenames s) (cumframes s) (Ly s) (Lx s) (nframes s) (bodyparts s)
       (bbox s) (bbox_set s) (resize s) (add_padding s) (net s)
       (finetuned_model s) (disk s) (log s) (now s) (net_mode s).
Definition with_bodyparts (b : option (list string)) (s : St) : St :=
  mkSt (gui s) (filenames s) (cumframes s) (Ly s) (Lx s) (nframes s) b
       (bbox s) (bbox_set s) (resize s) (add_padding s) (net s)
       (finetuned_model s) (disk s) (log s) (now s) (net_mode s).
Definition with_bbox (b : list BBox) (s : St) : St :=
  mkSt (gui s) (filenames s) (cumframes s) (Ly s) (Lx s) (nframes s) (bodyparts s)
       b (bbox_set s) (resize s) (add_padding s) (net s)
       (finetuned_model s) (disk s) (log s) (now s) (net_mode s).
Definition with_bbox_set (b : bool) (s : St) : St :=
  mkSt (gui s) (filenames s) (cumframes s) (Ly s) (Lx s) (nframes s) (bodyparts s)
       (bbox s) b (resize s) (add_padding s) (net s)
       (finetuned_model s) (disk s) (log s) (now s) (net_mode s).
Definition with_resize (b : bool) (s : St) : St :=
  mkSt (gui s) (filenames s) (cumframes s) (Ly s) (Lx s) (nframes s) (bodyparts s)
       (bbox s) (bbox_set s) b (add_padding s) (net s)
       (finetuned_model s) (disk s) (log s) (now s) (net_mode s).
Definition with_add_padding (b : bool) (s : St) : St :=
  mkSt (gui s) (filenames s) (cumframes s) (Ly s) (Lx s) (nframes s) (bodyparts s)
       (bbox s) (bbox_set s) (resize s) b (net s)
       (finetuned_model s) (disk s) (log s) (now s) (net_mode s).
Definition with_net (n : option Net) (s : St) : St :=
  mkSt (gui s) (filenames s) (cumframes s) (Ly s) (Lx s) (nframes s) (bodyparts s)
       (bbox s) (bbox_set s) (resize s) (add_padding s) n
       (finetuned_model s) (disk s) (log s) (now s) (net_mode s).
Definition with_finetuned_model (b : bool) (s : St) : St :=
  mkSt (gui s) (filenames s) (cumframes s) (Ly s) (Lx s) (nframes s) (bodyparts s)
       (bbox s) (bbox_set s) (resize s) (add_padding s) (net s)
       b (disk s) (log s) (now s) (net_mode s).
Definition with_disk (d : gmap string file) (s : St) : St :=
  mkSt (gui s) (filenames s) (cumframes s) (Ly s) (Lx s) (nframes s) (bodyparts s)
       (bbox s) (bbox_set s) (resize s) (add_padding s) (net s)
       (finetuned_model s) d (log s) (now s) (net_mode s).
Definition with_log (l : list event) (s : St) : St :=
  mkSt (gui s) (filenames s) (cumframes s) (Ly s) (Lx s) (nframes s) (bodyparts s)
       (bbox s) (bbox_set s) (resize s) (add_padding s) (net s)
       (finetuned_model s) (disk s) l (now s) (net_mode s).
Definition with_now (t : Q) (s : St) : St :=
  mkSt (gui s) (filenames s) (cumframes s) (Ly s) (Lx s) (nframes s) (bodyparts s)
       (bbox s) (bbox_set s) (resize s) (add_padding s) (net s)
       (finetuned_model s) (disk s) (log s) t (net_mode s).
Definition with_net_mode (m : mode) (s : St) : St :=
  mkSt (gui s) (filenames s) (cumframes s) (Ly s) (Lx s) (nframes s) (bodyparts s)
       (bbox s) (bbox_set s) (resize s) (add_padding s) (net s)
       (finetuned_model s) (disk s) (log s) (now s) m.

(** ** The state-and-exception monad *)

Definition M (A : Type) : Type := St -> St * res A.

Definition ret {A} (a : A) : M A := fun s => (s, Ok a).
Definition raise {A} (e : exn) : M A := fun s => (s, Raise e).
Definition bind {A B} (m : M A) (k : A -> M B) : M B :=
  fun s => match m s with
           | (s', Ok a) => k a s'
           | (s', Raise e) => (s', Raise e)
           end.
Definition get : M St := fun s => (s, Ok s).
Definition modify (f : St -> St) : M unit := fun s => (f s, Ok tt).
Definition lift {A} (r : res A) : M A := fun s => (s, r).

Declare Scope py_scope.
Delimit Scope py_scope with py.
Notation "x <- m ;; k" := (bind m (fun x => k))
  (at level 100, m at next level, right associativity) : py_scope.
Notation "m ;;; k" := (bind m (fun _ => k))
  (at level 100, right associativity) : py_scope.
Local Open Scope py_scope.

(** [for x in xs: body x]. *)
Fixpoint for_each {A} (xs : list A) (body : A -> M unit) : M unit :=
  match xs with
  | [] => ret tt
  | x :: rest => body x ;;; for_each rest body
  end.

(** [if c: m] without an else branch. *)
Definition when (c : bool) (m : M unit) : M unit := if c then m else ret tt.

(** [l[i]] on a Python list, for [i >= 0]. *)
Definition index {A} (l : list A) (i : nat) : M A :=
  match l !! i with
  | Some a => ret a
  | None => raise IndexError
  end.

(** [l[-1]]. *)
Definition index_last {A} (l : list A) : M A :=
  match last l with
  | Some a => ret a
  | None => raise IndexError
  end.

(** [range(n)]. *)
Definition range (n : nat) : list nat := seq 0 n.

(** ** The environment of the pipeline *)

Record Env : Type := mkEnv {
  (** [torch.cuda.is_available()] *)
  cuda_is_available : bool;
  (** [utils.get_frame_details(filenames)]: cumframes, Ly, Lx *)
  get_frame_details : list (list string) -> res (list Z * list Z * list Z);
  (** the bodyparts stored in the model parameter file read by [load_model] *)
  model_params : res (list string);
  (** lines 413-425: the [FMnet] built for these bodyparts with the state
      read from the model state file (the one given to [load_model], or
      the default one) *)
  load_net : option string -> list string -> res Net;
  (** [utils.get_frames(imall, containers, cframes, cumframes)]: what it
      decodes into a buffer of the given (Ly, Lx) for the frames [cframes] *)
  get_frames : Z * Z -> list Z -> res Img;
  (** pixel part of [transforms.preprocess_img] *)
  preprocess_pixels : Img -> BBox -> bool -> bool -> Img;
  (** [pose_utils.predict(net, imall, smooth=False)]: per batch item and
      keypoint, (x, y, likelihood) in model-input coordinates *)
  predict : Net -> Img -> list (list Triple);
  (** [np.random.choice(n, size, replace=False)] *)
  random_choice : Z -> Z -> list Z;
  (** whether the file system accepts a write to this path *)
  writable : string -> bool;
  (** wall-clock seconds taken by each step on the batch of these frames *)
  get_frames_seconds : list Z -> Q;
  preprocess_seconds : list Z -> Q;
  predict_seconds : list Z -> Q;
  postprocess_seconds : list Z -> Q;
  progress_seconds : list Z -> Q
}.

(** ** [os.path] (POSIX flavour) on strings *)

Module os_path.

Definition sep : ascii := "/"%char.
Definition extsep : ascii := "."%char.

Fixpoint has_char (c : ascii) (s : string) : bool :=
  match s with
  | EmptyString => false
  | String a t => Ascii.eqb a c || has_char c t
  end.

(** Is there a character other than [c]? *)
Fixpoint has_other (c : ascii) (s : string) : bool :=
  match s with
  | EmptyString => false
  | String a t => negb (Ascii.eqb a c) || has_other c t
  end.

(** [s.rfind(c)] as a cut: the text before the last [c] and the text
    after it. *)
Fixpoint rcut (c : ascii) (s : string) : option (string * string) :=
  match s with
  | EmptyString => None
  | String a t =>
      match rcut c t with
      | Some (h, tl) => Some (String a h, tl)
      | None => if Ascii.eqb a c then Some (EmptyString, t) else None
      end
  end.

(** [s.rstrip(c)]. *)
Fixpoint rstrip (c : ascii) (s : string) : string :=
  match s with
  | EmptyString => EmptyString
  | String a t =>
      match rstrip c t with
      | EmptyString => if Ascii.eqb a c then EmptyString else String a EmptyString
      | t' => String a t'
      end
  end.

Definition endswith (c : ascii) (s : string) : bool :=
  match rcut c s with
  | Some (_, EmptyString) => true
  | _ => false
  end.

Definition startswith (c : ascii) (s : string) : bool :=
  match s with
  | String a _ => Ascii.eqb a c
  | EmptyString => false
  end.

(** [os.path.split(p)]: head and tail around the last slash; trailing
    slashes are stripped from the head unless it is all slashes. *)
Definition split (p : string) : string * string :=
  match rcut sep p with
  | None => (EmptyString, p)
  | Some (h, tl) =>
      let head := (h ++ String sep EmptyString)%string in
      (if has_other sep head then rstrip sep head else head, tl)
  end.

(** [os.path.splitext(p)]: the extension starts at the last dot of the
    last path component, unless only dots precede it there. *)
Definition splitext (p : string) : string * string :=
  let '(dir, base) :=
    match rcut sep p with
    | None => (EmptyString, p)
    | Some (h, tl) => ((h ++ String sep EmptyString)%string, tl)
    end in
  match rcut extsep base with
  | Some (stem, ext) =>
      if has_other extsep stem
      then ((dir ++ stem)%string, String extsep ext)
      else (p, EmptyString)
  | None => (p, EmptyString)
  end.

(** [os.path.join(a, b)]. *)
Definition join (a b : string) : string :=
  if startswith sep b then b
  else if (match a with EmptyString => true | _ => false end) || endswith sep a
       then (a ++ b)%string
       else (a ++ String sep b)%string.

End os_path.

(** ** [transforms]: the geometric normalisation *)

Module transforms.

(** Pad amounts recorded per axis (before and after). *)
Record Pads : Type := mkPads {
  pad_x_before : Z; pad_x_after : Z;
  pad_y_before : Z; pad_y_after : Z
}.

Definition no_pads : Pads := mkPads 0 0 0 0.

(** The fixed input size of the model. *)
Definition model_input : Z * Z := (256, 256).

(** Extent of the crop along x and along y. *)
Definition crop_shape (b : BBox) : Z * Z := (x2 b - x1 b, y2 b - y1 b).

(** Modelled from the spec: [transforms.preprocess_img] is not under src/.
    It crops to the bbox; when the crop is not square and [add_padding] is
    set it pads symmetrically to a square and records the pad per axis;
    the shape after padding is returned as [postpad_shape].  This is the
    geometric part: post-pad shape and pads. *)
Definition pad_plan (b : BBox) (add_padding : bool) : (Z * Z) * Pads :=
  let '(w, h) := crop_shape b in
  if add_padding && negb (w =? h) then
    if w <? h
    then let d := h - w in ((h, h), mkPads (d / 2) (d - d / 2) 0 0)
    else let d := w - h in ((w, w), mkPads 0 0 (d / 2) (d - d / 2))
  else ((w, h), no_pads).

(** Modelled from the spec: whether [preprocess_img] rescales, namely when
    the (possibly padded) shape differs from 256 x 256 and [resize] is set. *)
Definition rescales (shape : Z * Z) (resize : bool) : bool :=
  resize && negb ((fst shape =? 256) && (snd shape =? 256)).

(** Modelled from the spec: where [preprocess_img] sends a point of the
    raw frame (crop, then pad, then rescale to 256 x 256). *)
Definition normalize_point (b : BBox) (add_padding resize : bool)
    (p : Q * Q) : Q * Q :=
  let '(shape, pads) := pad_plan b add_padding in
  let cx := (fst p - inject_Z (x1 b) + inject_Z (pad_x_before pads))%Q in
  let cy := (snd p - inject_Z (y1 b) + inject_Z (pad_y_before pads))%Q in
  if rescales shape resize
  then ((cx * (inject_Z (fst model_input) / inject_Z (fst shape)))%Q,
        (cy * (inject_Z (snd model_input) / inject_Z (snd shape)))%Q)
  else (cx, cy).

(** Modelled from the spec: [transforms.preprocess_img(im, bbox,
    add_padding, resize)] returns the normalised batch, the post-pad shape
    and the pads. *)
Definition preprocess_img (pixels : Img -> BBox -> bool -> bool -> Img)
    (im : Img) (b : BBox) (add_padding resize : bool) : Img * (Z * Z) * Pads :=
  let '(shape, pads) := pad_plan b add_padding in
  (pixels im b add_padding resize, shape, pads).

(** Modelled from the spec: [transforms.adjust_keypoints(xlabels, ylabels,
    crop_xy, padding, current_size, desired_size)] is not under src/.  It
    undoes the resize by the factor desired_size / current_size
    (elementwise), subtracts the pad offsets and adds the crop origin. *)
Definition adjust_keypoints (p : Q * Q) (crop_xy : Z * Z) (padding : Pads)
    (current_size desired_size : Z * Z) : Q * Q :=
  ((fst p * (inject_Z (fst desired_size) / inject_Z (fst current_size))
    - inject_Z (pad_x_before padding) + inject_Z (fst crop_xy))%Q,
   (snd p * (inject_Z (snd desired_size) / inject_Z (snd current_size))
    - inject_Z (pad_y_before padding) + inject_Z (snd crop_xy))%Q).

End transforms.

(** ** numpy helpers *)

(** [np.arange(n)]. *)
Definition np_arange (n : Z) : list Z := map Z.of_nat (seq 0 (Z.to_nat n)).

(** [np.sort] on integers. *)
Definition np_sort (l : list Z) : list Z := merge_sort Z.le l.

(** [l[start:stop]] for non-negative bounds (Python clamps to the length). *)
Definition slice {A} (l : list A) (start stop : Z) : list A :=
  take (Z.to_nat stop - Z.to_nat start)%nat (drop (Z.to_nat start) l).

(** [np.floor(total_frames * 0.05)], in exact arithmetic.  (0.05 is not
    a binary64 number, but for [0 <= total_frames < 20] the rounded
    product stays in [0, 1) and its floor is 0 in binary64 as well.) *)
Definition progress_step (total_frames : Z) : Z :=
  Qfloor (inject_Z total_frames * (5 # 100)).

(** [a % b] with [b] a numpy float: [None] is nan, the result of a zero
    divisor (numpy warns and does not raise). *)
Definition np_mod (a b : Z) : option Z :=
  if b =? 0 then None else Some (a mod b).

(** [x == 0] on that result; nan equals nothing. *)
Definition np_is_zero (x : option Z) : bool :=
  match x with
  | Some r => r =? 0
  | None => false
  end.

(** ** Class [Pose] *)

Section Pose.
Context (env : Env).

(** Modelled from the spec: [utils.update_mainwindow_message] is not under
    src/; the progress host is a fire-and-forget receiver, so the call is
    recorded and cannot fail. *)
Definition update_mainwindow_message (p : prompt) (hide_progress : option bool)
    : M unit :=
  modify (fun s => with_log (log s ++ [Message p hide_progress]) s).

(** Modelled from the spec: [utils.update_mainwindow_progressbar] is not
    under src/; recorded with the number of frames done. *)
Definition update_mainwindow_progressbar (done_frames : Z) : M unit :=
  modify (fun s => with_log (log s ++ [ProgressBar done_frames]) s).

Definition record (e : event) : M unit :=
  modify (fun s => with_log (log s ++ [e]) s).

(** [time.time()] and the passing of time. *)
Definition time_time : M Q := fun s => (s, Ok (now s)).
Definition time_passes (d : Q) : M unit :=
  modify (fun s => with_now (now s + d)%Q s).

(** [self.gui.<attr>]: fails on [None]. *)
Definition gui_attr (attr : string) : M Gui :=
  fun s => match gui s with
           | Some g => (s, Ok g)
           | None => (s, Raise (AttributeError "NoneType" attr))
           end.

(** [self.net.<attr>]: fails on [None]. *)
Definition net_attr (attr : string) : M Net :=
  fun s => match net s with
           | Some n => (s, Ok n)
           | None => (s, Raise (AttributeError "NoneType" attr))
           end.

(** [open(path, 'wb')] / [to_hdf(path, mode='w')]: replaces the file. *)
Definition write_file (path : string) (f : file) : M unit :=
  if writable env path
  then modify (fun s => with_disk (<[path := f]> (disk s)) s)
  else raise (External "OSError").

(** [Pose.__init__]; [d] is the disk the instance starts on. *)
Definition Pose_init (filenames_arg : list (list string))
    (bodyparts_arg : option (list string)) (bbox_arg : list BBox)
    (bbox_set_arg resize_arg add_padding_arg : bool)
    (gui_arg : option Gui) (net_arg : option Net)
    (d : gmap string file) : res St :=
  let fns := match gui_arg with
             | Some g => gui_filenames g
             | None => filenames_arg
             end in
  match get_frame_details env fns with
  | Raise e => Raise e
  | Ok (cum, ly, lx) =>
      match last cum with
      | None => Raise IndexError
      | Some n =>
          Ok (mkSt gui_arg fns cum ly lx n bodyparts_arg bbox_arg bbox_set_arg
                   resize_arg add_padding_arg net_arg false d [] 0%Q
                   AsReceived)
      end
  end.

(** [load_model(model_state_file)], lines 392-426.  The two path lookups
    of [model_loader] (lines 397 and 400) are taken to return, and the
    prints are left out.  [self.bodyparts] is replaced (line 412) before
    the network is built and its state loaded (lines 413-425), so a
    failure there leaves the new names with the old [self.net]. *)
Definition load_model (model_state_file : option string) : M unit :=
  when (match model_state_file with Some _ => true | None => false end)
       (modify (with_finetuned_model true)) ;;;
  update_mainwindow_message LoadingModel None ;;;
  bps <- lift (model_params env) ;;
  modify (with_bodyparts (Some bps)) ;;;
  nt <- lift (load_net env model_state_file bps) ;;
  modify (with_net (Some nt)) ;;;
  modify (with_net_mode AsReceived).

(** Body of the loop of [pose_prediction_setup], lines 64-82. *)
Definition setup_video (i : nat) : M unit :=
  s <- get ;;
  bx2 <- index (Ly s) i ;;
  by2 <- index (Lx s) i ;;
  let b := mkBBox 0 bx2 0 by2 in
  modify (fun s => with_bbox (bbox s ++ [b]) s) ;;;
  when (negb (x2 b - x1 b =? y2 b - y1 b)) (modify (with_add_padding true)) ;;;
  when (negb (x2 b - x1 b =? 256) || negb (y2 b - y1 b =? 256))
       (modify (with_resize true)) ;;;
  g <- gui_attr "bbox" ;;
  s <- get ;;
  update_mainwindow_message (NoBboxSet (gui_bbox g) (resize s)) (Some true).

(** [pose_prediction_setup()]. *)
Definition pose_prediction_setup : M unit :=
  s <- get ;;
  when (match net s with None => true | Some _ => false end)
       (load_model None) ;;;
  s <- get ;;
  when (negb (bbox_set s))
       (for_each (range (length (Ly s))) setup_video ;;;
        modify (with_bbox_set true)).

(** Lines 264-269: both branches choose 1. *)
Definition batch_size : Z := if cuda_is_available env then 1 else 1.

(** [pred_data[start:stop, :, c] = labels] for the three channels
    (lines 335-337), taken as one assignment of whole rows: the rows
    [start, stop) of the buffer (clamped to its length) are replaced; a
    batch of another shape is refused (broadcasting is not modelled). *)
Definition store (pred_data : list (list Triple)) (K : nat) (start stop : Z)
    (rows : list (list Triple)) : res (list (list Triple)) :=
  let n := length (slice pred_data start stop) in
  if (length rows =? n)%nat && forallb (fun r => (length r =? K)%nat) rows
  then Ok (take (Z.to_nat start) pred_data ++ rows
           ++ drop (Z.to_nat start + n)%nat pred_data)
  else Raise RuntimeError.

(** Lines 325-332: the arguments wired into [adjust_keypoints]. *)
Definition adjust_triple (b : BBox) (pads : transforms.Pads)
    (postpad_shape : Z * Z) (t : Triple) : Triple :=
  let '(x, y, l) := t in
  let '(x', y') :=
    transforms.adjust_keypoints (x, y) (x1 b, y1 b) pads (256, 256)
                                postpad_shape in
  (x', y', l).

(** Line 346: is a progress-bar update due? *)
Definition progress_due (stop total_frames : Z) : bool :=
  np_is_zero (np_mod stop (progress_step total_frames)).

(** The [while start != total_frames] loop, lines 297-352. *)
Fixpoint batch_loop (fuel : nat) (video_id : nat) (nt : Net)
    (frame_ind : list Z) (total_frames : Z) (start stop : Z)
    (pred_data : list (list Triple)) (inference_time : Q)
    : M (list (list Triple) * Q) :=
  if start =? total_frames then ret (pred_data, inference_time)
  else
    match fuel with
    | O => raise OutOfFuel
    | S fuel' =>
        s <- get ;;
        ly <- index (Ly s) video_id ;;
        lx <- index (Lx s) video_id ;;
        let cframes := slice frame_ind start stop in
        record (GetFrames cframes) ;;;
        imall <- lift (get_frames env (ly, lx) cframes) ;;
        time_passes (get_frames_seconds env cframes) ;;;
        t0 <- time_time ;;
        b <- index (bbox s) video_id ;;
        let '(imall', postpad_shape, pads) :=
          transforms.preprocess_img (preprocess_pixels env) imall b
                                    (add_padding s) (resize s) in
        time_passes (preprocess_seconds env cframes) ;;;
        let labels := predict env nt imall' in
        time_passes (predict_seconds env cframes) ;;;
        let adjusted := map (map (adjust_triple b pads postpad_shape)) labels in
        pred_data' <- lift (store pred_data (length (net_bodyparts nt))
                                  start stop adjusted) ;;
        record (Stored start stop) ;;;
        time_passes (postprocess_seconds env cframes) ;;;
        t1 <- time_time ;;
        let inference_time' := (inference_time + (t1 - t0))%Q in
        let start' := stop in
        let stop' := Z.min (stop + batch_size) total_frames in
        when (progress_due stop' total_frames)
             (update_mainwindow_progressbar stop') ;;;
        time_passes (progress_seconds env cframes) ;;;
        batch_loop fuel' video_id nt frame_ind total_frames start' stop'
                   pred_data' inference_time'
    end.

(** [total_frames / inference_time] on Python numbers: division by zero
    raises for ints and for floats. *)
Definition py_div (a : Z) (b : Q) : M Q :=
  if Qeq_bool b 0 then raise ZeroDivisionError
  else ret (inject_Z a / b)%Q.

(** [predict_landmarks(video_id, frame_ind)].  [torch.zeros] refuses a
    negative number of rows (line 278); [self.net.eval()] (line 281)
    switches the network to inference mode before the bbox is looked up
    (line 285). *)
Definition predict_landmarks (fuel : nat) (video_id : nat)
    (frame_ind : option (list Z))
    : M (list (list Triple) * gmap string pyval) :=
  s <- get ;;
  tf <- match frame_ind with
        | None => t <- index_last (cumframes s) ;; ret (t, np_arange t)
        | Some l => ret (Z.of_nat (length l), l)
        end ;;
  let '(total_frames, frame_ind) := tf in
  nt <- net_attr "bodyparts" ;;
  when (total_frames <? 0) (raise RuntimeError) ;;;
  modify (with_net_mode EvalMode) ;;;
  let pred_data :=
    replicate (Z.to_nat total_frames)
              (replicate (length (net_bodyparts nt)) (0, 0, 0)%Q) in
  b <- index (bbox s) video_id ;;
  r <- batch_loop fuel video_id nt frame_ind total_frames 0 batch_size
                  pred_data 0%Q ;;
  let '(pred_data, inference_time) := r in
  inference_speed <- (if batch_size =? 1
                      then q <- py_div total_frames inference_time ;;
                           ret (Some q)
                      else ret None) ;;
  speed <- match inference_speed with
           | Some q => ret q
           | None => raise (UnboundLocalError "inference_speed")
           end ;;
  let metadata : gmap string pyval :=
    <["batch_size" := PyInt batch_size]>
    (<["image_size" := PySizes (Ly s) (Lx s)]>
    (<["bbox" := PyBBox b]>
    (<["total_frames" := PyInt total_frames]>
    (<["bodyparts" := PyStrs (net_bodyparts nt)]>
    (<["inference_speed" := PyFloat speed]> ∅))))) in
  ret (pred_data, metadata).

(** *** [write_dataframe] *)

Definition scorer : string := "Facemap".
Definition coords : list string := ["x"; "y"; "likelihood"].

(** [pd.DataFrame(np.nan, columns=columnindex, index=index)] with the
    column index [[scorer] x [bodypart] x coords]. *)
Definition nan_frame (bodypart : string) (index : list Z) : DataFrame :=
  mkDataFrame (map (fun c => (scorer, bodypart, c)) coords) index
              (map (fun _ => replicate (length coords) None) index).

(** [pd.concat([a, b], axis=1)] for frames over the same row index. *)
Definition concat_axis1 (a b : DataFrame) : DataFrame :=
  mkDataFrame (columns a ++ columns b) (row_index a)
              (zip_with app (cells a) (cells b)).

(** Lines 233-249: [dataFrame] is unbound until the first iteration. *)
Fixpoint build_frames (items : list (nat * string)) (index : list Z)
    (dataFrame : option DataFrame) : res (option DataFrame) :=
  match items with
  | [] => Ok dataFrame
  | (i, bodypart) :: rest =>
      let frame := nan_frame bodypart index in
      if (i =? 0)%nat then build_frames rest index (Some frame)
      else match dataFrame with
           | Some d => build_frames rest index (Some (concat_axis1 d frame))
           | None => Raise (UnboundLocalError "dataFrame")
           end
  end.

(** [enumerate(l)]. *)
Definition enumerate {A} (l : list A) : list (nat * A) :=
  zip (seq 0 (length l)) l.

(** [data[:, :, ch]]. *)
Definition channel (ch : nat) (t : Triple) : Q :=
  match ch with
  | O => fst (fst t)
  | S O => snd (fst t)
  | _ => snd t
  end.

(** How many of the columns [0 .. ncols) are selected by [c::3]. *)
Definition stride3_count (c ncols : nat) : nat := ((ncols + 2 - c) / 3)%nat.

(** What [iloc[:, c::3] = vals] does to the cell of column [j] in a row
    that receives the values [v]. *)
Definition set_cell (c : nat) (v : list Q) (j : nat) (old : option Q)
    : option Q :=
  if (j mod 3 =? c)%nat
  then match v !! (j / 3)%nat with
       | Some q => Some q
       | None => old
       end
  else old.

(** [dataFrame.iloc[:, c::3] = vals]: values of another shape are
    refused (broadcasting is not modelled). *)
Definition iloc_set_stride3 (c : nat) (df : DataFrame) (vals : list (list Q))
    : res DataFrame :=
  if (length vals =? length (cells df))%nat
     && forallb (fun r => (length r =? stride3_count c (length (columns df)))%nat)
                vals
  then Ok (mkDataFrame (columns df) (row_index df)
             (zip_with (fun row v => imap (set_cell c v) row)
                       (cells df) vals))
  else Raise ValueError.

(** [write_dataframe(data, selected_frame_ind)].  The default row labels
    [np.arange(self.cumframes[-1])] are computed inside the loop over the
    bodyparts, hence not at all when there are none. *)
Definition write_dataframe (data : list (list Triple))
    (selected_frame_ind : option (list Z)) : M DataFrame :=
  s <- get ;;
  bps <- match bodyparts s with
         | Some l => ret l
         | None => raise TypeError
         end ;;
  index <- match selected_frame_ind with
           | None => if bps is [] then ret []
                     else n <- index_last (cumframes s) ;; ret (np_arange n)
           | Some l => ret l
           end ;;
  o <- lift (build_frames (enumerate bps) index None) ;;
  df <- match o with
        | Some d => ret d
        | None => raise (UnboundLocalError "dataFrame")
        end ;;
  df <- lift (iloc_set_stride3 0 df (map (map (channel 0)) data)) ;;
  df <- lift (iloc_set_stride3 1 df (map (map (channel 1)) data)) ;;
  lift (iloc_set_stride3 2 df (map (map (channel 2)) data)).

(** *** [save_pose_prediction] *)

Definition pose_suffix (finetuned : bool) : string :=
  if finetuned then "_FacemapPoseFinetuned.h5" else "_FacemapPose.h5".

Definition metadata_suffix (finetuned : bool) : string :=
  if finetuned then "_FacemapFinetuned_metadata.pkl"
  else "_Facemap_metadata.pkl".

Definition table_key : string := "df_with_missing".

(** [self.filenames[0][video_id]]. *)
Definition video_filename (video_id : nat) : M string :=
  s <- get ;;
  fns <- index (filenames s) 0 ;;
  index fns video_id.

(** [save_pose_prediction(dataFrame, video_id)]. *)
Definition save_pose_prediction (dataFrame : DataFrame) (video_id : nat)
    : M string :=
  s <- get ;;
  bv <- match gui s with
        | Some g =>
            f <- video_filename video_id ;;
            let filename := snd (os_path.split f) in
            ret (save_path g, fst (os_path.splitext filename))
        | None =>
            f <- video_filename video_id ;;
            let '(basename, filename) := os_path.split f in
            ret (basename, fst (os_path.splitext filename))
        end ;;
  let '(basename, videoname) := bv in
  let poseFilepath :=
    os_path.join basename (videoname ++ pose_suffix (finetuned_model s))%string in
  write_file poseFilepath (HdfTable table_key dataFrame) ;;;
  ret poseFilepath.

(** *** GUI refresh *)

Definition gui_call (method : string) : M unit := record (GuiCall method).

Definition set_poseFilepath (l : list string) (g : Gui) : Gui :=
  mkGui (gui_filenames g) (gui_bbox g) (save_path g) l (is_pose_loaded g).

(** [update_gui_pose(savepath, video_id)]: assigning past the end of a
    Python list raises IndexError. *)
Definition update_gui_pose (savepath : string) (video_id : nat) : M unit :=
  g <- gui_attr "poseFilepath" ;;
  (if (length (poseFilepath g) =? 0)%nat
   then modify (with_gui (Some (set_poseFilepath (poseFilepath g ++ [savepath]) g)))
   else if (video_id <? length (poseFilepath g))%nat
        then modify (with_gui
                       (Some (set_poseFilepath
                                (<[video_id := savepath]> (poseFilepath g)) g)))
        else raise IndexError) ;;;
  gui_call "load_keypoints" ;;;
  gui_call "keypoints_checkbox.setChecked(False)" ;;;
  gui_call "keypoints_checkbox.setChecked(True)" ;;;
  gui_call "start".

Definition plot_pose_estimates : M unit :=
  g <- gui_attr "is_pose_loaded" ;;
  modify (with_gui (Some (mkGui (gui_filenames g) (gui_bbox g) (save_path g)
                                (poseFilepath g) true))) ;;;
  gui_call "load_keypoints" ;;;
  gui_call "keypoints_checkbox.setChecked(True)".

(** *** [run_all] *)

(** Body of the loop of [run_all], lines 91-117. *)
Definition run_video (fuel : nat) (video_id : nat) : M unit :=
  f <- video_filename video_id ;;
  update_mainwindow_message (ProcessingVideo f) (Some true) ;;;
  pm <- predict_landmarks fuel video_id None ;;
  let '(pred_data, metadata) := pm in
  dataFrame <- write_dataframe pred_data None ;;
  savepath <- save_pose_prediction dataFrame video_id ;;
  update_mainwindow_message (SavedTo savepath) (Some true) ;;;
  s <- get ;;
  let metadata_file :=
    (fst (os_path.splitext savepath) ++ metadata_suffix (finetuned_model s))%string in
  write_file metadata_file (Pickle metadata) ;;;
  when (match gui s with Some _ => true | None => false end)
       (update_gui_pose savepath video_id).

(** [run_all(plot)]. *)
Definition run_all (fuel : nat) (plot : bool) : M unit :=
  start_time <- time_time ;;
  pose_prediction_setup ;;;
  s <- get ;;
  fns <- index (filenames s) 0 ;;
  for_each (range (length fns)) (run_video fuel) ;;;
  s <- get ;;
  when (plot && match gui s with Some _ => true | None => false end)
       plot_pose_estimates ;;;
  end_time <- time_time ;;
  update_mainwindow_message (TimeElapsed (end_time - start_time)%Q) (Some true).

(** *** [run_subset] *)

(** [np.random.choice(n, size, replace=False)]: numpy refuses a sample
    larger than the population. *)
Definition np_random_choice (n size : Z) : M (list Z) :=
  if (0 <=? size) && (size <=? n) then ret (random_choice env n size)
  else raise ValueError.

(** [run_subset(subset_ind)]. *)
Definition run_subset (fuel : nat) (subset_ind : option (list Z))
    : M (list (list Triple) * list Z * list BBox) :=
  pose_prediction_setup ;;;
  subset_ind <- match subset_ind with
                | None =>
                    s <- get ;;
                    (* int(self.nframes / 10) truncates towards zero *)
                    let subset_size := Z.quot (nframes s) 10 in
                    c <- np_random_choice (nframes s) subset_size ;;
                    ret (np_sort c)
                | Some l => ret l
                end ;;
  f <- video_filename 0 ;;
  update_mainwindow_message (ProcessingVideo f) (Some true) ;;;
  pm <- predict_landmarks fuel 0 (Some subset_ind) ;;
  update_mainwindow_message FinishedSubset (Some true) ;;;
  s <- get ;;
  ret (fst pm, subset_ind, bbox s).

End Pose.

(** ** Class [Pose], continued *)

(** [train(image_data, keypoints_data, num_epochs, batch_size,
    learning_rate, weight_decay)], lines 169-222.  [model_training_train]
    stands for [model_training.train] run on the dataset and loader built
    from the data arguments: what it makes of the bbox handed to the
    dataset and of the current network.  [self.net] is rebound to what
    it returns, in whatever mode that network is. *)
Definition train (model_training_train : BBox -> option Net -> res Net)
    : M Net :=
  s <- get ;;
  b <- index (bbox s) 0 ;;
  nt <- lift (model_training_train b (net s)) ;;
  modify (with_net (Some nt)) ;;;
  modify (with_net_mode AsReceived) ;;;
  modify (with_finetuned_model true) ;;;
  ret nt.

(** The list that is the default of the parameter [bbox=[]] of [__init__]
    (line 29) is created once; every instance constructed without a bbox
    holds that same object as [self.bbox] (line 50), and
    [pose_prediction_setup] appends to it in place (line 65).
    [on_default_bbox m shared s] runs the method [m] on such an instance
    while the shared list holds [shared], and also returns what the list
    holds afterwards. *)
Definition on_default_bbox {A} (m : M A) (shared : list BBox) (s : St)
    : list BBox * (St * res A) :=
  let '(s', r) := m (with_bbox shared s) in (bbox s', (s', r)).

(** * Vocabulary of the statements *)

(** The full-frame box derived for a frame of [ly] rows and [lx] columns. *)
Definition full_frame (ly lx : Z) : BBox := mkBBox 0 ly 0 lx.

Definition non_square (d : Z * Z) : bool := negb (fst d =? snd d).
Definition not_256 (d : Z * Z) : bool :=
  negb (fst d =? 256) || negb (snd d =? 256).

(** State after the loop body ran for a frame of [ly] x [lx]. *)
Definition after_setup_video (g : Gui) (ly lx : Z) (s : St) : St :=
  let r := resize s || not_256 (ly, lx) in
  mkSt (gui s) (filenames s) (cumframes s) (Ly s) (Lx s) (nframes s)
       (bodyparts s) (bbox s ++ [full_frame ly lx]) (bbox_set s) r
       (add_padding s || non_square (ly, lx)) (net s) (finetuned_model s)
       (disk s) (log s ++ [Message (NoBboxSet (gui_bbox g) r) (Some true)])
       (now s) (net_mode s).

(** State after the loop of [pose_prediction_setup] ran over frames of
    the sizes [dims]. *)
Definition after_setup_loop (g : Gui) (dims : list (Z * Z)) (s : St) : St :=
  fold_left (fun s d => after_setup_video g (fst d) (snd d) s) dims s.

(** Frame sizes (rows, columns) of the videos [k, k + n). *)
Definition frame_dims (s : St) (k n : nat) : list (Z * Z) :=
  zip (take n (drop k (Ly s))) (take n (drop k (Lx s))).

(** The inverse transform with the arguments [predict_landmarks] wires into
    it (lines 310-332): crop origin [(x1, y1)] of the bbox, the pads and the
    post-pad shape returned by [preprocess_img], current size 256 x 256.
    The [resize] flag is not among them. *)
Definition denormalize_point (b : BBox) (add_padding resize : bool)
    (p : Q * Q) : Q * Q :=
  let '(shape, pads) := transforms.pad_plan b add_padding in
  transforms.adjust_keypoints p (x1 b, y1 b) pads (256, 256) shape.

(** Equality of points, coordinate by coordinate, as rationals. *)
Definition point_eq (p q : Q * Q) : Prop :=
  (fst p == fst q)%Q /\ (snd p == snd q)%Q.

(** *** One pass of the batch loop, when every collaborator succeeds *)

(** What one pass computes for the batch [cframes] of a video with frames
    of [ly] x [lx] and bbox [b]: the adjusted predictions, or the
    exception of the frame source. *)
Definition batch_prediction (env : Env) (ly lx : Z) (b : BBox)
    (add_padding resize : bool) (nt : Net) (cframes : list Z)
    : res (list (list Triple)) :=
  match get_frames env (ly, lx) cframes with
  | Raise e => Raise e
  | Ok imall =>
      let '(imall', postpad_shape, pads) :=
        transforms.preprocess_img (preprocess_pixels env) imall b
                                  add_padding resize in
      Ok (map (map (adjust_triple b pads postpad_shape)) (predict env nt imall'))
  end.

(** The pass for the single frame [f] yields one row of one triple per
    keypoint. *)
Definition batch_ok (env : Env) (ly lx : Z) (b : BBox)
    (add_padding resize : bool) (nt : Net) (f : Z) : bool :=
  match batch_prediction env ly lx b add_padding resize nt [f] with
  | Ok [row] => (length row =? length (net_bodyparts nt))%nat
  | _ => false
  end.

(** The row stored for frame [f]. *)
Definition batch_row (env : Env) (ly lx : Z) (b : BBox)
    (add_padding resize : bool) (nt : Net) (f : Z) : list Triple :=
  match batch_prediction env ly lx b add_padding resize nt [f] with
  | Ok [row] => row
  | _ => []
  end.

(** The clock readings [t0] and [t1] of a pass entered at time [t]. *)
Definition pass_t0 (env : Env) (cframes : list Z) (t : Q) : Q :=
  (t + get_frames_seconds env cframes)%Q.
Definition pass_t1 (env : Env) (cframes : list Z) (t : Q) : Q :=
  (pass_t0 env cframes t + preprocess_seconds env cframes
   + predict_seconds env cframes + postprocess_seconds env cframes)%Q.

(** Events of the pass that handles row [k] of [n]. *)
Definition pass_events (env : Env) (n k f : Z) : list event :=
  [GetFrames [f]; Stored k (k + 1)]
  ++ (if progress_due (Z.min (k + 1 + batch_size env) n) n
      then [ProgressBar (Z.min (k + 1 + batch_size env) n)] else []).

(** The state after that pass. *)
Definition after_pass (env : Env) (n k f : Z) (s : St) : St :=
  with_now (pass_t1 env [f] (now s) + progress_seconds env [f])%Q
           (with_log (log s ++ pass_events env n k f) s).

(** The passes for the frames [frames], the first of them handling row
    [k]: final state, buffer and accumulated inference time. *)
Fixpoint run_passes (env : Env) (ly lx : Z) (b : BBox) (nt : Net) (n : Z)
    (frames : list Z) (k : Z) (s : St) (pred_data : list (list Triple))
    (inference_time : Q) : St * (list (list Triple) * Q) :=
  match frames with
  | [] => (s, (pred_data, inference_time))
  | f :: rest =>
      run_passes env ly lx b nt n rest (k + 1) (after_pass env n k f s)
        (<[Z.to_nat k := batch_row env ly lx b (add_padding s) (resize s) nt f]>
           pred_data)
        (inference_time + (pass_t1 env [f] (now s) - pass_t0 env [f] (now s)))%Q
  end.

(** The frame batches handed to [utils.get_frames], in order. *)
Definition fetched (l : list event) : list (list Z) :=
  omap (fun e => match e with GetFrames c => Some c | _ => None end) l.

(** The row ranges of the prediction buffer assigned, in order. *)
Definition stored (l : list event) : list (Z * Z) :=
  omap (fun e => match e with Stored a b => Some (a, b) | _ => None end) l.

(** The progress-bar updates emitted, in order. *)
Definition progress_updates (l : list event) : list Z :=
  omap (fun e => match e with ProgressBar d => Some d | _ => None end) l.

(** What the batch loop leaves untouched: the attributes of the instance,
    as they are bound, and the disk (the log and the clock go on; the
    mode of the network is [net_mode]). *)
Definition same_self (s s' : St) : Prop :=
  gui s' = gui s /\ filenames s' = filenames s /\ cumframes s' = cumframes s /\
  Ly s' = Ly s /\ Lx s' = Lx s /\ nframes s' = nframes s /\
  bodyparts s' = bodyparts s /\ bbox s' = bbox s /\ bbox_set s' = bbox_set s /\
  resize s' = resize s /\ add_padding s' = add_padding s /\ net s' = net s /\
  finetuned_model s' = finetuned_model s /\ disk s' = disk s.

(** Seconds between the two clock readings of the pass for [cframes]:
    preprocessing, inference, keypoint postprocessing. *)
Definition batch_seconds (env : Env) (cframes : list Z) : Q :=
  (preprocess_seconds env cframes + predict_seconds env cframes
   + postprocess_seconds env cframes)%Q.

(** Their sum over the single-frame batches of [frames]. *)
Definition inference_seconds (env : Env) (frames : list Z) : Q :=
  fold_right (fun f acc => (batch_seconds env [f] + acc)%Q) 0%Q frames.

(** The frames a call [predict_landmarks(video_id, frame_ind)] goes
    through: [frame_ind], or all of [0 .. cumframes[-1]). *)
Definition requested (s : St) (frame_ind : option (list Z))
    : option (list Z) :=
  match frame_ind with
  | Some l => Some l
  | None =>
      match last (cumframes s) with
      | Some t => if 0 <=? t then Some (np_arange t) else None
      | None => None
      end
  end.

(** The buffer [torch.zeros(total_frames, K, 3)]. *)
Definition zeros (total_frames : Z) (K : nat) : list (list Triple) :=
  replicate (Z.to_nat total_frames) (replicate K (0, 0, 0)%Q).

(** The dictionary built at lines 358-365. *)
Definition run_metadata (env : Env) (s : St) (b : BBox) (nt : Net)
    (total_frames : Z) (inference_speed : Q) : gmap string pyval :=
  <["batch_size" := PyInt (batch_size env)]>
  (<["image_size" := PySizes (Ly s) (Lx s)]>
  (<["bbox" := PyBBox b]>
  (<["total_frames" := PyInt total_frames]>
  (<["bodyparts" := PyStrs (net_bodyparts nt)]>
  (<["inference_speed" := PyFloat inference_speed]> ∅))))).

(** *** The table [write_dataframe] is expected to build *)

(** The three labels of a keypoint. *)
Definition labels_of (bodypart : string) : list Label :=
  map (fun c => (scorer, bodypart, c)) coords.

(** The three cells of a prediction. *)
Definition cells_of (t : Triple) : list (option Q) :=
  [Some (channel 0 t); Some (channel 1 t); Some (channel 2 t)].

(** The all-NaN table over the keypoints [bps] and the row labels [idx]. *)
Definition nan_table (bps : list string) (idx : list Z) : DataFrame :=
  mkDataFrame (flat_map labels_of bps) idx
              (map (fun _ => replicate (3 * length bps) None) idx).

(** The table holding [data], keypoint by keypoint. *)
Definition filled_table (bps : list string) (idx : list Z)
    (data : list (list Triple)) : DataFrame :=
  mkDataFrame (flat_map labels_of bps) idx (map (flat_map cells_of) data).

(** The row labels: [selected_frame_ind], or [0 .. cumframes[-1]). *)
Definition row_labels (s : St) (selected_frame_ind : option (list Z))
    : option (list Z) :=
  match selected_frame_ind with
  | Some l => Some l
  | None => match last (cumframes s) with
            | Some n => Some (np_arange n)
            | None => None
            end
  end.

(** *** Output paths *)

Definition pose_stem (finetuned : bool) : string :=
  if finetuned then "_FacemapPoseFinetuned" else "_FacemapPose".

(** The video's base name without its extension. *)
Definition videoname (f : string) : string :=
  fst (os_path.splitext (snd (os_path.split f))).

(** The directory the outputs of video [f] go to: the GUI's save path,
    or the directory of the video. *)
Definition output_dir (s : St) (f : string) : string :=
  match gui s with
  | Some g => save_path g
  | None => fst (os_path.split f)
  end.

(** What [os.path.join(d, name)] puts in front of a relative [name]. *)
Definition dir_prefix (d : string) : string :=
  match d with
  | EmptyString => EmptyString
  | _ => if os_path.endswith os_path.sep d then d
         else (d ++ String os_path.sep EmptyString)%string
  end.

Definition table_path (s : St) (f : string) : string :=
  os_path.join (output_dir s f)
               (videoname f ++ pose_suffix (finetuned_model s))%string.

Definition metadata_path (s : St) (f : string) : string :=
  (os_path.join (output_dir s f)
                (videoname f ++ pose_stem (finetuned_model s))
   ++ metadata_suffix (finetuned_model s))%string.

(** *** What a computation leaves related, whatever its outcome *)

Definition preserves {A} (R : St -> St -> Prop) (m : M A) : Prop :=
  forall s s' r, m s = (s', r) -> R s s'.

(** What [run_video] keeps: the names that decide the output paths, and
    every file already on disk stays a file on disk. *)
Definition naming_kept (s s' : St) : Prop :=
  filenames s' = filenames s /\
  finetuned_model s' = finetuned_model s /\
  (save_path <$> gui s') = (save_path <$> gui s) /\
  dom (disk s) ⊆ dom (disk s').

(** The run was not cut off by the fuel bound of the model. *)
Definition never_cut_short {A} (m : M A) : Prop :=
  forall s, snd (m s) <> Raise OutOfFuel.

(** The messages among the calls to the host. *)
Definition is_message (e : event) : bool :=
  match e with
  | Message _ _ => true
  | _ => false
  end.

Definition messages (l : list event) : list event := List.filter is_message l.

(** The log grew, and by no message. *)
Definition quiet (s s' : St) : Prop :=
  exists evs, log s' = log s ++ evs /\ messages evs = [].

(** The network is the one it was. *)
Definition net_kept (s s' : St) : Prop := net s' = net s.

(** The disk is as it was. *)
Definition disk_kept (s s' : St) : Prop := disk s' = disk s.


(** The values of [end] tested against the progress step after the
    passes for rows [0 .. count) of [n]. *)
Definition tested_ends (n : Z) (count : nat) : list Z :=
  map (fun k => Z.min (Z.of_nat k + 2) n) (seq 0 count).


(** The model step of the setup goes through: the instance has a
    network, or the parameter file is read and the network is built and
    loaded from the default state file. *)
Definition model_at_hand (env : Env) (s : St) : bool :=
  match net s with
  | Some _ => true
  | None =>
      match model_params env with
      | Ok bps => match load_net env None bps with
                  | Ok _ => true
                  | Raise _ => false
                  end
      | Raise _ => false
      end
  end.

(** The mode of the network after [predict_landmarks(video_id,
    frame_ind)] on [s]: line 281 is reached when there is a network and
    the buffer of line 278 could be made. *)
Definition mode_after_predict (s : St) (frame_ind : option (list Z)) : mode :=
  match net s, requested s frame_ind with
  | Some _, Some _ => EvalMode
  | _, _ => net_mode s
  end.

(** ** Concrete runs *)

(** A scripted environment: every frame decodes, the network answers the
    same triple for every keypoint, the sampler answers the first [size]
    indices in descending order, every step takes a fixed time. *)
Definition demo_env : Env :=
  {| cuda_is_available := false;
     get_frame_details := fun _ => Ok ([0; 30], [480], [640]);
     model_params := Ok ["eye"; "nose"];
     load_net := fun _ bps => Ok (mkNet bps);
     get_frames := fun _ _ => Ok [[0]];
     preprocess_pixels := fun im _ _ _ => im;
     predict := fun nt _ => [map (fun _ => (128 # 1, 64 # 1, 1 # 1)) (net_bodyparts nt)];
     random_choice := fun _ size => rev (np_arange size);
     writable := fun _ => true;
     get_frames_seconds := fun _ => 20 # 1000;
     preprocess_seconds := fun _ => 1 # 1000;
     predict_seconds := fun _ => 8 # 1000;
     postprocess_seconds := fun _ => 1 # 1000;
     progress_seconds := fun _ => 0 # 1 |}.

Definition demo_net : Net := mkNet ["eye"; "nose"].

Definition demo_gui : Gui :=
  mkGui [["/data/cam0.avi"]] [] "/out" [] false.

(** One 640 x 480 video (480 rows), no bbox set, driven from a GUI. *)
Definition demo_gui_pose : St :=
  mkSt (Some demo_gui) [["/data/cam0.avi"]] [0; 30] [480] [640] 30
       (Some ["eye"; "nose"]) [] false false false (Some demo_net) false
       ∅ [] 0%Q AsReceived.

(** A 256 x 256 video followed by a 640 x 480 one, driven from a GUI. *)
Definition demo_gui_two_sizes : St :=
  mkSt (Some demo_gui) [["/data/cam0.avi"; "/data/cam1.avi"]] [0; 30]
       [256; 480] [256; 640] 30 (Some ["eye"; "nose"]) [] false false false
       (Some demo_net) false ∅ [] 0%Q AsReceived.

(** The same video, driven without a GUI. *)
Definition demo_cli_pose : St :=
  mkSt None [["/data/cam0.avi"]] [0; 30] [480] [640] 30
       (Some ["eye"; "nose"]) [] false false false (Some demo_net) false
       ∅ [] 0%Q AsReceived.

(** The same video with a user-supplied bbox, ready to predict. *)
Definition demo_ready_pose : St :=
  mkSt None [["/data/cam0.avi"]] [0; 30] [480] [640] 30
       (Some ["eye"; "nose"]) [mkBBox 0 480 0 640] true true true
       (Some demo_net) false ∅ [] 0%Q AsReceived.

(** Two videos of different frame sizes, 3 frames, boxes set. *)
Definition demo_two_videos : St :=
  mkSt None [["/data/cam0.avi"; "/data/cam1.avi"]] [0; 3] [480; 240]
       [640; 320] 3 (Some ["eye"; "nose"])
       [mkBBox 0 480 0 640; mkBBox 0 240 0 320] true true true
       (Some demo_net) false ∅ [] 0%Q AsReceived.

(** The same two videos in the other order. *)
Definition demo_two_videos_swapped : St :=
  mkSt None [["/data/cam0.avi"; "/data/cam1.avi"]] [0; 3] [240; 480]
       [320; 640] 3 (Some ["eye"; "nose"])
       [mkBBox 0 240 0 320; mkBBox 0 480 0 640] true true true
       (Some demo_net) false ∅ [] 0%Q AsReceived.

(** The scripted environment with a frame source that cannot decode into
    buffers of 240 rows. *)
Definition flaky_env : Env :=
  {| cuda_is_available := cuda_is_available demo_env;
     get_frame_details := get_frame_details demo_env;
     model_params := model_params demo_env;
     load_net := load_net demo_env;
     get_frames := fun shape _ =>
       if fst shape =? 240 then Raise (External "FrameFetchError")
       else Ok [[0]];
     preprocess_pixels := preprocess_pixels demo_env;
     predict := predict demo_env;
     random_choice := random_choice demo_env;
     writable := writable demo_env;
     get_frames_seconds := get_frames_seconds demo_env;
     preprocess_seconds := preprocess_seconds demo_env;
     predict_seconds := predict_seconds demo_env;
     postprocess_seconds := postprocess_seconds demo_env;
     progress_seconds := progress_seconds demo_env |}.

(** A clip of 5 frames, boxes set. *)
Definition demo_short_clip : St :=
  mkSt None [["/data/cam0.avi"]] [0; 5] [480] [640] 5
       (Some ["eye"; "nose"]) [mkBBox 0 480 0 640] true true true
       (Some demo_net) false ∅ [] 0%Q AsReceived.

(** What [np.random.choice(n, size, replace=False)] promises of its
    answer [c]. *)
Definition sample_without_replacement (n size : Z) (c : list Z) : Prop :=
  length c = Z.to_nat size /\ NoDup c /\ Forall (fun x => 0 <= x < n) c.

(** The scripted environment with a model zoo that cannot be read. *)
Definition no_model_env : Env :=
  {| cuda_is_available := cuda_is_available demo_env;
     get_frame_details := get_frame_details demo_env;
     model_params := Raise (External "ModelLoadError");
     load_net := load_net demo_env;
     get_frames := get_frames demo_env;
     preprocess_pixels := preprocess_pixels demo_env;
     predict := predict demo_env;
     random_choice := random_choice demo_env;
     writable := writable demo_env;
     get_frames_seconds := get_frames_seconds demo_env;
     preprocess_seconds := preprocess_seconds demo_env;
     predict_seconds := predict_seconds demo_env;
     postprocess_seconds := postprocess_seconds demo_env;
     progress_seconds := progress_seconds demo_env |}.

(** A fresh instance without a network. *)
Definition demo_fresh_pose : St :=
  mkSt (Some demo_gui) [["/data/cam0.avi"]] [0; 30] [480] [640] 30
       None [] false false false None false ∅ [] 0%Q AsReceived.

(** An instance given a network but no bodyparts. *)
Definition demo_unnamed_pose : St :=
  mkSt None [["/data/cam0.avi"]] [0; 3] [480] [640] 3
       None [mkBBox 0 480 0 640] true true true
       (Some demo_net) false ∅ [] 0%Q AsReceived.

(** An instance driven from a GUI whose pose-file list is still empty,
    boxes set. *)
Definition demo_gui_ready_pose : St :=
  mkSt (Some demo_gui) [["/data/cam0.avi"]] [0; 3] [480] [640] 3
       (Some ["eye"; "nose"]) [mkBBox 0 480 0 640] true true true
       (Some demo_net) false ∅ [] 0%Q AsReceived.

(** A training that returns a network for one keypoint. *)
Definition demo_trainer (b : BBox) (old : option Net) : res Net :=
  Ok (mkNet ["whisker"]).

(** A GUI-driven instance on one 256 x 256 video, no bbox set. *)
Definition demo_gui_square_pose : St :=
  mkSt (Some demo_gui) [["/data/cam9.avi"]] [0; 30] [256] [256] 30
       (Some ["eye"; "nose"]) [] false false false (Some demo_net) false
       ∅ [] 0%Q AsReceived.

(** Two views with the same file name in two directories, driven from a
    GUI that already lists two pose files; 3 frames, boxes set. *)
Definition demo_same_names : St :=
  mkSt (Some (mkGui [["/a/cam.avi"; "/b/cam.avi"]] [] "/out"
                    ["old0.h5"; "old1.h5"] false))
       [["/a/cam.avi"; "/b/cam.avi"]] [0; 3] [480; 480] [640; 640] 3
       (Some ["eye"; "nose"])
       [mkBBox 0 480 0 640; mkBBox 0 480 0 640] true true true
       (Some demo_net) false ∅ [] 0%Q AsReceived.

(** One video of 20 frames, boxes set. *)
Definition demo_twenty_frames : St :=
  mkSt None [["/data/cam0.avi"]] [0; 20] [480] [640] 20
       (Some ["eye"; "nose"]) [mkBBox 0 480 0 640] true true true
       (Some demo_net) false ∅ [] 0%Q AsReceived.

(** The scripted environment with a frame source that cannot decode
    frame 2. *)
Definition bad_frame_env : Env :=
  {| cuda_is_available := cuda_is_available demo_env;
     get_frame_details := get_frame_details demo_env;
     model_params := model_params demo_env;
     load_net := load_net demo_env;
     get_frames := fun _ cframes =>
       match cframes with
       | [2] => Raise (External "FrameFetchError")
       | _ => Ok [[0]]
       end;
     preprocess_pixels := preprocess_pixels demo_env;
     predict := predict demo_env;
     random_choice := random_choice demo_env;
     writable := writable demo_env;
     get_frames_seconds := get_frames_seconds demo_env;
     preprocess_seconds := preprocess_seconds demo_env;
     predict_seconds := predict_seconds demo_env;
     postprocess_seconds := postprocess_seconds demo_env;
     progress_seconds := progress_seconds demo_env |}.

(** An instance constructed with keypoint names of the caller and no
    network. *)
Definition demo_named_no_net : St :=
  mkSt (Some demo_gui) [["/data/cam0.avi"]] [0; 30] [480] [640] 30
       (Some ["whisker"]) [] false false false None false ∅ [] 0%Q AsReceived.

(** The scripted environment with a model state file that cannot be
    loaded into the network. *)
Definition bad_state_env : Env :=
  {| cuda_is_available := cuda_is_available demo_env;
     get_frame_details := get_frame_details demo_env;
     model_params := model_params demo_env;
     load_net := fun _ _ => Raise (External "StateLoadError");
     get_frames := get_frames demo_env;
     preprocess_pixels := preprocess_pixels demo_env;
     predict := predict demo_env;
     random_choice := random_choice demo_env;
     writable := writable demo_env;
     get_frames_seconds := get_frames_seconds demo_env;
     preprocess_seconds := preprocess_seconds demo_env;
     predict_seconds := predict_seconds demo_env;
     postprocess_seconds := postprocess_seconds demo_env;
     progress_seconds := progress_seconds demo_env |}.

(** * Properties *)

(** ** Reasoning in the monad *)

Lemma bind_ok {A B} (m : M A) (k : A -> M B) s s' a :
  m s = (s', Ok a) -> bind m k s = k a s'.
Proof. intros H. unfold bind. now rewrite H. Qed.

Lemma bind_raise {A B} (m : M A) (k : A -> M B) s s' e :
  m s = (s', Raise e) -> bind m k s = (s', Raise e).
Proof. intros H. unfold bind. now rewrite H. Qed.

Lemma bind_inv_ok {A B} (m : M A) (k : A -> M B) s s2 b :
  bind m k s = (s2, Ok b) ->
  exists s1 a, m s = (s1, Ok a) /\ k a s1 = (s2, Ok b).
Proof.
  unfold bind. destruct (m s) as [s1 [a|e]]; intros H.
  - now exists s1, a.
  - discriminate.
Qed.

Lemma index_lookup {A} (l : list A) i a s :
  l !! i = Some a -> index l i s = (s, Ok a).
Proof. intros H. unfold index. now rewrite H. Qed.

Lemma index_out {A} (l : list A) i s :
  l !! i = None -> index l i s = (s, Raise IndexError).
Proof. intros H. unfold index. now rewrite H. Qed.

Lemma for_each_app {A} (xs ys : list A) (body : A -> M unit) s :
  for_each (xs ++ ys) body s =
  bind (for_each xs body) (fun _ => for_each ys body) s.
Proof.
  revert s. induction xs as [|x xs IH]; intros s; simpl.
  - reflexivity.
  - unfold bind in *. destruct (body x s) as [s1 [[]|e]]; [apply IH | reflexivity].
Qed.

(** ** [pose_prediction_setup] *)

Section Setup.
Context (env : Env).

Lemma setup_video_ok i s g ly lx :
  gui s = Some g -> Ly s !! i = Some ly -> Lx s !! i = Some lx ->
  setup_video i s = (after_setup_video g ly lx s, Ok tt).
Proof.
  intros Hg Hy Hx. destruct s; simpl in *. subst.
  unfold setup_video, bind, get, index, modify, when, gui_attr,
    update_mainwindow_message; simpl.
  rewrite Hy, Hx; simpl.
  unfold after_setup_video, non_square, not_256, full_frame; simpl.
  rewrite !Z.sub_0_r.
  destruct (ly =? lx), (ly =? 256), (lx =? 256), resize0, add_padding0; reflexivity.
Qed.

Lemma after_setup_loop_fields g dims s :
  let s' := after_setup_loop g dims s in
  gui s' = gui s /\ Ly s' = Ly s /\ Lx s' = Lx s /\ net s' = net s /\
  bbox_set s' = bbox_set s /\ disk s' = disk s /\ now s' = now s /\
  filenames s' = filenames s /\ cumframes s' = cumframes s /\
  bodyparts s' = bodyparts s /\ finetuned_model s' = finetuned_model s /\
  nframes s' = nframes s /\
  bbox s' = bbox s ++ map (fun d => full_frame (fst d) (snd d)) dims /\
  add_padding s' = add_padding s || existsb non_square dims /\
  resize s' = resize s || existsb not_256 dims.
Proof.
  revert s. induction dims as [|[ly lx] dims IH]; intros s; simpl.
  - rewrite app_nil_r, !orb_false_r. repeat split; reflexivity.
  - specialize (IH (after_setup_video g ly lx s)). simpl in IH.
    destruct IH as (-> & -> & -> & -> & -> & -> & -> & -> & -> & -> & -> & -> & -> & -> & ->).
    simpl. rewrite <- app_assoc, !orb_assoc. repeat split; reflexivity.
Qed.

Lemma frame_dims_step s k n ly lx :
  Ly s !! k = Some ly -> Lx s !! k = Some lx ->
  frame_dims s k (S n) = (ly, lx) :: frame_dims s (S k) n.
Proof.
  intros Hy Hx. unfold frame_dims.
  rewrite (drop_S _ _ _ Hy), (drop_S _ _ _ Hx). reflexivity.
Qed.

Lemma setup_loop_ok g n : forall k s,
  gui s = Some g ->
  (k + n <= length (Ly s))%nat -> (k + n <= length (Lx s))%nat ->
  for_each (seq k n) setup_video s
  = (after_setup_loop g (frame_dims s k n) s, Ok tt).
Proof.
  induction n as [|n IH]; intros k s Hg Hy Hx.
  - unfold frame_dims. rewrite !take_0. reflexivity.
  - destruct (lookup_lt_is_Some_2 (Ly s) k) as [ly Hly]; [lia|].
    destruct (lookup_lt_is_Some_2 (Lx s) k) as [lx Hlx]; [lia|].
    simpl. rewrite (bind_ok _ _ _ _ _ (setup_video_ok k s g ly lx Hg Hly Hlx)).
    rewrite (frame_dims_step s k n ly lx Hly Hlx). simpl.
    rewrite IH by (simpl; first [assumption | lia]).
    reflexivity.
Qed.

Lemma map_zip_full_frame (l m : list Z) :
  map (fun d => full_frame (fst d) (snd d)) (zip l m) = zip_with full_frame l m.
Proof.
  revert m. induction l as [|a l IH]; intros [|c m]; simpl; try reflexivity.
  now rewrite IH.
Qed.

Lemma all_256_no_flag (dims : list (Z * Z)) :
  Forall (fun d => d = (256, 256)) dims ->
  existsb non_square dims = false /\ existsb not_256 dims = false.
Proof.
  induction 1 as [|d l Hd _ IH]; [split; reflexivity|].
  subst d. simpl. exact IH.
Qed.

Lemma setup_ok (s : St) (g : Gui) (nt : Net) :
  bbox_set s = false -> gui s = Some g -> net s = Some nt ->
  length (Lx s) = length (Ly s) ->
  pose_prediction_setup env s
  = (with_bbox_set true
       (after_setup_loop g (zip (Ly s) (Lx s)) s), Ok tt).
Proof.
  intros Hb Hg Hn Hlen. unfold pose_prediction_setup.
  unfold bind at 1. unfold get at 1. rewrite Hn. simpl when at 1.
  unfold bind at 1. unfold ret at 1. unfold bind at 1. unfold get at 1.
  rewrite Hb. simpl. unfold range.
  assert (H1 : (0 + length (Ly s) <= length (Ly s))%nat) by lia.
  assert (H2 : (0 + length (Ly s) <= length (Lx s))%nat) by lia.
  rewrite (bind_ok _ _ _ _ _ (setup_loop_ok g _ 0 s Hg H1 H2)).
  unfold frame_dims, modify. rewrite !drop_0, firstn_all.
  rewrite <- Hlen, firstn_all. reflexivity.
Qed.

(** The model step of the setup (lines 59-60) leaves frames, boxes and
    flags alone. *)
Lemma model_step_ok (s : St) :
  model_at_hand env s = true ->
  exists s1 nt,
    when (match net s with None => true | Some _ => false end)
         (load_model env None) s = (s1, Ok tt) /\
    net s1 = Some nt /\ gui s1 = gui s /\ Ly s1 = Ly s /\ Lx s1 = Lx s /\
    bbox s1 = bbox s /\ bbox_set s1 = bbox_set s /\
    add_padding s1 = add_padding s /\ resize s1 = resize s.
Proof.
  unfold model_at_hand. destruct (net s) as [nt|] eqn:Hn.
  - intros _. exists s, nt. repeat split; assumption.
  - destruct (model_params env) as [bps|] eqn:He; [|discriminate].
    destruct (load_net env None bps) as [nt|] eqn:Hl; [|discriminate].
    intros _. eexists _, nt. split.
    { unfold when, load_model, bind, update_mainwindow_message, modify, lift,
        ret.
      rewrite He, Hl. reflexivity. }
    repeat split.
Qed.

Lemma setup_with_model_step (s s1 : St) (g : Gui) :
  when (match net s with None => true | Some _ => false end)
       (load_model env None) s = (s1, Ok tt) ->
  bbox_set s1 = false -> gui s1 = Some g ->
  length (Lx s1) = length (Ly s1) ->
  pose_prediction_setup env s
  = (with_bbox_set true
       (after_setup_loop g (zip (Ly s1) (Lx s1)) s1), Ok tt).
Proof.
  intros Hstep Hb Hg Hlen. unfold pose_prediction_setup.
  unfold bind at 1. unfold get at 1.
  rewrite (bind_ok _ _ _ _ _ Hstep).
  unfold bind at 1. unfold get at 1.
  rewrite Hb. simpl. unfold range.
  assert (H1 : (0 + length (Ly s1) <= length (Ly s1))%nat) by lia.
  assert (H2 : (0 + length (Ly s1) <= length (Lx s1))%nat) by lia.
  rewrite (bind_ok _ _ _ _ _ (setup_loop_ok g _ 0 s1 Hg H1 H2)).
  unfold frame_dims, modify. rewrite !drop_0, firstn_all.
  rewrite <- Hlen, firstn_all. reflexivity.
Qed.

(** C2, as the code has it.  With a GUI host, no bbox set and a network
    given or loaded by the setup itself (the default instance, with
    [net=None], when the model files are read), [pose_prediction_setup]
    completes and appends one full-frame box per video, in order:
    [x1 = y1 = 0], the x-range spans [Ly[i]] (the number of rows, the
    frame height) and the y-range spans [Lx[i]] (the number of columns,
    the frame width), so [x2 > x1] and [y2 > y1] for frames of positive
    size.  [add_padding] ends up set exactly when it was set before or
    some video is not square, [resize] exactly when it was set before or
    some video is not 256 x 256; the flags are shared by all videos.
    With both flags clear and every frame 256 x 256 both stay clear. *)
Theorem setup_derives_full_frame_boxes (s : St) (g : Gui) :
  bbox_set s = false -> gui s = Some g -> model_at_hand env s = true ->
  length (Lx s) = length (Ly s) ->
  exists s',
    pose_prediction_setup env s = (s', Ok tt) /\
    bbox_set s' = true /\
    bbox s' = bbox s ++ zip_with full_frame (Ly s) (Lx s) /\
    (forall i ly lx, Ly s !! i = Some ly -> Lx s !! i = Some lx ->
       exists b, bbox s' !! (length (bbox s) + i)%nat = Some b /\
         x1 b = 0 /\ y1 b = 0 /\ x2 b - x1 b = ly /\ y2 b - y1 b = lx /\
         (0 < ly -> x1 b < x2 b) /\ (0 < lx -> y1 b < y2 b)) /\
    add_padding s' = add_padding s || existsb non_square (zip (Ly s) (Lx s)) /\
    resize s' = resize s || existsb not_256 (zip (Ly s) (Lx s)) /\
    (add_padding s = false -> resize s = false ->
     Forall (fun d => d = (256, 256)) (zip (Ly s) (Lx s)) ->
     add_padding s' = false /\ resize s' = false).
Proof.
  intros Hb Hg Hm Hlen.
  destruct (model_step_ok s Hm)
    as (s1 & nt & Hstep & _ & Eg & Ey & Ex & Ebox & Eset & Epad & Ers).
  eexists. split.
  { apply (setup_with_model_step s s1 g Hstep); congruence. }
  pose proof (after_setup_loop_fields g (zip (Ly s1) (Lx s1)) s1) as F.
  simpl in F.
  destruct F as (_ & _ & _ & _ & _ & _ & _ & _ & _ & _ & _ & _ & Fb & Fp & Fr).
  simpl. rewrite Fb, Fp, Fr, map_zip_full_frame, Ey, Ex, Ebox, Epad, Ers.
  split; [reflexivity|]. split; [reflexivity|]. split.
  - intros i ly lx Hy Hx. exists (full_frame ly lx). split.
    + rewrite lookup_app_r by lia.
      replace (length (bbox s) + i - length (bbox s))%nat with i by lia.
      rewrite lookup_zip_with, Hy. simpl. rewrite Hx. reflexivity.
    + simpl. repeat split; lia.
  - split; [reflexivity|]. split; [reflexivity|].
    intros Hp Hr Hall. rewrite Hp, Hr. simpl.
    exact (all_256_no_flag _ Hall).
Qed.

Lemma setup_video_no_gui i s ly lx :
  gui s = None -> Ly s !! i = Some ly -> Lx s !! i = Some lx ->
  exists s',
    setup_video i s = (s', Raise (AttributeError "NoneType" "bbox")) /\
    bbox s' = bbox s ++ [full_frame ly lx] /\
    bbox_set s' = bbox_set s.
Proof.
  intros Hg Hy Hx. destruct s; simpl in *. subst.
  unfold setup_video, bind, get, index, modify, when, gui_attr; simpl.
  rewrite Hy, Hx; simpl.
  destruct (negb (ly - 0 =? lx - 0)),
           (negb (ly - 0 =? 256) || negb (lx - 0 =? 256));
    simpl; eexists; repeat split.
Qed.

(** C3 on the code.  Without a GUI ([gui=None]) and with no bbox set, the
    first iteration formats its prompt from [self.gui.bbox] and raises
    AttributeError; the box of the first video has been appended by then
    and [bbox_set] is still false. *)
Theorem setup_without_gui_raises (s : St) (nt : Net) (ly lx : Z) :
  bbox_set s = false -> gui s = None -> net s = Some nt ->
  Ly s !! 0%nat = Some ly -> Lx s !! 0%nat = Some lx ->
  exists s',
    pose_prediction_setup env s
    = (s', Raise (AttributeError "NoneType" "bbox")) /\
    bbox s' = bbox s ++ [full_frame ly lx] /\
    bbox_set s' = false.
Proof.
  intros Hb Hg Hn Hy Hx.
  destruct (setup_video_no_gui 0 s ly lx Hg Hy Hx) as (s' & Hrun & Hbox & Hset).
  exists s'. split; [|split; [assumption | congruence]].
  unfold pose_prediction_setup.
  unfold bind at 1. unfold get at 1. rewrite Hn. simpl when at 1.
  unfold bind at 1. unfold ret at 1. unfold bind at 1. unfold get at 1.
  rewrite Hb. simpl when. unfold range.
  destruct (Ly s) as [|ly' lys] eqn:ELy; [discriminate|].
  simpl length. simpl seq. simpl for_each.
  apply bind_raise. apply bind_raise. exact Hrun.
Qed.

End Setup.

(** The state of the run without a GUI is the one [Pose(filenames, bodyparts,
    net=net)] constructs. *)
Example demo_cli_pose_constructed :
  Pose_init demo_env [["/data/cam0.avi"]] (Some ["eye"; "nose"]) [] false
            false false None (Some demo_net) ∅
  = Ok demo_cli_pose.
Proof. reflexivity. Qed.

Lemma setup_derives_full_frame_boxes_witness :
  exists s',
    pose_prediction_setup demo_env demo_named_no_net = (s', Ok tt) /\
    bbox s' = [mkBBox 0 480 0 640] /\
    add_padding s' = true /\ resize s' = true.
Proof.
  destruct (setup_derives_full_frame_boxes demo_env demo_named_no_net demo_gui
              eq_refl eq_refl eq_refl eq_refl)
    as (s' & Hrun & _ & Hbox & _ & Hp & Hr & _).
  exists s'. repeat split; assumption.
Defined.

(** C2 as stated fails: for the 640 x 480 video the derived x-range is the
    frame height 480, not the frame width 640; and with a 256 x 256 video
    next to a 640 x 480 one both flags end up set, for the 256 x 256 video
    as well. *)
Lemma setup_x_range_is_not_width :
  (exists s' b,
     pose_prediction_setup demo_env demo_gui_pose = (s', Ok tt) /\
     bbox s' !! 0%nat = Some b /\
     Ly demo_gui_pose !! 0%nat = Some 480 /\
     Lx demo_gui_pose !! 0%nat = Some 640 /\
     x2 b - x1 b = 480 /\ x2 b - x1 b <> 640 /\
     y2 b - y1 b = 640 /\ y2 b - y1 b <> 480) /\
  (exists s',
     pose_prediction_setup demo_env demo_gui_two_sizes = (s', Ok tt) /\
     Ly demo_gui_two_sizes !! 0%nat = Some 256 /\
     Lx demo_gui_two_sizes !! 0%nat = Some 256 /\
     add_padding s' = true /\ resize s' = true).
Proof.
  split.
  - eexists. exists (mkBBox 0 480 0 640).
    split; [vm_compute; reflexivity|].
    repeat split; simpl; try reflexivity; lia.
  - eexists. split; [vm_compute; reflexivity|]. repeat split.
Qed.

Lemma setup_without_gui_raises_witness :
  exists s',
    pose_prediction_setup demo_env demo_cli_pose
    = (s', Raise (AttributeError "NoneType" "bbox")) /\
    bbox s' = [mkBBox 0 480 0 640] /\
    bbox_set s' = false.
Proof.
  exact (setup_without_gui_raises demo_env demo_cli_pose demo_net 480 640
           eq_refl eq_refl eq_refl eq_refl eq_refl).
Defined.

(** ** The geometric round trip *)

Section Geometry.
Import transforms.

Lemma adjust_triple_wired b add_padding resize x y l :
  adjust_triple b (snd (pad_plan b add_padding)) (fst (pad_plan b add_padding))
                (x, y, l)
  = (fst (denormalize_point b add_padding resize (x, y)),
     snd (denormalize_point b add_padding resize (x, y)), l).
Proof.
  unfold adjust_triple, denormalize_point.
  destruct (pad_plan b add_padding) as [shape pads]. reflexivity.
Qed.

Lemma axis_roundtrip_scaled (c o pad S : Q) :
  ~ (S == 0)%Q ->
  ((c - o + pad) * ((256 # 1) / S) * (S / (256 # 1)) - pad + o == c)%Q.
Proof. intros HS. field. exact HS. Qed.

Lemma axis_roundtrip_unscaled (c o pad : Q) :
  ((c - o + pad) * ((256 # 1) / (256 # 1)) - pad + o == c)%Q.
Proof. field. Qed.

Lemma inject_Z_nonzero (z : Z) : z <> 0 -> ~ (inject_Z z == 0)%Q.
Proof.
  intros Hz H. apply Hz. unfold Qeq, inject_Z in H. simpl in H. lia.
Qed.

Lemma pad_plan_positive b add_padding :
  x1 b < x2 b -> y1 b < y2 b ->
  0 < fst (fst (pad_plan b add_padding)) /\
  0 < snd (fst (pad_plan b add_padding)).
Proof.
  intros Hx Hy. unfold pad_plan, crop_shape.
  destruct (add_padding && negb (x2 b - x1 b =? y2 b - y1 b)); simpl;
    [destruct (x2 b - x1 b <? y2 b - y1 b)|]; simpl; lia.
Qed.

(** C1, as the specification's transform has it.  For a bbox with
    [x2 > x1] and [y2 > y1] and either flag value of [add_padding], the
    inverse wired by [predict_landmarks] undoes the forward transform on
    every point, in exact arithmetic, provided [resize] is set or the
    post-pad shape is already 256 x 256. *)
Theorem wired_inverse_roundtrip (b : BBox) (add_padding resize : bool)
    (p : Q * Q) :
  x1 b < x2 b -> y1 b < y2 b ->
  resize = true \/ fst (pad_plan b add_padding) = (256, 256) ->
  point_eq (denormalize_point b add_padding resize
              (normalize_point b add_padding resize p)) p.
Proof.
  intros Hx Hy Hr.
  destruct (pad_plan_positive b add_padding Hx Hy) as [Hsx Hsy].
  unfold denormalize_point, normalize_point, adjust_keypoints, point_eq.
  destruct (pad_plan b add_padding) as [[sx sy] pads]. simpl in *.
  unfold rescales. simpl.
  destruct Hr as [-> | Heq].
  - simpl. destruct ((sx =? 256) && (sy =? 256)) eqn:E; simpl.
    + apply andb_prop in E. destruct E as [Ex Ey].
      apply Z.eqb_eq in Ex, Ey. subst sx sy.
      split; apply axis_roundtrip_unscaled.
    + split; apply axis_roundtrip_scaled; apply inject_Z_nonzero; lia.
  - injection Heq as -> ->. rewrite andb_true_r. simpl.
    rewrite andb_false_r. simpl.
    split; apply axis_roundtrip_unscaled.
Qed.

End Geometry.

Lemma wired_inverse_roundtrip_witness :
  point_eq
    (denormalize_point (mkBBox 0 480 0 640) true true
       (transforms.normalize_point (mkBBox 0 480 0 640) true true
          (100 # 1, 300 # 1)))
    (100 # 1, 300 # 1).
Proof.
  apply (wired_inverse_roundtrip (mkBBox 0 480 0 640) true true);
    [simpl; lia | simpl; lia | left; reflexivity].
Defined.

(** C1 as stated fails: with [resize] clear and a 512 x 512 bbox the
    forward transform leaves the point (100, 100) where it is and the
    wired inverse, which scales by 512 / 256 regardless, returns
    (200, 200). *)
Lemma roundtrip_fails_without_resize :
  let b := mkBBox 0 512 0 512 in
  let p := (100 # 1, 100 # 1) in
  let q := denormalize_point b false false
             (transforms.normalize_point b false false p) in
  point_eq q (200 # 1, 200 # 1) /\ ~ point_eq q p.
Proof.
  split.
  - split; vm_compute; reflexivity.
  - intros [H _]. vm_compute in H. discriminate.
Qed.

(** ** The batch loop of [predict_landmarks] *)

Section BatchLoop.
Context (env : Env).

Lemma batch_size_1 : batch_size env = 1.
Proof. unfold batch_size. now destruct (cuda_is_available env). Qed.

Lemma slice_single {A} (l : list A) (k : Z) (a : A) :
  0 <= k -> l !! Z.to_nat k = Some a -> slice l k (k + 1) = [a].
Proof.
  intros Hk Hl. unfold slice.
  replace (Z.to_nat (k + 1) - Z.to_nat k)%nat with 1%nat by lia.
  rewrite (drop_S _ _ _ Hl). reflexivity.
Qed.

Lemma store_single (pd : list (list Triple)) (K : nat) (k : Z)
    (row old : list Triple) :
  0 <= k -> pd !! Z.to_nat k = Some old -> length row = K ->
  store pd K k (k + 1) [row] = Ok (<[Z.to_nat k := row]> pd).
Proof.
  intros Hk Hl HK. unfold store.
  rewrite (slice_single pd k old Hk Hl). simpl.
  rewrite HK, Nat.eqb_refl. simpl. f_equal.
  rewrite (insert_take_drop pd (Z.to_nat k) row)
    by (apply lookup_lt_is_Some; eauto).
  simpl. do 3 f_equal. lia.
Qed.

Lemma loop_pass fuel vid nt frame_ind n k pd it s ly lx b f old :
  Ly s !! vid = Some ly -> Lx s !! vid = Some lx -> bbox s !! vid = Some b ->
  0 <= k < n ->
  frame_ind !! Z.to_nat k = Some f ->
  pd !! Z.to_nat k = Some old ->
  batch_ok env ly lx b (add_padding s) (resize s) nt f = true ->
  batch_loop env (S fuel) vid nt frame_ind n k (k + 1) pd it s
  = batch_loop env fuel vid nt frame_ind n (k + 1)
      (Z.min (k + 1 + batch_size env) n)
      (<[Z.to_nat k := batch_row env ly lx b (add_padding s) (resize s) nt f]> pd)
      (it + (pass_t1 env [f] (now s) - pass_t0 env [f] (now s)))%Q
      (after_pass env n k f s).
Proof.
  intros Hly Hlx Hb Hk Hf Hold Hok.
  unfold batch_ok in Hok. unfold batch_row.
  destruct (batch_prediction env ly lx b (add_padding s) (resize s) nt [f])
    as [[|row [|]]|] eqn:E; try discriminate.
  apply Nat.eqb_eq in Hok.
  unfold batch_prediction in E.
  destruct (get_frames env (ly, lx) [f]) as [imall|] eqn:G; try discriminate.
  simpl batch_loop.
  replace (k =? n) with false by (symmetry; apply Z.eqb_neq; lia).
  unfold bind at 1. unfold get at 1.
  rewrite (bind_ok _ _ _ _ _ (index_lookup _ _ _ _ Hly)).
  rewrite (bind_ok _ _ _ _ _ (index_lookup _ _ _ _ Hlx)).
  rewrite (slice_single frame_ind k f ltac:(lia) Hf).
  unfold record at 1. unfold bind at 1. unfold modify at 1.
  unfold bind at 1. unfold lift at 1. rewrite G.
  unfold bind at 1. unfold time_passes at 1. unfold modify at 1.
  unfold bind at 1. unfold time_time at 1.
  unfold bind at 1. unfold index at 1. rewrite Hb. unfold ret at 1.
  destruct (transforms.preprocess_img (preprocess_pixels env) imall b
              (add_padding s) (resize s)) as [[imall' shape] pads] eqn:P.
  injection E as E.
  unfold bind at 1. unfold time_passes at 1. unfold modify at 1.
  unfold bind at 1. unfold time_passes at 1. unfold modify at 1.
  rewrite E.
  unfold bind at 1. unfold lift at 1.
  rewrite (store_single pd _ k row old ltac:(lia) Hold Hok).
  unfold bind at 1. unfold record at 1. unfold modify at 1.
  unfold bind at 1. unfold time_passes at 1. unfold modify at 1.
  unfold bind at 1. unfold time_time at 1.
  unfold bind at 1.
  unfold after_pass, pass_events, pass_t1, pass_t0.
  destruct (progress_due (Z.min (k + 1 + batch_size env) n) n);
    unfold when, update_mainwindow_progressbar, modify, ret;
    unfold bind at 1; unfold time_passes at 1; unfold modify at 1;
    destruct s; simpl; rewrite <- ?app_assoc; reflexivity.
Qed.

Lemma same_self_refl s : same_self s s.
Proof. repeat split. Qed.

Lemma same_self_trans s1 s2 s3 :
  same_self s1 s2 -> same_self s2 s3 -> same_self s1 s3.
Proof.
  unfold same_self. intros H1 H2.
  destruct H1 as (?&?&?&?&?&?&?&?&?&?&?&?&?&?).
  destruct H2 as (?&?&?&?&?&?&?&?&?&?&?&?&?&?).
  repeat split; congruence.
Qed.

Lemma after_pass_same_self n k f s : same_self s (after_pass env n k f s).
Proof. repeat split. Qed.

Lemma loop_unroll vid nt frame_ind n ly lx b :
  forall frames k fuel stop s pd it,
    Ly s !! vid = Some ly -> Lx s !! vid = Some lx -> bbox s !! vid = Some b ->
    0 <= k -> n = k + Z.of_nat (length frames) ->
    drop (Z.to_nat k) frame_ind = frames ->
    length pd = Z.to_nat n ->
    (k < n -> stop = k + 1) ->
    forallb (batch_ok env ly lx b (add_padding s) (resize s) nt) frames = true ->
    (length frames <= fuel)%nat ->
    batch_loop env fuel vid nt frame_ind n k stop pd it s
    = (fst (run_passes env ly lx b nt n frames k s pd it),
       Ok (snd (run_passes env ly lx b nt n frames k s pd it))).
Proof.
  induction frames as [|f rest IH];
    intros k fuel stop s pd it Hly Hlx Hb Hk Hn Hdrop Hpd Hstop Hok Hfuel.
  - simpl in Hn. replace n with k by lia.
    destruct fuel; simpl; rewrite Z.eqb_refl; reflexivity.
  - simpl length in Hn, Hfuel. destruct fuel as [|fuel]; [lia|].
    simpl in Hok. apply andb_prop in Hok. destruct Hok as [Hokf Hokr].
    assert (Hf : frame_ind !! Z.to_nat k = Some f).
    { rewrite <- (Nat.add_0_r (Z.to_nat k)), <- lookup_drop, Hdrop. reflexivity. }
    destruct (lookup_lt_is_Some_2 pd (Z.to_nat k)) as [old Hold]; [lia|].
    rewrite (Hstop ltac:(lia)).
    rewrite (loop_pass fuel vid nt frame_ind n k pd it s ly lx b f old)
      by (first [assumption | lia]).
    simpl run_passes.
    apply IH; try assumption; try lia.
    + replace (Z.to_nat (k + 1)) with (Z.to_nat k + 1)%nat by lia.
      rewrite <- drop_drop, Hdrop. reflexivity.
    + rewrite length_insert. assumption.
    + rewrite batch_size_1. lia.
Qed.

Lemma fetched_app l1 l2 : fetched (l1 ++ l2) = fetched l1 ++ fetched l2.
Proof. apply omap_app. Qed.

Lemma stored_app l1 l2 : stored (l1 ++ l2) = stored l1 ++ stored l2.
Proof. apply omap_app. Qed.

Lemma progress_updates_app l1 l2 :
  progress_updates (l1 ++ l2) = progress_updates l1 ++ progress_updates l2.
Proof. apply omap_app. Qed.

Lemma fetched_pass n k f : fetched (pass_events env n k f) = [[f]].
Proof. unfold pass_events. now destruct (progress_due _ _). Qed.

Lemma stored_pass n k f : stored (pass_events env n k f) = [(k, k + 1)].
Proof. unfold pass_events. now destruct (progress_due _ _). Qed.

Lemma run_passes_spec ly lx b nt n :
  forall frames k s pd it,
    0 <= k ->
    let r := run_passes env ly lx b nt n frames k s pd it in
    same_self s (fst r) /\
    length (fst (snd r)) = length pd /\
    exists evs,
      log (fst r) = log s ++ evs /\
      fetched evs = map (fun f => [f]) frames /\
      stored evs
      = map (fun i => (k + Z.of_nat i, k + Z.of_nat i + 1))
            (seq 0 (length frames)).
Proof.
  induction frames as [|f rest IH]; intros k s pd it Hk; simpl.
  - split; [apply same_self_refl|]. split; [reflexivity|].
    exists []. rewrite app_nil_r. repeat split.
  - destruct (IH (k + 1) (after_pass env n k f s)
                (<[Z.to_nat k := batch_row env ly lx b (add_padding s) (resize s) nt f]> pd)
                (it + (pass_t1 env [f] (now s) - pass_t0 env [f] (now s)))%Q
                ltac:(lia))
      as (Hsame & Hlen & evs & Hlog & Hfetch & Hstore).
    split; [eapply same_self_trans; [apply after_pass_same_self | exact Hsame]|].
    split; [rewrite Hlen; apply length_insert|].
    exists (pass_events env n k f ++ evs).
    split; [rewrite Hlog; simpl; rewrite <- app_assoc; reflexivity|].
    split.
    + rewrite fetched_app, fetched_pass, Hfetch. reflexivity.
    + rewrite stored_app, stored_pass, Hstore. simpl.
      rewrite <- seq_shift, map_map, Z.add_0_r.
      f_equal. apply map_ext. intros i. f_equal; lia.
Qed.

Lemma run_passes_time ly lx b nt n :
  forall frames k s pd it,
    (snd (snd (run_passes env ly lx b nt n frames k s pd it))
     == it + inference_seconds env frames)%Q.
Proof.
  induction frames as [|f rest IH]; intros k s pd it; simpl.
  - ring.
  - rewrite IH. unfold pass_t1, pass_t0, batch_seconds. ring.
Qed.

Lemma run_passes_rows ly lx b nt n :
  forall frames k s pd it,
    0 <= k ->
    (Z.to_nat k + length frames <= length pd)%nat ->
    let pd' := fst (snd (run_passes env ly lx b nt n frames k s pd it)) in
    (forall i f, frames !! i = Some f ->
       pd' !! (Z.to_nat k + i)%nat
       = Some (batch_row env ly lx b (add_padding s) (resize s) nt f)) /\
    (forall j, (j < Z.to_nat k)%nat -> pd' !! j = pd !! j).
Proof.
  induction frames as [|f rest IH]; intros k s pd it Hk Hlen; simpl.
  - split; [intros i f' H; discriminate | reflexivity].
  - simpl in Hlen.
    destruct (IH (k + 1) (after_pass env n k f s)
                (<[Z.to_nat k := batch_row env ly lx b (add_padding s) (resize s) nt f]> pd)
                (it + (pass_t1 env [f] (now s) - pass_t0 env [f] (now s)))%Q
                ltac:(lia) ltac:(rewrite length_insert; lia))
      as [Hrows Hbelow].
    split.
    + intros [|i] f' Hf'; simpl in Hf'.
      * injection Hf' as <-. rewrite Nat.add_0_r.
        rewrite Hbelow by lia.
        apply list_lookup_insert_eq. lia.
      * replace (Z.to_nat k + S i)%nat with (Z.to_nat (k + 1) + i)%nat by lia.
        apply Hrows. exact Hf'.
    + intros j Hj. rewrite Hbelow by lia.
      apply list_lookup_insert_ne. lia.
Qed.

Lemma progress_step_small n : 0 <= n < 20 -> progress_step n = 0.
Proof.
  intros Hn. unfold progress_step, Qfloor, Qmult, inject_Z. simpl.
  apply Z.div_small. lia.
Qed.

Lemma progress_never_due_small stop n : 0 <= n < 20 -> progress_due stop n = false.
Proof.
  intros Hn. unfold progress_due. rewrite (progress_step_small n Hn). reflexivity.
Qed.

Lemma run_passes_no_progress ly lx b nt n :
  0 <= n < 20 ->
  forall frames k s pd it,
    exists evs,
      log (fst (run_passes env ly lx b nt n frames k s pd it)) = log s ++ evs /\
      progress_updates evs = [].
Proof.
  intros Hn. induction frames as [|f rest IH]; intros k s pd it; simpl.
  - exists []. now rewrite app_nil_r.
  - destruct (IH (k + 1) (after_pass env n k f s)
                (<[Z.to_nat k := batch_row env ly lx b (add_padding s) (resize s) nt f]> pd)
                (it + (pass_t1 env [f] (now s) - pass_t0 env [f] (now s)))%Q)
      as (evs & Hlog & Hnone).
    exists (pass_events env n k f ++ evs).
    split; [rewrite Hlog; simpl; now rewrite <- app_assoc|].
    rewrite progress_updates_app, Hnone. unfold pass_events.
    rewrite (progress_never_due_small _ n Hn). reflexivity.
Qed.

(** [predict_landmarks] when every collaborator succeeds and the measured
    time is not zero. *)
Lemma predict_landmarks_run fuel vid frame_ind s nt ly lx b frames :
  net s = Some nt ->
  Ly s !! vid = Some ly -> Lx s !! vid = Some lx -> bbox s !! vid = Some b ->
  requested s frame_ind = Some frames ->
  forallb (batch_ok env ly lx b (add_padding s) (resize s) nt) frames = true ->
  (length frames <= fuel)%nat ->
  ~ (inference_seconds env frames == 0)%Q ->
  let n := Z.of_nat (length frames) in
  let r := run_passes env ly lx b nt n frames 0 (with_net_mode EvalMode s)
             (zeros n (length (net_bodyparts nt))) 0%Q in
  predict_landmarks env fuel vid frame_ind s
  = (fst r,
     Ok (fst (snd r),
         run_metadata env s b nt n (inject_Z n / snd (snd r))%Q)).
Proof.
  intros Hnet Hly Hlx Hb Hreq Hok Hfuel Htime n r.
  assert (Htf : match frame_ind with
                | None => bind (index_last (cumframes s))
                               (fun t => ret (t, np_arange t))
                | Some l => ret (Z.of_nat (length l), l)
                end s = (s, Ok (n, frames))).
  { destruct frame_ind as [l|]; simpl in Hreq.
    - injection Hreq as ->. reflexivity.
    - unfold index_last, bind. destruct (last (cumframes s)) as [t|]; [|discriminate].
      destruct (0 <=? t) eqn:Et; [|discriminate].
      injection Hreq as <-. unfold ret, n, np_arange.
      rewrite length_map, length_seq, Z2Nat.id by lia. reflexivity. }
  unfold predict_landmarks.
  unfold bind at 1. unfold get at 1.
  rewrite (bind_ok _ _ _ _ _ Htf).
  unfold bind at 1. unfold net_attr at 1. rewrite Hnet.
  replace (n <? 0) with false by (symmetry; apply Z.ltb_ge; lia).
  unfold bind at 1. unfold when at 1. unfold ret at 1.
  unfold bind at 1. unfold modify at 1.
  rewrite (bind_ok _ _ _ _ _ (index_lookup _ _ _ _ Hb)).
  assert (Hloop := loop_unroll vid nt frames n ly lx b frames 0 fuel
                     (batch_size env) (with_net_mode EvalMode s) (zeros n (length (net_bodyparts nt))) 0%Q
                     Hly Hlx Hb ltac:(lia) ltac:(lia) (drop_0 _)
                     ltac:(unfold zeros; rewrite length_replicate; reflexivity)
                     ltac:(intros _; rewrite batch_size_1; reflexivity)
                     Hok Hfuel).
  fold (zeros n (length (net_bodyparts nt))).
  rewrite (bind_ok _ _ _ _ _ Hloop).
  fold r. destruct (snd r) as [pd' it'] eqn:Er.
  assert (Hit : ~ (it' == 0)%Q).
  { pose proof (run_passes_time ly lx b nt n frames 0 (with_net_mode EvalMode s)
                  (zeros n (length (net_bodyparts nt))) 0%Q) as Ht.
    fold r in Ht. rewrite Er in Ht. simpl in Ht.
    intros H0. apply Htime. rewrite <- H0, Ht. ring. }
  rewrite batch_size_1. simpl (1 =? 1).
  unfold py_div.
  destruct (Qeq_bool it' 0) eqn:Eq0; [apply Qeq_bool_iff in Eq0; contradiction|].
  unfold bind, ret. simpl. unfold run_metadata. rewrite batch_size_1.
  reflexivity.
Qed.


(** C8, as the code has it.  A completed run returns a dictionary with
    exactly the keys batch_size, image_size, bbox, total_frames, bodyparts
    and inference_speed: batch_size is 1, image_size is the pair
    [(self.Ly, self.Lx)] of the sizes of all videos, bbox is the box of the
    processed video, total_frames the number of requested frames, bodyparts
    the keypoint names of the network, and inference_speed is total_frames
    divided by the seconds spent in preprocessing, inference and keypoint
    postprocessing; the seconds spent fetching frames are not counted. *)
Theorem predict_landmarks_metadata fuel vid frame_ind s nt ly lx b frames :
  net s = Some nt ->
  Ly s !! vid = Some ly -> Lx s !! vid = Some lx -> bbox s !! vid = Some b ->
  requested s frame_ind = Some frames ->
  forallb (batch_ok env ly lx b (add_padding s) (resize s) nt) frames = true ->
  (length frames <= fuel)%nat ->
  ~ (inference_seconds env frames == 0)%Q ->
  exists s' pd' md speed,
    predict_landmarks env fuel vid frame_ind s = (s', Ok (pd', md)) /\
    dom md = list_to_set ["batch_size"; "image_size"; "bbox"; "total_frames";
                          "bodyparts"; "inference_speed"] /\
    md !! "batch_size" = Some (PyInt 1) /\
    md !! "image_size" = Some (PySizes (Ly s) (Lx s)) /\
    md !! "bbox" = Some (PyBBox b) /\
    md !! "total_frames" = Some (PyInt (Z.of_nat (length frames))) /\
    md !! "bodyparts" = Some (PyStrs (net_bodyparts nt)) /\
    md !! "inference_speed" = Some (PyFloat speed) /\
    (speed == inject_Z (Z.of_nat (length frames)) / inference_seconds env frames)%Q.
Proof.
  intros Hnet Hly Hlx Hb Hreq Hok Hfuel Htime.
  pose proof (predict_landmarks_run fuel vid frame_ind s nt ly lx b frames
                Hnet Hly Hlx Hb Hreq Hok Hfuel Htime) as Hrun.
  simpl in Hrun.
  pose proof (run_passes_time ly lx b nt (Z.of_nat (length frames)) frames 0 (with_net_mode EvalMode s)
                (zeros (Z.of_nat (length frames)) (length (net_bodyparts nt)))
                0%Q) as Ht.
  destruct (run_passes env ly lx b nt (Z.of_nat (length frames)) frames 0 (with_net_mode EvalMode s)
              (zeros (Z.of_nat (length frames)) (length (net_bodyparts nt))) 0%Q)
    as [s' [pd' it']]. simpl in *.
  exists s', pd', (run_metadata env s b nt (Z.of_nat (length frames))
                     (inject_Z (Z.of_nat (length frames)) / it')%Q),
         (inject_Z (Z.of_nat (length frames)) / it')%Q.
  split; [exact Hrun|].
  unfold run_metadata. rewrite batch_size_1.
  split; [rewrite !dom_insert_L, dom_empty_L; simpl; set_solver|].
  repeat (split; [reflexivity|]).
  rewrite Ht. rewrite Qplus_0_l. reflexivity.
Qed.

(** C10.  For a run of fewer than 20 (and more than 0) frames the step
    [np.floor(total_frames * 0.05)] is 0, the remainder modulo it is nan
    for every [end], and [predict_landmarks] emits no progress-bar update,
    yet completes and returns one row of predictions per requested frame. *)
Theorem short_run_emits_no_progress fuel vid frame_ind s nt ly lx b frames :
  net s = Some nt ->
  Ly s !! vid = Some ly -> Lx s !! vid = Some lx -> bbox s !! vid = Some b ->
  requested s frame_ind = Some frames ->
  forallb (batch_ok env ly lx b (add_padding s) (resize s) nt) frames = true ->
  (length frames <= fuel)%nat ->
  ~ (inference_seconds env frames == 0)%Q ->
  0 < Z.of_nat (length frames) < 20 ->
  let n := Z.of_nat (length frames) in
  progress_step n = 0 /\
  (forall stop, np_mod stop (progress_step n) = None) /\
  (forall stop, progress_due stop n = false) /\
  exists s' pd' md evs,
    predict_landmarks env fuel vid frame_ind s = (s', Ok (pd', md)) /\
    log s' = log s ++ evs /\
    progress_updates evs = [] /\
    length pd' = length frames /\
    (forall i f, frames !! i = Some f ->
       pd' !! i = Some (batch_row env ly lx b (add_padding s) (resize s) nt f)).
Proof.
  intros Hnet Hly Hlx Hb Hreq Hok Hfuel Htime Hn n.
  assert (Hstep : progress_step n = 0) by (apply progress_step_small; lia).
  split; [exact Hstep|].
  split; [intros stop; rewrite Hstep; reflexivity|].
  split; [intros stop; apply progress_never_due_small; lia|].
  pose proof (predict_landmarks_run fuel vid frame_ind s nt ly lx b frames
                Hnet Hly Hlx Hb Hreq Hok Hfuel Htime) as Hrun.
  simpl in Hrun. fold n in Hrun.
  pose (pd0 := zeros n (length (net_bodyparts nt))). fold pd0 in Hrun.
  assert (Hpd0 : length pd0 = length frames).
  { unfold pd0, zeros, n. rewrite length_replicate. lia. }
  destruct (run_passes_no_progress ly lx b nt n ltac:(lia) frames 0 (with_net_mode EvalMode s) pd0 0%Q)
    as (evs & Hlog & Hnone).
  destruct (run_passes_spec ly lx b nt n frames 0 (with_net_mode EvalMode s) pd0 0%Q ltac:(lia))
    as (_ & Hlen & _).
  destruct (run_passes_rows ly lx b nt n frames 0 (with_net_mode EvalMode s) pd0 0%Q ltac:(lia)
              ltac:(rewrite Hpd0; simpl; lia)) as [Hrows _].
  destruct (run_passes env ly lx b nt n frames 0 (with_net_mode EvalMode s) pd0 0%Q)
    as [s' [pd' it']]. simpl in *.
  exists s', pd', (run_metadata env s b nt n (inject_Z n / it')%Q), evs.
  split; [exact Hrun|]. split; [exact Hlog|]. split; [exact Hnone|].
  split; [congruence|].
  intros i f Hf. exact (Hrows i f Hf).
Qed.

End BatchLoop.


Lemma demo_time_not_zero (frames : list Z) :
  frames <> [] -> ~ (inference_seconds demo_env frames == 0)%Q.
Proof.
  intros Hne.
  assert (H : forall l, (0 <= inference_seconds demo_env l)%Q).
  { induction l as [|f l IH]; simpl; [apply Qle_refl|].
    apply Qle_trans with (0 + 0)%Q; [apply Qle_refl|].
    apply Qplus_le_compat; [discriminate | exact IH]. }
  destruct frames as [|f l]; [contradiction|]. simpl.
  intros H0. specialize (H l).
  assert (Hpos : (0 < batch_seconds demo_env [f])%Q) by reflexivity.
  pose proof (Qplus_lt_le_compat _ _ _ _ Hpos H) as Hlt.
  rewrite H0 in Hlt. revert Hlt. apply Qlt_irrefl.
Qed.

Lemma predict_landmarks_metadata_witness :
  exists s' pd' md speed,
    predict_landmarks demo_env 2 0 (Some [3; 7]) demo_ready_pose
    = (s', Ok (pd', md)) /\
    md !! "image_size" = Some (PySizes [480] [640]) /\
    md !! "total_frames" = Some (PyInt 2) /\
    md !! "inference_speed" = Some (PyFloat speed) /\
    (speed == 100 # 1)%Q.
Proof.
  destruct (predict_landmarks_metadata demo_env 2 0 (Some [3; 7])
              demo_ready_pose demo_net 480 640 (mkBBox 0 480 0 640) [3; 7]
              eq_refl eq_refl eq_refl eq_refl eq_refl eq_refl (le_n 2)
              (demo_time_not_zero [3; 7] ltac:(discriminate)))
    as (s' & pd' & md & speed & Hrun & _ & _ & Hsz & _ & Htf & _ & Hsp & Hq).
  exists s', pd', md, speed.
  split; [exact Hrun|]. split; [exact Hsz|]. split; [exact Htf|].
  split; [exact Hsp|]. rewrite Hq. reflexivity.
Defined.

(** C8 as stated fails: for video 0 of two videos, image_size holds the
    sizes of both videos, not the 480 x 640 of the processed one, and the
    keypoint names are stored under the key bodyparts. *)
Lemma metadata_image_size_is_all_videos :
  exists s' pd' md,
    predict_landmarks demo_env 2 0 (Some [3; 7]) demo_two_videos
    = (s', Ok (pd', md)) /\
    md !! "bbox" = Some (PyBBox (mkBBox 0 480 0 640)) /\
    md !! "image_size" = Some (PySizes [480; 240] [640; 320]) /\
    md !! "image_size" <> Some (PySizes [480] [640]) /\
    md !! "keypoint_names" = None.
Proof.
  pose proof (predict_landmarks_run demo_env 2 0 (Some [3; 7])
                demo_two_videos demo_net 480 640 (mkBBox 0 480 0 640) [3; 7]
                eq_refl eq_refl eq_refl eq_refl eq_refl eq_refl (le_n 2)
                (demo_time_not_zero [3; 7] ltac:(discriminate))) as Hrun.
  simpl in Hrun.
  eexists _, _, _. split; [exact Hrun|].
  unfold run_metadata.
  split; [reflexivity|]. split; [reflexivity|].
  split; [discriminate|]. reflexivity.
Qed.

Lemma short_run_emits_no_progress_witness :
  exists s' pd' md evs,
    predict_landmarks demo_env 2 0 (Some [3; 7]) demo_ready_pose
    = (s', Ok (pd', md)) /\
    log s' = log demo_ready_pose ++ evs /\
    progress_updates evs = [] /\
    length pd' = 2%nat.
Proof.
  destruct (short_run_emits_no_progress demo_env 2 0 (Some [3; 7])
              demo_ready_pose demo_net 480 640 (mkBBox 0 480 0 640) [3; 7]
              eq_refl eq_refl eq_refl eq_refl eq_refl eq_refl (le_n 2)
              (demo_time_not_zero [3; 7] ltac:(discriminate))
              ltac:(simpl; lia))
    as (_ & _ & _ & s' & pd' & md & evs & Hrun & Hlog & Hnone & Hlen & _).
  exists s', pd', md, evs. repeat split; assumption.
Defined.

(** ** [run_subset] *)

Section RunSubset.
Context (env : Env).

Lemma setup_noop s nt :
  net s = Some nt -> bbox_set s = true ->
  pose_prediction_setup env s = (s, Ok tt).
Proof.
  intros Hn Hb. unfold pose_prediction_setup, bind, get, when.
  rewrite Hn. unfold ret. rewrite Hb. reflexivity.
Qed.

Lemma video_filename_ok s fns i f :
  filenames s !! 0%nat = Some fns -> fns !! i = Some f ->
  video_filename i s = (s, Ok f).
Proof.
  intros H0 Hi. unfold video_filename.
  unfold bind at 1. unfold get at 1.
  rewrite (bind_ok _ _ _ _ _ (index_lookup _ _ _ _ H0)).
  apply index_lookup, Hi.
Qed.



(** A request of no frames at all: the loop is not entered and the
    speed is 0 / 0. *)
Lemma predict_landmarks_empty fuel vid s nt b :
  net s = Some nt -> bbox s !! vid = Some b ->
  predict_landmarks env fuel vid (Some []) s
  = (with_net_mode EvalMode s, Raise ZeroDivisionError).
Proof.
  intros Hnet Hb. unfold predict_landmarks.
  unfold bind at 1. unfold get at 1.
  unfold bind at 1. unfold ret at 1.
  unfold bind at 1. unfold net_attr at 1. rewrite Hnet.
  change (Z.of_nat (length (@nil Z))) with 0.
  change (0 <? 0) with false.
  unfold bind at 1. unfold when at 1. unfold ret at 1.
  unfold bind at 1. unfold modify at 1.
  rewrite (bind_ok _ _ _ _ _ (index_lookup _ _ _ _ Hb)).
  assert (Hloop : forall pd s0,
             batch_loop env fuel vid nt [] 0 0 (batch_size env) pd 0%Q s0
             = (s0, Ok (pd, 0%Q))) by (intros pd s0; destruct fuel; reflexivity).
  rewrite (bind_ok _ _ _ _ _ (Hloop _ _)).
  rewrite batch_size_1. simpl (1 =? 1).
  unfold py_div. simpl (Qeq_bool 0 0).
  unfold bind, raise. reflexivity.
Qed.

(** C4 on the code.  For a video of fewer than 10 frames the sample is
    empty, [predict_landmarks] leaves its loop at once with
    [inference_time = 0] and divides 0 by 0: [run_subset] raises
    ZeroDivisionError instead of returning the (empty) sample. *)
Theorem run_subset_short_video_raises fuel s nt b fns f :
  net s = Some nt -> bbox_set s = true ->
  filenames s !! 0%nat = Some fns -> fns !! 0%nat = Some f ->
  bbox s !! 0%nat = Some b ->
  0 < nframes s < 10 ->
  sample_without_replacement (nframes s) (Z.quot (nframes s) 10)
    (random_choice env (nframes s) (Z.quot (nframes s) 10)) ->
  np_sort (random_choice env (nframes s) (Z.quot (nframes s) 10)) = [] /\
  exists s', run_subset env fuel None s = (s', Raise ZeroDivisionError).
Proof.
  intros Hnet Hset Hfns Hf Hb Hn (Hlen & _ & _).
  assert (Hq : Z.quot (nframes s) 10 = 0) by (apply Z.quot_small; lia).
  rewrite Hq in *.
  destruct (random_choice env (nframes s) 0) as [|x c] eqn:Ec; [|discriminate].
  split; [reflexivity|].
  unfold run_subset.
  rewrite (bind_ok _ _ _ _ _ (setup_noop s nt Hnet Hset)).
  unfold bind at 1. unfold bind at 1. unfold get at 1.
  rewrite Hq. unfold np_random_choice.
  replace ((0 <=? 0) && (0 <=? nframes s)) with true
    by (symmetry; apply andb_true_intro; split; apply Z.leb_le; lia).
  unfold bind at 1. unfold ret at 1. rewrite Ec. unfold ret at 1.
  change (np_sort []) with (@nil Z).
  rewrite (bind_ok _ _ _ _ _ (video_filename_ok s fns 0 f Hfns Hf)).
  unfold bind at 1. unfold update_mainwindow_message at 1. unfold modify at 1.
  eexists. apply bind_raise.
  apply (predict_landmarks_empty fuel 0 _ nt b); [exact Hnet | exact Hb].
Qed.


End RunSubset.

Lemma run_subset_short_video_raises_witness :
  np_sort (random_choice demo_env 5 (Z.quot 5 10)) = [] /\
  exists s', run_subset demo_env 5 None demo_short_clip
             = (s', Raise ZeroDivisionError).
Proof.
  apply (run_subset_short_video_raises demo_env 5 demo_short_clip demo_net
           (mkBBox 0 480 0 640) ["/data/cam0.avi"] "/data/cam0.avi"
           eq_refl eq_refl eq_refl eq_refl eq_refl);
    [simpl; lia | repeat split; [constructor | constructor]].
Defined.

(** ** [write_dataframe] *)

Section WriteDataframe.

Lemma nan_frame_table bp idx : nan_frame bp idx = nan_table [bp] idx.
Proof. reflexivity. Qed.

Lemma zip_nan_rows (a b : nat) (idx : list Z) :
  zip_with app (map (fun _ => replicate a (@None Q)) idx)
               (map (fun _ => replicate b None) idx)
  = map (fun _ => replicate (a + b) None) idx.
Proof.
  induction idx as [|i idx IH]; [reflexivity|].
  cbn [map zip_with]. rewrite IH, replicate_add. reflexivity.
Qed.

Lemma concat_nan_table pre bp idx :
  concat_axis1 (nan_table pre idx) (nan_frame bp idx)
  = nan_table (pre ++ [bp]) idx.
Proof.
  unfold concat_axis1, nan_table, nan_frame.
  cbn [columns row_index cells]. f_equal.
  - rewrite flat_map_app. reflexivity.
  - rewrite zip_nan_rows, length_app.
    change (length coords) with 3%nat. change (length [bp]) with 1%nat.
    replace (3 * (length pre + 1))%nat with (3 * length pre + 3)%nat by lia.
    reflexivity.
Qed.

Lemma build_frames_rest idx : forall l k pre,
  (1 <= k)%nat ->
  build_frames (zip (seq k (length l)) l) idx (Some (nan_table pre idx))
  = Ok (Some (nan_table (pre ++ l) idx)).
Proof.
  induction l as [|bp l IH]; intros k pre Hk; simpl.
  - now rewrite app_nil_r.
  - destruct k as [|k]; [lia|]. simpl.
    rewrite concat_nan_table, (IH (S (S k))) by lia.
    now rewrite <- app_assoc.
Qed.

Lemma build_frames_all idx bp bps :
  build_frames (enumerate (bp :: bps)) idx None
  = Ok (Some (nan_table (bp :: bps) idx)).
Proof.
  unfold enumerate. simpl. rewrite nan_frame_table.
  apply (build_frames_rest idx bps 1 [bp]). lia.
Qed.

Lemma stride3_count_full c K : (c < 3)%nat -> stride3_count c (3 * K) = K.
Proof.
  intros Hc. unfold stride3_count.
  replace (3 * K + 2 - c)%nat with ((2 - c) + K * 3)%nat by lia.
  rewrite Nat.div_add by lia. rewrite Nat.div_small by lia. reflexivity.
Qed.

Lemma set_cell_shift c q v j old :
  set_cell c (q :: v) (S (S (S j))) old = set_cell c v j old.
Proof.
  unfold set_cell.
  replace (S (S (S j))) with (j + 1 * 3)%nat by lia.
  rewrite Nat.Div0.mod_add, Nat.div_add by lia.
  replace (j / 3 + 1)%nat with (S (j / 3)) by lia. reflexivity.
Qed.

Lemma imap_set_cell_step c q v a0 a1 a2 row :
  imap (set_cell c (q :: v)) (a0 :: a1 :: a2 :: row)
  = set_cell c (q :: v) 0 a0 :: set_cell c (q :: v) 1 a1
    :: set_cell c (q :: v) 2 a2 :: imap (set_cell c v) row.
Proof.
  simpl. do 3 f_equal. apply imap_ext. intros j x _. simpl.
  apply set_cell_shift.
Qed.

(** The three strided assignments fill one row with the cells of its
    predictions. *)
Lemma fill_row (trow : list Triple) :
  imap (set_cell 2 (map (channel 2) trow))
    (imap (set_cell 1 (map (channel 1) trow))
       (imap (set_cell 0 (map (channel 0) trow))
          (replicate (3 * length trow) None)))
  = flat_map cells_of trow.
Proof.
  induction trow as [|t trow IH]; [reflexivity|].
  replace (3 * length (t :: trow))%nat with (S (S (S (3 * length trow))))
    by (simpl; lia).
  cbn [replicate map].
  rewrite imap_set_cell_step.
  rewrite (imap_set_cell_step 1).
  rewrite (imap_set_cell_step 2).
  rewrite IH. reflexivity.
Qed.

Lemma imap_set_cell_length c v row : length (imap (set_cell c v) row) = length row.
Proof. apply length_imap. Qed.

Lemma fill_cells (K : nat) : forall (data : list (list Triple)) (idx : list Z),
  length data = length idx ->
  Forall (fun row => length row = K) data ->
  zip_with (fun row v => imap (set_cell 2 v) row)
    (zip_with (fun row v => imap (set_cell 1 v) row)
       (zip_with (fun row v => imap (set_cell 0 v) row)
          (map (fun _ => replicate (3 * K) None) idx)
          (map (map (channel 0)) data))
       (map (map (channel 1)) data))
    (map (map (channel 2)) data)
  = map (flat_map cells_of) data.
Proof.
  induction data as [|trow data IH]; intros [|i idx] Hlen Hall;
    try discriminate; [reflexivity|].
  apply Forall_cons in Hall. destruct Hall as [Hrow Hall].
  cbn [map zip_with]. rewrite <- Hrow at 1. rewrite fill_row.
  f_equal. apply IH; [simpl in Hlen; lia | exact Hall].
Qed.

Lemma length_labels bps : length (flat_map labels_of bps) = (3 * length bps)%nat.
Proof.
  induction bps as [|bp bps IH]; [reflexivity|].
  cbn [flat_map]. rewrite length_app, IH. simpl. lia.
Qed.

Lemma iloc_set_ok (c : nat) (df : DataFrame) (K : nat) (vals : list (list Q)) :
  (c < 3)%nat ->
  length (columns df) = (3 * K)%nat ->
  length vals = length (cells df) ->
  Forall (fun r => length r = K) vals ->
  iloc_set_stride3 c df vals
  = Ok (mkDataFrame (columns df) (row_index df)
          (zip_with (fun row v => imap (set_cell c v) row) (cells df) vals)).
Proof.
  intros Hc Hcols Hlen Hall. unfold iloc_set_stride3.
  rewrite Hlen, Nat.eqb_refl, Hcols, (stride3_count_full c K Hc).
  replace (forallb (fun r => (length r =? K)%nat) vals) with true; [reflexivity|].
  symmetry. apply forallb_forall. intros r Hr.
  rewrite Forall_forall in Hall. apply Nat.eqb_eq, Hall, list_elem_of_In, Hr.
Qed.

(** In a list made of blocks of three, entry [3 j + c] is entry [c] of
    block [j]. *)
Lemma lookup_blocks3 {A B} (f : A -> list B) (l : list A) :
  (forall a, length (f a) = 3%nat) ->
  forall j a c, l !! j = Some a -> (c < 3)%nat ->
    flat_map f l !! (3 * j + c)%nat = f a !! c.
Proof.
  intros Hf. induction l as [|x l IH]; intros j a c Hj Hc; [discriminate|].
  change (flat_map f (x :: l)) with (f x ++ flat_map f l).
  destruct j as [|j].
  - injection Hj as ->. rewrite lookup_app_l by (rewrite Hf; lia).
    reflexivity.
  - rewrite lookup_app_r by (rewrite Hf; lia). rewrite Hf.
    replace (3 * S j + c - 3)%nat with (3 * j + c)%nat by lia.
    apply IH; assumption.
Qed.

Lemma write_dataframe_ok s bps data selected idx :
  bodyparts s = Some bps -> bps <> [] ->
  row_labels s selected = Some idx ->
  length data = length idx ->
  Forall (fun row => length row = length bps) data ->
  write_dataframe data selected s = (s, Ok (filled_table bps idx data)).
Proof.
  intros Hbps Hne Hidx Hlen Hall.
  destruct bps as [|bp bps]; [contradiction|].
  unfold write_dataframe.
  unfold bind at 1. unfold get at 1. rewrite Hbps.
  unfold bind at 1. unfold ret at 1.
  assert (Hindex : match selected with
                   | None => bind (index_last (cumframes s))
                                  (fun n => ret (np_arange n))
                   | Some l => ret l
                   end s = (s, Ok idx)).
  { destruct selected as [l|]; simpl in Hidx.
    - now injection Hidx as ->.
    - unfold bind, index_last.
      destruct (last (cumframes s)); [|discriminate].
      now injection Hidx as <-. }
  rewrite (bind_ok _ _ _ _ _ Hindex).
  unfold bind at 1. unfold lift at 1. rewrite build_frames_all.
  unfold bind at 1. unfold ret at 1.
  set (K := length (bp :: bps)) in *.
  assert (Hv : forall c, Forall (fun r => length r = K) (map (map (channel c)) data)).
  { intros c. rewrite Forall_map. eapply Forall_impl; [exact Hall|].
    intros r Hr. simpl. now rewrite length_map. }
  unfold bind at 1. unfold lift at 1.
  rewrite (iloc_set_ok 0 _ K) by
    (first [lia | apply length_labels | apply Hv
           | cbn [nan_table cells]; rewrite !length_map; exact Hlen]).
  unfold bind at 1. unfold lift at 1.
  rewrite (iloc_set_ok 1 _ K) by
    (first [lia | apply length_labels | apply Hv
           | cbn [nan_table cells]; rewrite length_zip_with, !length_map; lia]).
  unfold lift.
  rewrite (iloc_set_ok 2 _ K) by
    (first [lia | apply length_labels | apply Hv
           | cbn [nan_table cells];
             rewrite !length_zip_with, !length_map; lia]).
  cbn [nan_table columns row_index cells].
  fold K. rewrite (fill_cells K data idx Hlen Hall). reflexivity.
Qed.

(** C5.  For a prediction array of N frames and K >= 1 keypoints, with
    [self.bodyparts] naming the K keypoints and N row labels,
    [write_dataframe] returns a table of 3K columns and N rows; columns
    3j, 3j+1, 3j+2 are labelled (Facemap, keypoint j, x / y / likelihood)
    and hold keypoint j's x, y and likelihood; the rows are labelled
    0 .. N-1 when [selected_frame_ind] is None and by [selected_frame_ind]
    otherwise. *)
Theorem write_dataframe_table s bps data selected idx :
  bodyparts s = Some bps -> bps <> [] ->
  row_labels s selected = Some idx ->
  length data = length idx ->
  Forall (fun row => length row = length bps) data ->
  exists df,
    write_dataframe data selected s = (s, Ok df) /\
    length (columns df) = (3 * length bps)%nat /\
    length (cells df) = length data /\
    Forall (fun r => length r = (3 * length bps)%nat) (cells df) /\
    length (row_index df) = length data /\
    (selected = None -> row_index df = np_arange (Z.of_nat (length data))) /\
    (forall l, selected = Some l -> row_index df = l) /\
    (forall j bp, bps !! j = Some bp ->
       columns df !! (3 * j)%nat = Some (scorer, bp, "x") /\
       columns df !! (3 * j + 1)%nat = Some (scorer, bp, "y") /\
       columns df !! (3 * j + 2)%nat = Some (scorer, bp, "likelihood")) /\
    (forall r row j x y l,
       data !! r = Some row -> row !! j = Some (x, y, l) ->
       exists cr, cells df !! r = Some cr /\
         cr !! (3 * j)%nat = Some (Some x) /\
         cr !! (3 * j + 1)%nat = Some (Some y) /\
         cr !! (3 * j + 2)%nat = Some (Some l)).
Proof.
  intros Hbps Hne Hidx Hlen Hall.
  exists (filled_table bps idx data).
  split; [apply write_dataframe_ok; assumption|].
  cbn [filled_table columns cells row_index].
  split; [apply length_labels|].
  split; [apply length_map|].
  split.
  { rewrite Forall_map. eapply Forall_impl; [exact Hall|].
    intros row Hrow. simpl. rewrite <- Hrow. clear.
    induction row as [|t row IH]; [reflexivity|]. simpl in *. lia. }
  split; [now rewrite Hlen|].
  split.
  { intros ->. simpl in Hidx. destruct (last (cumframes s)) as [n|]; [|discriminate].
    injection Hidx as <-. unfold np_arange in *.
    rewrite length_map, length_seq in Hlen. rewrite Hlen, Nat2Z.id. reflexivity. }
  split.
  { intros l ->. simpl in Hidx. now injection Hidx as ->. }
  split.
  - intros j bp Hj.
    pose proof (lookup_blocks3 labels_of bps (fun _ => eq_refl) j bp) as Hblk.
    pose proof (Hblk 0%nat Hj ltac:(lia)) as H0. rewrite Nat.add_0_r in H0.
    split; [exact H0|].
    split; [exact (Hblk 1%nat Hj ltac:(lia)) | exact (Hblk 2%nat Hj ltac:(lia))].
  - intros r row j x y l Hr Hj.
    exists (flat_map cells_of row).
    split; [rewrite list_lookup_fmap, Hr; reflexivity|].
    pose proof (lookup_blocks3 cells_of row (fun _ => eq_refl) j (x, y, l)) as Hblk.
    pose proof (Hblk 0%nat Hj ltac:(lia)) as H0. rewrite Nat.add_0_r in H0.
    split; [exact H0|].
    split; [exact (Hblk 1%nat Hj ltac:(lia)) | exact (Hblk 2%nat Hj ltac:(lia))].
Qed.

End WriteDataframe.

Lemma write_dataframe_table_witness :
  exists df,
    write_dataframe [[(1 # 1, 2 # 1, 9 # 10); (3 # 1, 4 # 1, 8 # 10)];
                     [(5 # 1, 6 # 1, 7 # 10); (7 # 1, 8 # 1, 6 # 10)]]
                    (Some [12; 40]) demo_ready_pose
    = (demo_ready_pose, Ok df) /\
    length (columns df) = 6%nat /\ length (cells df) = 2%nat /\
    row_index df = [12; 40] /\
    columns df !! 4%nat = Some ("Facemap", "nose", "y").
Proof.
  destruct (write_dataframe_table demo_ready_pose ["eye"; "nose"]
              [[(1 # 1, 2 # 1, 9 # 10); (3 # 1, 4 # 1, 8 # 10)];
               [(5 # 1, 6 # 1, 7 # 10); (7 # 1, 8 # 1, 6 # 10)]]
              (Some [12; 40]) [12; 40]
              eq_refl ltac:(discriminate) eq_refl eq_refl
              ltac:(repeat constructor))
    as (df & Hrun & Hcols & Hrows & _ & _ & _ & Hsel & Hlab & _).
  exists df. split; [exact Hrun|]. split; [exact Hcols|]. split; [exact Hrows|].
  split; [exact (Hsel _ eq_refl)|].
  exact (proj1 (proj2 (Hlab 1%nat "nose" eq_refl))).
Defined.

(** ** Output paths *)

Section Paths.
Import os_path.
Local Open Scope string_scope.

Lemma app_empty (b : string) : "" ++ b = b.
Proof. reflexivity. Qed.

Lemma app_String (x : ascii) (a b : string) :
  String x a ++ b = String x (a ++ b).
Proof. reflexivity. Qed.

Lemma has_char_app c a b :
  has_char c (a ++ b) = has_char c a || has_char c b.
Proof.
  induction a as [|x a IH]; [reflexivity|].
  rewrite app_String. simpl. now rewrite IH, orb_assoc.
Qed.

Lemma has_other_app c a b :
  has_other c (a ++ b) = has_other c a || has_other c b.
Proof.
  induction a as [|x a IH]; [reflexivity|].
  rewrite app_String. simpl. now rewrite IH, orb_assoc.
Qed.

Lemma string_app_assoc (a b c : string) : (a ++ b) ++ c = a ++ (b ++ c).
Proof.
  induction a as [|x a IH]; [reflexivity|].
  rewrite !app_String. now rewrite IH.
Qed.

Lemma rcut_none c s : has_char c s = false -> rcut c s = None.
Proof.
  induction s as [|a s IH]; simpl; [reflexivity|].
  intros H. apply orb_false_elim in H. destruct H as [Ha Hs].
  now rewrite (IH Hs), Ha.
Qed.

Lemma rcut_last c h t :
  has_char c t = false -> rcut c (h ++ String c t) = Some (h, t).
Proof.
  intros Ht. induction h as [|a h IH].
  - rewrite app_empty. simpl. now rewrite (rcut_none c t Ht), Ascii.eqb_refl.
  - rewrite app_String. simpl. now rewrite IH.
Qed.

Lemma rcut_inv c s h t :
  rcut c s = Some (h, t) -> s = h ++ String c t /\ has_char c t = false.
Proof.
  revert h. induction s as [|a s IH]; intros h; simpl; [discriminate|].
  destruct (rcut c s) as [[h' t']|] eqn:E.
  - intros H. injection H as <- <-. destruct (IH h' eq_refl) as [-> Ht].
    rewrite app_String. now split.
  - destruct (Ascii.eqb a c) eqn:Ea; [|discriminate].
    intros H. injection H as <- <-. apply Ascii.eqb_eq in Ea. subst a.
    split; [reflexivity|].
    clear IH. induction s as [|b s IHs]; [reflexivity|]. simpl in *.
    destruct (rcut c s) as [[? ?]|]; [discriminate|].
    destruct (Ascii.eqb b c); [discriminate|]. simpl. now apply IHs.
Qed.

(** The tail of [os.path.split] holds no slash. *)
Lemma split_tail_no_sep p : has_char sep (snd (split p)) = false.
Proof.
  unfold split. destruct (rcut sep p) as [[h t]|] eqn:E; simpl.
  - now destruct (rcut_inv _ _ _ _ E).
  - clear -E. induction p as [|a p IH]; [reflexivity|]. simpl in *.
    destruct (rcut sep p) as [[? ?]|]; [discriminate|].
    destruct (Ascii.eqb a sep); [discriminate|]. simpl. now apply IH.
Qed.

(** Neither does the root [os.path.splitext] leaves of it. *)
Lemma splitext_root_no_sep b :
  has_char sep b = false -> has_char sep (fst (splitext b)) = false.
Proof.
  intros Hb. unfold splitext. rewrite (rcut_none sep b Hb).
  destruct (rcut extsep b) as [[stem ext]|] eqn:E; [|exact Hb].
  destruct (has_other extsep stem); [|exact Hb]. simpl.
  destruct (rcut_inv _ _ _ _ E) as [-> _].
  rewrite has_char_app in Hb. now apply orb_false_elim in Hb.
Qed.

Lemma videoname_no_sep f : has_char sep (videoname f) = false.
Proof. apply splitext_root_no_sep, split_tail_no_sep. Qed.

Lemma startswith_no_sep b : has_char sep b = false -> startswith sep b = false.
Proof.
  destruct b as [|a b]; [reflexivity|]. simpl. intros H.
  now apply orb_false_elim in H.
Qed.

(** Joining a directory and a slash-free name puts the directory prefix
    in front of the name. *)
Lemma join_prefix d b :
  has_char sep b = false -> join d b = dir_prefix d ++ b.
Proof.
  intros Hb. unfold join, dir_prefix.
  rewrite (startswith_no_sep b Hb).
  destruct d as [|a d]; [reflexivity|]. simpl orb.
  destruct (endswith sep (String a d)); [reflexivity|].
  now rewrite string_app_assoc, (app_String sep), app_empty.
Qed.

(** Cutting [dir_prefix d ++ b] at its last slash gives back the prefix
    and the name. *)
Lemma rcut_join d b :
  has_char sep b = false ->
  match rcut sep (dir_prefix d ++ b) with
  | None => (EmptyString, dir_prefix d ++ b)
  | Some (h, tl) => (h ++ String sep EmptyString, tl)
  end = (dir_prefix d, b).
Proof.
  intros Hb. unfold dir_prefix.
  destruct d as [|a d]; [rewrite app_empty; now rewrite (rcut_none sep b Hb)|].
  unfold endswith.
  destruct (rcut sep (String a d)) as [[h t]|] eqn:E.
  - destruct t as [|x t].
    + destruct (rcut_inv _ _ _ _ E) as [-> _].
      rewrite string_app_assoc, app_String, app_empty.
      now rewrite (rcut_last sep h b Hb).
    + rewrite string_app_assoc, (app_String sep), app_empty.
      now rewrite (rcut_last sep (String a d) b Hb).
  - rewrite string_app_assoc, (app_String sep), app_empty.
    now rewrite (rcut_last sep (String a d) b Hb).
Qed.

(** The extension of the table path is [.h5], and the path without it
    is the directory joined with the video name and the provenance tag. *)
Lemma splitext_table_path d v ft :
  has_char sep v = false ->
  splitext (join d (v ++ pose_suffix ft)) = (join d (v ++ pose_stem ft), ".h5").
Proof.
  intros Hv.
  assert (Hsfx : pose_suffix ft = pose_stem ft ++ String extsep "h5")
    by (destruct ft; reflexivity).
  assert (Hb1 : has_char sep (v ++ pose_suffix ft) = false)
    by (rewrite has_char_app, Hv; destruct ft; reflexivity).
  assert (Hb2 : has_char sep (v ++ pose_stem ft) = false)
    by (rewrite has_char_app, Hv; destruct ft; reflexivity).
  rewrite (join_prefix d _ Hb1), (join_prefix d _ Hb2).
  unfold splitext. rewrite (rcut_join d _ Hb1).
  rewrite Hsfx, <- string_app_assoc.
  rewrite (rcut_last extsep (v ++ pose_stem ft) "h5" eq_refl).
  rewrite has_other_app.
  replace (has_other extsep (pose_stem ft)) with true by (now destruct ft).
  now rewrite orb_true_r.
Qed.

Lemma metadata_path_from_table s f :
  fst (splitext (table_path s f)) ++ metadata_suffix (finetuned_model s)
  = metadata_path s f.
Proof.
  unfold table_path, metadata_path.
  now rewrite (splitext_table_path _ _ _ (videoname_no_sep f)).
Qed.

End Paths.

(** ** Frames: what the methods leave alone *)

Section Preserves.
Context (R : St -> St -> Prop).
Context (R_refl : forall s, R s s).
Context (R_trans : forall a b c, R a b -> R b c -> R a c).

Lemma preserves_ret {A} (a : A) : preserves R (ret a).
Proof. intros s s' r H. injection H as <- _. apply R_refl. Qed.

Lemma preserves_raise {A} (e : exn) : preserves R (@raise A e).
Proof. intros s s' r H. injection H as <- _. apply R_refl. Qed.

Lemma preserves_lift {A} (x : res A) : preserves R (lift x).
Proof. intros s s' r H. injection H as <- _. apply R_refl. Qed.

Lemma preserves_get : preserves R get.
Proof. intros s s' r H. injection H as <- _. apply R_refl. Qed.

Lemma preserves_time_time : preserves R time_time.
Proof. intros s s' r H. injection H as <- _. apply R_refl. Qed.

Lemma preserves_modify (f : St -> St) :
  (forall s, R s (f s)) -> preserves R (modify f).
Proof. intros Hf s s' r H. injection H as <- _. apply Hf. Qed.

Lemma preserves_bind {A B} (m : M A) (k : A -> M B) :
  preserves R m -> (forall a, preserves R (k a)) -> preserves R (bind m k).
Proof.
  intros Hm Hk s s' r H. unfold bind in H.
  destruct (m s) as [s1 [a|e]] eqn:E.
  - apply (R_trans _ s1); [exact (Hm _ _ _ E) | exact (Hk a _ _ _ H)].
  - injection H as <- _. exact (Hm _ _ _ E).
Qed.

Lemma preserves_when (c : bool) (m : M unit) :
  preserves R m -> preserves R (when c m).
Proof. intros Hm. destruct c; [exact Hm | apply preserves_ret]. Qed.

Lemma preserves_index {A} (l : list A) i : preserves R (index l i).
Proof.
  unfold index. destruct (l !! i); [apply preserves_ret | apply preserves_raise].
Qed.

Lemma preserves_index_last {A} (l : list A) : preserves R (index_last l).
Proof.
  unfold index_last. destruct (last l); [apply preserves_ret | apply preserves_raise].
Qed.

Lemma preserves_for_each {A} (xs : list A) (body : A -> M unit) :
  (forall x, preserves R (body x)) -> preserves R (for_each xs body).
Proof.
  intros Hb. induction xs as [|x xs IH]; simpl.
  - apply preserves_ret.
  - apply preserves_bind; [apply Hb | intros _; exact IH].
Qed.

Lemma preserves_gui_attr a : preserves R (gui_attr a).
Proof.
  intros s s' r H. unfold gui_attr in H.
  destruct (gui s); injection H as <- _; apply R_refl.
Qed.

Lemma preserves_net_attr a : preserves R (net_attr a).
Proof.
  intros s s' r H. unfold net_attr in H.
  destruct (net s); injection H as <- _; apply R_refl.
Qed.

Lemma preserves_video_filename i : preserves R (video_filename i).
Proof.
  unfold video_filename.
  apply preserves_bind; [apply preserves_get | intros s0].
  apply preserves_bind; [apply preserves_index | intros fns].
  apply preserves_index.
Qed.

Context (ok : event -> Prop).
Context (R_log : forall s e, ok e -> R s (with_log (log s ++ [e]) s)).
Context (R_now : forall s t, R s (with_now t s)).
Context (ok_get : forall c, ok (GetFrames c)).
Context (ok_stored : forall a b, ok (Stored a b)).
Context (ok_progress : forall d, ok (ProgressBar d)).

Lemma preserves_record e : ok e -> preserves R (record e).
Proof. intros He. apply preserves_modify. intros s. now apply R_log. Qed.

Lemma preserves_message p h :
  ok (Message p h) -> preserves R (update_mainwindow_message p h).
Proof. intros He. apply preserves_modify. intros s. now apply R_log. Qed.

Lemma preserves_progressbar d : preserves R (update_mainwindow_progressbar d).
Proof. apply preserves_modify. intros s. apply R_log, ok_progress. Qed.

Lemma preserves_time_passes d : preserves R (time_passes d).
Proof. apply preserves_modify. intros s. apply R_now. Qed.

Context (env : Env).

Lemma preserves_batch_loop fuel vid nt frame_ind n :
  forall start stop pd it,
    preserves R (batch_loop env fuel vid nt frame_ind n start stop pd it).
Proof.
  induction fuel as [|fuel IH]; intros start stop pd it; simpl;
    (destruct (start =? n); [apply preserves_ret|]).
  - apply preserves_raise.
  - apply preserves_bind; [apply preserves_get | intros s0].
    apply preserves_bind; [apply preserves_index | intros ly].
    apply preserves_bind; [apply preserves_index | intros lx].
    apply preserves_bind; [apply preserves_record, ok_get | intros _].
    apply preserves_bind; [apply preserves_lift | intros imall].
    apply preserves_bind; [apply preserves_time_passes | intros _].
    apply preserves_bind; [apply preserves_time_time | intros t0].
    apply preserves_bind; [apply preserves_index | intros b].
    destruct (transforms.preprocess_img _ _ _ _ _) as [[imall' shape] pads].
    apply preserves_bind; [apply preserves_time_passes | intros _].
    apply preserves_bind; [apply preserves_time_passes | intros _].
    apply preserves_bind; [apply preserves_lift | intros pd'].
    apply preserves_bind; [apply preserves_record, ok_stored | intros _].
    apply preserves_bind; [apply preserves_time_passes | intros _].
    apply preserves_bind; [apply preserves_time_time | intros t1].
    apply preserves_bind;
      [apply preserves_when, preserves_progressbar | intros _].
    apply preserves_bind; [apply preserves_time_passes | intros _].
    apply IH.
Qed.

Context (R_eval : forall s, R s (with_net_mode EvalMode s)).

Lemma preserves_predict_landmarks fuel vid frame_ind :
  preserves R (predict_landmarks env fuel vid frame_ind).
Proof.
  unfold predict_landmarks.
  apply preserves_bind; [apply preserves_get | intros s0].
  apply preserves_bind.
  { destruct frame_ind; [apply preserves_ret|].
    apply preserves_bind; [apply preserves_index_last | intros t].
    apply preserves_ret. }
  intros [n frames].
  apply preserves_bind; [apply preserves_net_attr | intros nt].
  apply preserves_bind;
    [apply preserves_when, preserves_raise | intros _].
  apply preserves_bind;
    [apply preserves_modify; intros s; apply R_eval | intros _].
  apply preserves_bind; [apply preserves_index | intros b].
  apply preserves_bind; [apply preserves_batch_loop | intros [pd it]].
  apply preserves_bind.
  { destruct (batch_size env =? 1); [|apply preserves_ret].
    apply preserves_bind; [|intros q; apply preserves_ret].
    unfold py_div. destruct (Qeq_bool it 0);
      [apply preserves_raise | apply preserves_ret]. }
  intros [q|].
  - apply preserves_bind; [apply preserves_ret | intros sp]. apply preserves_ret.
  - apply preserves_bind; [apply preserves_raise | intros sp]. apply preserves_ret.
Qed.

Lemma preserves_write_dataframe data selected :
  preserves R (write_dataframe data selected).
Proof.
  unfold write_dataframe.
  apply preserves_bind; [apply preserves_get | intros s0].
  apply preserves_bind.
  { destruct (bodyparts s0); [apply preserves_ret | apply preserves_raise]. }
  intros bps.
  apply preserves_bind.
  { destruct selected; [apply preserves_ret|].
    destruct bps; [apply preserves_ret|].
    apply preserves_bind; [apply preserves_index_last | intros n].
    apply preserves_ret. }
  intros idx.
  apply preserves_bind; [apply preserves_lift | intros o].
  apply preserves_bind.
  { destruct o; [apply preserves_ret | apply preserves_raise]. }
  intros df.
  apply preserves_bind; [apply preserves_lift | intros df1].
  apply preserves_bind; [apply preserves_lift | intros df2].
  apply preserves_lift.
Qed.

End Preserves.

(** ** The loop always ends *)

Section Termination.
Context (env : Env).
Context (honest : forall shape c, get_frames env shape c <> Raise OutOfFuel).

Lemma ncs_ret {A} (a : A) : never_cut_short (ret a).
Proof. intros s. discriminate. Qed.

Lemma ncs_raise {A} (e : exn) : e <> OutOfFuel -> never_cut_short (@raise A e).
Proof. intros He s H. injection H as ->. contradiction. Qed.

Lemma ncs_lift {A} (r : res A) : r <> Raise OutOfFuel -> never_cut_short (lift r).
Proof. intros Hr s. exact Hr. Qed.

Lemma ncs_modify f : never_cut_short (modify f).
Proof. intros s. discriminate. Qed.

Lemma ncs_bind {A B} (m : M A) (k : A -> M B) :
  never_cut_short m -> (forall a, never_cut_short (k a)) ->
  never_cut_short (bind m k).
Proof.
  intros Hm Hk s. unfold bind. specialize (Hm s).
  destruct (m s) as [s1 [a|e]]; simpl in *; [apply Hk|].
  intros H. apply Hm. injection H as ->. reflexivity.
Qed.

Lemma ncs_index {A} (l : list A) i : never_cut_short (index l i).
Proof.
  unfold index. destruct (l !! i); [apply ncs_ret | now apply ncs_raise].
Qed.

Lemma ncs_when c m : never_cut_short m -> never_cut_short (when c m).
Proof. intros Hm. destruct c; [exact Hm | apply ncs_ret]. Qed.

Lemma store_not_cut pd K a b rows : store pd K a b rows <> Raise OutOfFuel.
Proof. unfold store. now destruct (_ && _). Qed.

(** With fuel for the frames still to do, the loop ends by its own exit
    test or by an exception of a collaborator, whatever these answer. *)
Lemma batch_loop_never_cut_short vid nt frame_ind n :
  forall fuel start stop pd it,
    0 <= start <= n -> (start < n -> stop = start + 1) ->
    (Z.to_nat (n - start) <= fuel)%nat ->
    never_cut_short (batch_loop env fuel vid nt frame_ind n start stop pd it).
Proof.
  induction fuel as [|fuel IH]; intros start stop pd it Hs Hstop Hfuel; simpl;
    (destruct (start =? n) eqn:E; [apply ncs_ret|]);
    apply Z.eqb_neq in E; [lia|].
  apply ncs_bind; [intros s; discriminate | intros s0].
  apply ncs_bind; [apply ncs_index | intros ly].
  apply ncs_bind; [apply ncs_index | intros lx].
  apply ncs_bind; [apply ncs_modify | intros _].
  apply ncs_bind; [apply ncs_lift, honest | intros imall].
  apply ncs_bind; [apply ncs_modify | intros _].
  apply ncs_bind; [intros s; discriminate | intros t0].
  apply ncs_bind; [apply ncs_index | intros b].
  destruct (transforms.preprocess_img _ _ _ _ _) as [[imall' shape] pads].
  apply ncs_bind; [apply ncs_modify | intros _].
  apply ncs_bind; [apply ncs_modify | intros _].
  apply ncs_bind; [apply ncs_lift, store_not_cut | intros pd'].
  apply ncs_bind; [apply ncs_modify | intros _].
  apply ncs_bind; [apply ncs_modify | intros _].
  apply ncs_bind; [intros s; discriminate | intros t1].
  apply ncs_bind; [apply ncs_when, ncs_modify | intros _].
  apply ncs_bind; [apply ncs_modify | intros _].
  assert (Hb : batch_size env = 1)
    by (unfold batch_size; now destruct (cuda_is_available env)).
  rewrite Hb. apply IH; lia.
Qed.

End Termination.

(** ** [run_all]: one video after the other *)

Section RunAll.
Context (env : Env).

Lemma same_self_log s l : same_self s (with_log l s).
Proof. repeat split. Qed.

Lemma same_self_now s t : same_self s (with_now t s).
Proof. repeat split. Qed.

Lemma same_self_mode s m : same_self s (with_net_mode m s).
Proof. repeat split. Qed.

Lemma predict_same_self fuel vid frame_ind :
  preserves same_self (predict_landmarks env fuel vid frame_ind).
Proof.
  apply (preserves_predict_landmarks same_self same_self_refl same_self_trans
           (fun _ => True)); auto using same_self_log, same_self_now,
                                 same_self_mode.
Qed.

Lemma messages_app l1 l2 : messages (l1 ++ l2) = messages l1 ++ messages l2.
Proof. apply List.filter_app. Qed.

Lemma quiet_refl s : quiet s s.
Proof. exists []. now rewrite app_nil_r. Qed.

Lemma quiet_trans a b c : quiet a b -> quiet b c -> quiet a c.
Proof.
  intros (e1 & H1 & N1) (e2 & H2 & N2). exists (e1 ++ e2). split.
  - now rewrite H2, H1, app_assoc.
  - now rewrite messages_app, N1, N2.
Qed.

Lemma predict_quiet fuel vid frame_ind :
  preserves quiet (predict_landmarks env fuel vid frame_ind).
Proof.
  apply (preserves_predict_landmarks quiet quiet_refl quiet_trans
           (fun e => is_message e = false)); try reflexivity.
  - intros s e He. exists [e]. split; [reflexivity|].
    unfold messages. simpl. now rewrite He.
  - intros s t. exists []. split; [simpl; now rewrite app_nil_r | reflexivity].
  - intros s. exists []. split; [simpl; now rewrite app_nil_r | reflexivity].
Qed.

Lemma write_dataframe_pure data selected :
  preserves eq (write_dataframe data selected).
Proof.
  apply preserves_write_dataframe; [reflexivity | intros a b c; congruence].
Qed.

Lemma save_pose_prediction_eq df vid s fns f :
  filenames s !! 0%nat = Some fns -> fns !! vid = Some f ->
  save_pose_prediction env df vid s
  = if writable env (table_path s f)
    then (with_disk (<[table_path s f := HdfTable table_key df]> (disk s)) s,
          Ok (table_path s f))
    else (s, Raise (External "OSError")).
Proof.
  intros Hfns Hf. unfold save_pose_prediction, table_path, output_dir, videoname.
  unfold bind at 1. unfold get at 1.
  destruct (gui s) as [g|] eqn:Eg.
  - rewrite (bind_ok _ _ _ _ _
               (bind_ok _ _ _ _ _ (video_filename_ok s fns vid f Hfns Hf))).
    unfold write_file.
    destruct (writable env _); reflexivity.
  - assert (Hbv : bind (video_filename vid)
                    (fun f0 => let '(basename, filename) := os_path.split f0 in
                               ret (basename, fst (os_path.splitext filename))) s
                  = (s, Ok (fst (os_path.split f),
                            fst (os_path.splitext (snd (os_path.split f)))))).
    { rewrite (bind_ok _ _ _ _ _ (video_filename_ok s fns vid f Hfns Hf)).
      now destruct (os_path.split f). }
    rewrite (bind_ok _ _ _ _ _ Hbv).
    unfold write_file.
    destruct (writable env _); reflexivity.
Qed.

Lemma disk_kept_refl s : disk_kept s s.
Proof. reflexivity. Qed.

Lemma disk_kept_trans a b c : disk_kept a b -> disk_kept b c -> disk_kept a c.
Proof. unfold disk_kept. congruence. Qed.

Lemma update_gui_pose_disk savepath vid :
  preserves disk_kept (update_gui_pose savepath vid).
Proof.
  assert (Hcall : forall m, preserves disk_kept (gui_call m)).
  { intros m. apply (preserves_record disk_kept (fun _ => True)); [|exact I].
    intros s e _. reflexivity. }
  unfold update_gui_pose.
  apply (preserves_bind _ disk_kept_trans);
    [apply (preserves_gui_attr _ disk_kept_refl) | intros g].
  apply (preserves_bind _ disk_kept_trans).
  { destruct (length (poseFilepath g) =? 0)%nat;
      [apply preserves_modify; reflexivity|].
    destruct (vid <? length (poseFilepath g))%nat;
      [apply preserves_modify; reflexivity
      | apply (preserves_raise _ disk_kept_refl)]. }
  intros _.
  repeat (apply (preserves_bind _ disk_kept_trans); [apply Hcall | intros _]).
  apply Hcall.
Qed.

(** A completed pass of the loop of [run_all] has written the table of
    the video and then its metadata. *)
Lemma run_video_done fuel vid s s' fns f :
  filenames s !! 0%nat = Some fns -> fns !! vid = Some f ->
  run_video env fuel vid s = (s', Ok tt) ->
  exists df md,
    disk s'
    = <[metadata_path s f := Pickle md]>
        (<[table_path s f := HdfTable table_key df]> (disk s)).
Proof.
  intros Hfns Hf Hrun. unfold run_video in Hrun.
  rewrite (bind_ok _ _ _ _ _ (video_filename_ok s fns vid f Hfns Hf)) in Hrun.
  apply bind_inv_ok in Hrun as (s1 & [] & Hmsg & Hrun).
  injection Hmsg as <-.
  apply bind_inv_ok in Hrun as (s2 & [pd md] & Hpred & Hrun).
  pose proof (predict_same_self _ _ _ _ _ _ Hpred) as Hsame.
  destruct Hsame as (Hgui & Hfn & _ & _ & _ & _ & _ & _ & _ & _ & _ & _ & Hft & Hdisk).
  simpl in Hgui, Hfn, Hft, Hdisk.
  apply bind_inv_ok in Hrun as (s3 & df & Hdf & Hrun).
  pose proof (write_dataframe_pure _ _ _ _ _ Hdf) as <-.
  apply bind_inv_ok in Hrun as (s4 & savepath & Hsave & Hrun).
  rewrite (save_pose_prediction_eq df vid s2 fns f) in Hsave
    by (first [now rewrite Hfn | exact Hf]).
  destruct (writable env (table_path s2 f)); [|discriminate].
  injection Hsave as <- <-.
  apply bind_inv_ok in Hrun as (s5 & [] & Hmsg & Hrun).
  injection Hmsg as <-.
  apply bind_inv_ok in Hrun as (s6 & sg & Hget & Hrun).
  injection Hget as <- <-.
  apply bind_inv_ok in Hrun as (s7 & [] & Hwrite & Hrun).
  unfold write_file in Hwrite.
  destruct (writable env _); [|discriminate].
  injection Hwrite as <-.
  pose proof (preserves_when disk_kept disk_kept_refl _ _
                (update_gui_pose_disk _ _) _ _ _ Hrun) as Hk.
  unfold disk_kept in Hk. simpl in Hk.
  assert (Htp : table_path s2 f = table_path s f).
  { unfold table_path, output_dir. now rewrite Hgui, Hft. }
  assert (Hmp : metadata_path s2 f = metadata_path s f).
  { unfold metadata_path, output_dir. now rewrite Hgui, Hft. }
  exists df, md. rewrite Hk.
  rewrite (metadata_path_from_table s2 f), Hmp, Htp, Hdisk.
  reflexivity.
Qed.

Lemma naming_kept_refl s : naming_kept s s.
Proof. unfold naming_kept. repeat split; set_solver. Qed.

Lemma naming_kept_trans a b c :
  naming_kept a b -> naming_kept b c -> naming_kept a c.
Proof.
  intros (?&?&?&?) (?&?&?&?). repeat split; try congruence. set_solver.
Qed.

Lemma same_self_naming_kept s s' : same_self s s' -> naming_kept s s'.
Proof.
  intros (Hgui & Hfn & _ & _ & _ & _ & _ & _ & _ & _ & _ & _ & Hft & Hdisk).
  repeat split; try assumption; [now rewrite Hgui | now rewrite Hdisk].
Qed.

Lemma naming_kept_paths s s' f :
  naming_kept s s' ->
  table_path s' f = table_path s f /\ metadata_path s' f = metadata_path s f.
Proof.
  intros (_ & Hft & Hsp & _).
  assert (Hdir : output_dir s' f = output_dir s f).
  { unfold output_dir. destruct (gui s'), (gui s); simpl in Hsp;
      congruence. }
  unfold table_path, metadata_path. now rewrite Hdir, Hft.
Qed.

Lemma write_file_naming_kept path x : preserves naming_kept (write_file env path x).
Proof.
  unfold write_file. destruct (writable env path).
  - apply preserves_modify. intros s. repeat split. simpl.
    apply dom_insert_subseteq.
  - apply (preserves_raise _ naming_kept_refl).
Qed.

Lemma update_gui_pose_naming_kept savepath vid :
  preserves naming_kept (update_gui_pose savepath vid).
Proof.
  intros s s' r H. unfold update_gui_pose, bind, gui_attr, gui_call, record,
    modify, raise in H.
  destruct (gui s) as [g|] eqn:Eg.
  - destruct (length (poseFilepath g) =? 0)%nat.
    + injection H as <- _. unfold naming_kept. simpl. rewrite Eg.
      repeat split; set_solver.
    + destruct (vid <? length (poseFilepath g))%nat.
      * injection H as <- _. unfold naming_kept. simpl. rewrite Eg.
        repeat split; set_solver.
      * injection H as <- _. apply naming_kept_refl.
  - injection H as <- _. apply naming_kept_refl.
Qed.

Lemma run_video_naming_kept fuel vid :
  preserves naming_kept (run_video env fuel vid).
Proof.
  assert (Hmsg : forall p h, preserves naming_kept (update_mainwindow_message p h)).
  { intros p h. apply preserves_modify. intros s.
    exact (naming_kept_refl s). }
  unfold run_video.
  apply (preserves_bind _ naming_kept_trans);
    [apply (preserves_video_filename _ naming_kept_refl naming_kept_trans)
    | intros f].
  apply (preserves_bind _ naming_kept_trans); [apply Hmsg | intros _].
  apply (preserves_bind _ naming_kept_trans).
  { intros s s' r H. apply same_self_naming_kept.
    exact (predict_same_self _ _ _ _ _ _ H). }
  intros [pd md].
  apply (preserves_bind _ naming_kept_trans).
  { intros s s' r H. rewrite <- (write_dataframe_pure _ _ _ _ _ H).
    apply naming_kept_refl. }
  intros df.
  apply (preserves_bind _ naming_kept_trans).
  { unfold save_pose_prediction.
    apply (preserves_bind _ naming_kept_trans);
      [apply (preserves_get _ naming_kept_refl) | intros s0].
    apply (preserves_bind _ naming_kept_trans).
    { destruct (gui s0).
      - apply (preserves_bind _ naming_kept_trans);
          [apply (preserves_video_filename _ naming_kept_refl naming_kept_trans)
          | intros f0; apply (preserves_ret _ naming_kept_refl)].
      - apply (preserves_bind _ naming_kept_trans);
          [apply (preserves_video_filename _ naming_kept_refl naming_kept_trans)
          | intros f0; destruct (os_path.split f0);
            apply (preserves_ret _ naming_kept_refl)]. }
    intros [basename vname].
    apply (preserves_bind _ naming_kept_trans);
      [apply write_file_naming_kept
      | intros _; apply (preserves_ret _ naming_kept_refl)]. }
  intros savepath.
  apply (preserves_bind _ naming_kept_trans); [apply Hmsg | intros _].
  apply (preserves_bind _ naming_kept_trans);
    [apply (preserves_get _ naming_kept_refl) | intros s0].
  apply (preserves_bind _ naming_kept_trans);
    [apply write_file_naming_kept | intros _].
  apply (preserves_when _ naming_kept_refl), update_gui_pose_naming_kept.
Qed.

Lemma table_is_not_metadata s f : table_path s f <> metadata_path s f.
Proof.
  unfold table_path, metadata_path.
  pose proof (videoname_no_sep f) as Hv.
  assert (Hb1 : os_path.has_char os_path.sep
                  (videoname f ++ pose_suffix (finetuned_model s))%string = false)
    by (rewrite has_char_app, Hv; destruct (finetuned_model s); reflexivity).
  assert (Hb2 : os_path.has_char os_path.sep
                  (videoname f ++ pose_stem (finetuned_model s))%string = false)
    by (rewrite has_char_app, Hv; destruct (finetuned_model s); reflexivity).
  rewrite (join_prefix _ _ Hb1), (join_prefix _ _ Hb2).
  rewrite !string_app_assoc. intros H.
  apply String.app_inj in H. apply String.app_inj in H.
  destruct (finetuned_model s); discriminate.
Qed.

(** C7.  A completed pass of the loop of [run_all] for video [f] leaves
    the table under the key df_with_missing at
    [join(directory, videoname + "_FacemapPose.h5")], or
    ["_FacemapPoseFinetuned.h5"] when [finetuned_model] is set, and the
    metadata at that path with its extension [.h5] replaced by
    ["_Facemap_metadata.pkl"], respectively
    ["_FacemapFinetuned_metadata.pkl"]; [save_pose_prediction] writes and
    returns the table path.  Both names carry the tag of the same flag. *)
Theorem output_paths_follow_finetuned_flag fuel vid s s' fns f :
  filenames s !! 0%nat = Some fns -> fns !! vid = Some f ->
  run_video env fuel vid s = (s', Ok tt) ->
  let dir := dir_prefix (output_dir s f) in
  (exists df md,
     disk s' !! table_path s f = Some (HdfTable "df_with_missing" df) /\
     disk s' !! metadata_path s f = Some (Pickle md)) /\
  (forall df, writable env (table_path s f) = true ->
     save_pose_prediction env df vid s
     = (with_disk (<[table_path s f := HdfTable "df_with_missing" df]> (disk s)) s,
        Ok (table_path s f))) /\
  table_path s f
  = (dir ++ videoname f
     ++ (if finetuned_model s then "_FacemapPoseFinetuned.h5"
         else "_FacemapPose.h5"))%string /\
  os_path.splitext (table_path s f)
  = ((dir ++ videoname f
      ++ (if finetuned_model s then "_FacemapPoseFinetuned"
          else "_FacemapPose"))%string, ".h5") /\
  metadata_path s f
  = (fst (os_path.splitext (table_path s f))
     ++ (if finetuned_model s then "_FacemapFinetuned_metadata.pkl"
         else "_Facemap_metadata.pkl"))%string.
Proof.
  intros Hfns Hf Hrun dir.
  pose proof (videoname_no_sep f) as Hv.
  assert (Hb1 : os_path.has_char os_path.sep
                  (videoname f ++ pose_suffix (finetuned_model s))%string = false)
    by (rewrite has_char_app, Hv; destruct (finetuned_model s); reflexivity).
  assert (Hb2 : os_path.has_char os_path.sep
                  (videoname f ++ pose_stem (finetuned_model s))%string = false)
    by (rewrite has_char_app, Hv; destruct (finetuned_model s); reflexivity).
  split.
  { destruct (run_video_done fuel vid s s' fns f Hfns Hf Hrun) as (df & md & Hd).
    exists df, md. rewrite Hd. split.
    - rewrite lookup_insert_ne by (apply not_eq_sym, table_is_not_metadata).
      apply lookup_insert_eq.
    - apply lookup_insert_eq. }
  split.
  { intros df Hw. rewrite (save_pose_prediction_eq df vid s fns f Hfns Hf), Hw.
    reflexivity. }
  split.
  { unfold table_path. rewrite (join_prefix _ _ Hb1).
    unfold dir, pose_suffix. now destruct (finetuned_model s). }
  split.
  { unfold table_path. rewrite (splitext_table_path _ _ _ Hv).
    rewrite (join_prefix _ _ Hb2).
    unfold dir, pose_stem. now destruct (finetuned_model s). }
  rewrite <- (metadata_path_from_table s f). unfold metadata_suffix.
  now destruct (finetuned_model s).
Qed.

Lemma for_each_naming_kept fuel (ids : list nat) :
  preserves naming_kept (for_each ids (run_video env fuel)).
Proof.
  apply (preserves_for_each _ naming_kept_refl naming_kept_trans).
  intros vid. apply run_video_naming_kept.
Qed.

(** After the passes for the videos [k, k + n) completed, the table and
    the metadata of each of them are files on disk. *)
Lemma videos_written fuel fns : forall n k sA sB,
  for_each (seq k n) (run_video env fuel) sA = (sB, Ok tt) ->
  filenames sA !! 0%nat = Some fns ->
  forall j fj, (k <= j < k + n)%nat -> fns !! j = Some fj ->
    is_Some (disk sB !! table_path sA fj) /\
    is_Some (disk sB !! metadata_path sA fj).
Proof.
  induction n as [|n IH]; intros k sA sB Hrun Hfns j fj Hj Hfj; [lia|].
  simpl in Hrun.
  apply bind_inv_ok in Hrun as (sM & [] & Hk & Hrest).
  pose proof (run_video_naming_kept fuel k _ _ _ Hk) as HkeptM.
  pose proof (for_each_naming_kept fuel _ _ _ _ Hrest) as HkeptB.
  destruct (decide (j = k)) as [->|Hne].
  - destruct (run_video_done fuel k sA sM fns fj Hfns Hfj Hk) as (df & md & Hd).
    destruct HkeptB as (_ & _ & _ & Hdom).
    split; apply elem_of_dom, Hdom, elem_of_dom; rewrite Hd.
    + rewrite lookup_insert_ne by (apply not_eq_sym, table_is_not_metadata).
      rewrite lookup_insert_eq. eauto.
    + rewrite lookup_insert_eq. eauto.
  - destruct (naming_kept_paths _ _ fj HkeptM) as [<- <-].
    assert (Hfns' : filenames sM !! 0%nat = Some fns)
      by (destruct HkeptM as (-> & _); exact Hfns).
    apply (IH (S k) sM sB Hrest Hfns' j fj); [lia | exact Hfj].
Qed.

(** C6, as the code has it.  When the videos before video [i] have been
    processed and predicting video [i] raises [e], [run_all] raises the
    same [e]; nothing is written from then on, so the disk is as the pass
    for video [i - 1] left it, and the table and metadata of every
    earlier video are files on it.  The error is handed on as it was
    raised; what names the video is the last message sent to the host. *)
Theorem run_all_failure_keeps_earlier_files fuel plot s s0 fns i f s1 s2 e :
  pose_prediction_setup env s = (s0, Ok tt) ->
  filenames s0 !! 0%nat = Some fns -> fns !! i = Some f ->
  for_each (range i) (run_video env fuel) s0 = (s1, Ok tt) ->
  predict_landmarks env fuel i None
    (with_log (log s1 ++ [Message (ProcessingVideo f) (Some true)]) s1)
  = (s2, Raise e) ->
  run_all env fuel plot s = (s2, Raise e) /\
  disk s2 = disk s1 /\
  (forall j fj, (j < i)%nat -> fns !! j = Some fj ->
     is_Some (disk s2 !! table_path s0 fj) /\
     is_Some (disk s2 !! metadata_path s0 fj)) /\
  last (messages (log s2)) = Some (Message (ProcessingVideo f) (Some true)).
Proof.
  intros Hsetup Hfns Hf Hbefore Hpred.
  pose proof (for_each_naming_kept fuel _ _ _ _ Hbefore) as Hkept.
  assert (Hdisk : disk s2 = disk s1).
  { pose proof (predict_same_self _ _ _ _ _ _ Hpred) as Hsame.
    destruct Hsame as (_&_&_&_&_&_&_&_&_&_&_&_&_&Hd). exact Hd. }
  split; [|split; [exact Hdisk|split]].
  - assert (Hvideo : run_video env fuel i s1 = (s2, Raise e)).
    { unfold run_video.
      rewrite (bind_ok _ _ _ _ _ (video_filename_ok s1 fns i f
                 ltac:(destruct Hkept as (-> & _); exact Hfns) Hf)).
      unfold bind at 1. unfold update_mainwindow_message at 1.
      unfold modify at 1. apply bind_raise. exact Hpred. }
    assert (Hloop : for_each (range (length fns)) (run_video env fuel) s0
                    = (s2, Raise e)).
    { pose proof (lookup_lt_Some _ _ _ Hf) as Hlt. unfold range in *.
      replace (length fns) with (i + S (length fns - S i))%nat by lia.
      rewrite seq_app, for_each_app, (bind_ok _ _ _ _ _ Hbefore).
      simpl. apply bind_raise. exact Hvideo. }
    unfold run_all.
    unfold bind at 1. unfold time_time at 1.
    rewrite (bind_ok _ _ _ _ _ Hsetup).
    unfold bind at 1. unfold get at 1.
    rewrite (bind_ok _ _ _ _ _ (index_lookup _ _ _ _ Hfns)).
    apply bind_raise. exact Hloop.
  - intros j fj Hj Hfj. rewrite Hdisk.
    apply (videos_written fuel fns i 0 s0 s1 Hbefore Hfns j fj); [lia | exact Hfj].
  - destruct (predict_quiet _ _ _ _ _ _ Hpred) as (evs & Hlog & Hnone).
    rewrite Hlog. simpl. rewrite !messages_app, Hnone, app_nil_r.
    apply last_snoc.
Qed.

End RunAll.

Lemma run_result_eta {A} (m : M A) (s : St) (a : A) :
  snd (m s) = Ok a -> m s = (fst (m s), Ok a).
Proof. destruct (m s) as [s' r]. simpl. now intros ->. Qed.

Lemma demo_run_video_ok : snd (run_video demo_env 3 0 demo_two_videos) = Ok tt.
Proof. vm_compute. reflexivity. Qed.

Lemma output_paths_follow_finetuned_flag_witness :
  table_path demo_two_videos "/data/cam0.avi" = "/data/cam0_FacemapPose.h5" /\
  metadata_path demo_two_videos "/data/cam0.avi"
  = "/data/cam0_FacemapPose_Facemap_metadata.pkl" /\
  exists df md,
    disk (fst (run_video demo_env 3 0 demo_two_videos))
      !! table_path demo_two_videos "/data/cam0.avi"
    = Some (HdfTable "df_with_missing" df) /\
    disk (fst (run_video demo_env 3 0 demo_two_videos))
      !! metadata_path demo_two_videos "/data/cam0.avi"
    = Some (Pickle md).
Proof.
  split; [reflexivity|]. split; [reflexivity|].
  exact (proj1 (output_paths_follow_finetuned_flag demo_env 3 0 demo_two_videos
                  _ ["/data/cam0.avi"; "/data/cam1.avi"] "/data/cam0.avi"
                  eq_refl eq_refl
                  (run_result_eta _ _ _ demo_run_video_ok))).
Defined.

Lemma run_raise_eta {A} (m : M A) (s : St) (e : exn) :
  snd (m s) = Raise e -> m s = (fst (m s), Raise e).
Proof. destruct (m s) as [s' r]. simpl. now intros ->. Qed.

Lemma flaky_first_video_ok :
  snd (for_each (range 1) (run_video flaky_env 3) demo_two_videos) = Ok tt.
Proof. vm_compute. reflexivity. Qed.

Lemma flaky_second_video_raises :
  snd (predict_landmarks flaky_env 3 1 None
         (with_log
            (log (fst (for_each (range 1) (run_video flaky_env 3) demo_two_videos))
             ++ [Message (ProcessingVideo "/data/cam1.avi") (Some true)])
            (fst (for_each (range 1) (run_video flaky_env 3) demo_two_videos))))
  = Raise (External "FrameFetchError").
Proof. vm_compute. reflexivity. Qed.

Lemma run_all_failure_keeps_earlier_files_witness :
  exists s2,
    run_all flaky_env 3 false demo_two_videos
    = (s2, Raise (External "FrameFetchError")) /\
    is_Some (disk s2 !! table_path demo_two_videos "/data/cam0.avi") /\
    is_Some (disk s2 !! metadata_path demo_two_videos "/data/cam0.avi") /\
    last (messages (log s2))
    = Some (Message (ProcessingVideo "/data/cam1.avi") (Some true)).
Proof.
  destruct (run_all_failure_keeps_earlier_files flaky_env 3 false
              demo_two_videos demo_two_videos
              ["/data/cam0.avi"; "/data/cam1.avi"] 1 "/data/cam1.avi" _ _ _
              eq_refl eq_refl eq_refl
              (run_result_eta _ _ _ flaky_first_video_ok)
              (run_raise_eta _ _ _ flaky_second_video_raises))
    as (Hrun & _ & Hfiles & Hlast).
  eexists. split; [exact Hrun|].
  destruct (Hfiles 0%nat "/data/cam0.avi" (le_n 1) eq_refl) as [Ht Hm].
  split; [exact Ht|]. split; [exact Hm | exact Hlast].
Defined.

(** C6 as stated fails in its last part: the run in which video 1 cannot
    be decoded and the run in which video 0 cannot be decoded surface the
    same error; it does not tell the videos apart.  The last message
    does. *)
Lemma surfaced_error_does_not_name_the_video :
  exists sA sB,
    run_all flaky_env 3 false demo_two_videos
    = (sA, Raise (External "FrameFetchError")) /\
    run_all flaky_env 3 false demo_two_videos_swapped
    = (sB, Raise (External "FrameFetchError")) /\
    last (messages (log sA))
    = Some (Message (ProcessingVideo "/data/cam1.avi") (Some true)) /\
    last (messages (log sB))
    = Some (Message (ProcessingVideo "/data/cam0.avi") (Some true)) /\
    is_Some (disk sA !! "/data/cam0_FacemapPose.h5") /\
    disk sB !! "/data/cam0_FacemapPose.h5" = None.
Proof.
  eexists _, _.
  split; [apply run_raise_eta; vm_compute; reflexivity|].
  split; [apply run_raise_eta; vm_compute; reflexivity|].
  split; [vm_compute; reflexivity|].
  split; [vm_compute; reflexivity|].
  split; [eexists; vm_compute; reflexivity | vm_compute; reflexivity].
Qed.

(** * Further properties of the class *)

(** ** What [predict_landmarks] and [run_subset] never touch *)

Section NeverTouched.
Context (env : Env).

Lemma run_fst_snd {A} (m : M A) (s : St) : m s = (fst (m s), snd (m s)).
Proof. now destruct (m s). Qed.

Lemma predict_keeps_eval fuel vid frame_ind :
  preserves (fun a b => net_mode a = EvalMode -> net_mode b = EvalMode)
            (predict_landmarks env fuel vid frame_ind).
Proof.
  apply (preserves_predict_landmarks
           (fun a b => net_mode a = EvalMode -> net_mode b = EvalMode)
           (fun a H => H) (fun a b c H1 H2 H => H2 (H1 H))
           (fun _ => True)); auto.
Qed.

(** Once line 281 is reached, the run is the one on the network in
    inference mode. *)
Lemma predict_landmarks_from_eval fuel vid frame_ind s nt frames :
  net s = Some nt -> requested s frame_ind = Some frames ->
  predict_landmarks env fuel vid frame_ind s
  = predict_landmarks env fuel vid frame_ind (with_net_mode EvalMode s).
Proof.
  intros Hn Hreq.
  unfold predict_landmarks, bind, get, net_attr, when, modify, ret, raise,
    index_last.
  change (cumframes (with_net_mode EvalMode s)) with (cumframes s).
  destruct frame_ind as [l|]; simpl in Hreq.
  - cbv beta iota zeta.
    change (net (with_net_mode EvalMode s)) with (net s). rewrite Hn.
    replace (Z.of_nat (length l) <? 0) with false
      by (symmetry; apply Z.ltb_ge; lia).
    reflexivity.
  - destruct (last (cumframes s)) as [t|]; [|discriminate].
    destruct (0 <=? t) eqn:Et; [|discriminate].
    unfold ret. cbv beta iota zeta.
    change (net (with_net_mode EvalMode s)) with (net s). rewrite Hn.
    replace (t <? 0) with false by (symmetry; apply Z.ltb_ge; lia).
    reflexivity.
Qed.

(** Before line 281 nothing has changed. *)
Lemma predict_landmarks_early fuel vid frame_ind s :
  net s = None \/ requested s frame_ind = None ->
  fst (predict_landmarks env fuel vid frame_ind s) = s.
Proof.
  intros Hcase.
  unfold predict_landmarks, bind, get, net_attr, when, modify, ret, raise,
    index_last.
  destruct frame_ind as [l|]; simpl in Hcase.
  - destruct Hcase as [Hn|Hr]; [|discriminate].
    cbv beta iota zeta. rewrite Hn. reflexivity.
  - destruct (last (cumframes s)) as [t|]; [|reflexivity].
    unfold ret. cbv beta iota zeta.
    destruct (net s) as [nt|]; [|reflexivity].
    destruct Hcase as [Hn|Hr]; [discriminate|].
    destruct (0 <=? t) eqn:Et; [discriminate|].
    replace (t <? 0) with true by (symmetry; apply Z.ltb_lt; lia).
    reflexivity.
Qed.

Lemma predict_landmarks_mode fuel vid frame_ind s :
  net_mode (fst (predict_landmarks env fuel vid frame_ind s))
  = mode_after_predict s frame_ind.
Proof.
  unfold mode_after_predict.
  destruct (net s) as [nt|] eqn:Hn.
  - destruct (requested s frame_ind) as [frames|] eqn:Hr.
    + rewrite (predict_landmarks_from_eval fuel vid frame_ind s nt frames Hn Hr).
      exact (predict_keeps_eval fuel vid frame_ind _ _ _
               (run_fst_snd _ (with_net_mode EvalMode s)) eq_refl).
    + now rewrite (predict_landmarks_early fuel vid frame_ind s (or_intror Hr)).
  - now rewrite (predict_landmarks_early fuel vid frame_ind s (or_introl Hn)).
Qed.

(** X1.  Whatever its outcome, [predict_landmarks] rebinds no attribute of
    the instance and leaves the disk as it was: it adds calls to the log,
    none of them a message, lets time pass, and switches the network to
    inference mode ([self.net.eval()], line 281) as soon as there is a
    network and the buffer of line 278 could be made; before that point
    the mode stays what it was. *)
Theorem predict_landmarks_touches_log_clock_and_mode fuel vid frame_ind s :
  same_self s (fst (predict_landmarks env fuel vid frame_ind s)) /\
  quiet s (fst (predict_landmarks env fuel vid frame_ind s)) /\
  net_mode (fst (predict_landmarks env fuel vid frame_ind s))
  = match net s, requested s frame_ind with
    | Some _, Some _ => EvalMode
    | _, _ => net_mode s
    end.
Proof.
  split; [|split].
  - exact (predict_same_self env fuel vid frame_ind _ _ _ (run_fst_snd _ s)).
  - exact (predict_quiet env fuel vid frame_ind _ _ _ (run_fst_snd _ s)).
  - exact (predict_landmarks_mode fuel vid frame_ind s).
Qed.

Lemma disk_kept_modify f :
  (forall s, disk (f s) = disk s) -> preserves disk_kept (modify f).
Proof. intros Hf. apply preserves_modify. exact Hf. Qed.

Lemma disk_kept_message p h : preserves disk_kept (update_mainwindow_message p h).
Proof. apply disk_kept_modify. reflexivity. Qed.

Lemma load_model_disk o : preserves disk_kept (load_model env o).
Proof.
  unfold load_model.
  apply (preserves_bind _ disk_kept_trans).
  { apply (preserves_when _ disk_kept_refl), disk_kept_modify. reflexivity. }
  intros _.
  apply (preserves_bind _ disk_kept_trans); [apply disk_kept_message | intros _].
  apply (preserves_bind _ disk_kept_trans);
    [apply (preserves_lift _ disk_kept_refl) | intros bps].
  apply (preserves_bind _ disk_kept_trans);
    [apply disk_kept_modify; reflexivity | intros _].
  apply (preserves_bind _ disk_kept_trans);
    [apply (preserves_lift _ disk_kept_refl) | intros nt].
  apply (preserves_bind _ disk_kept_trans);
    [apply disk_kept_modify; reflexivity | intros _].
  apply disk_kept_modify. reflexivity.
Qed.

Lemma setup_video_disk i : preserves disk_kept (setup_video i).
Proof.
  unfold setup_video.
  apply (preserves_bind _ disk_kept_trans);
    [apply (preserves_get _ disk_kept_refl) | intros s0].
  apply (preserves_bind _ disk_kept_trans);
    [apply (preserves_index _ disk_kept_refl) | intros ly].
  apply (preserves_bind _ disk_kept_trans);
    [apply (preserves_index _ disk_kept_refl) | intros lx].
  apply (preserves_bind _ disk_kept_trans);
    [apply disk_kept_modify; reflexivity | intros _].
  apply (preserves_bind _ disk_kept_trans).
  { apply (preserves_when _ disk_kept_refl), disk_kept_modify. reflexivity. }
  intros _.
  apply (preserves_bind _ disk_kept_trans).
  { apply (preserves_when _ disk_kept_refl), disk_kept_modify. reflexivity. }
  intros _.
  apply (preserves_bind _ disk_kept_trans);
    [apply (preserves_gui_attr _ disk_kept_refl) | intros g].
  apply (preserves_bind _ disk_kept_trans);
    [apply (preserves_get _ disk_kept_refl) | intros s1].
  apply disk_kept_message.
Qed.

Lemma setup_disk : preserves disk_kept (pose_prediction_setup env).
Proof.
  unfold pose_prediction_setup.
  apply (preserves_bind _ disk_kept_trans);
    [apply (preserves_get _ disk_kept_refl) | intros s0].
  apply (preserves_bind _ disk_kept_trans);
    [apply (preserves_when _ disk_kept_refl), load_model_disk | intros _].
  apply (preserves_bind _ disk_kept_trans);
    [apply (preserves_get _ disk_kept_refl) | intros s1].
  apply (preserves_when _ disk_kept_refl).
  apply (preserves_bind _ disk_kept_trans).
  - apply (preserves_for_each _ disk_kept_refl disk_kept_trans).
    intros i. apply setup_video_disk.
  - intros _. apply disk_kept_modify. reflexivity.
Qed.

Lemma predict_disk fuel vid frame_ind :
  preserves disk_kept (predict_landmarks env fuel vid frame_ind).
Proof.
  intros s s' r H.
  destruct (predict_same_self env fuel vid frame_ind _ _ _ H)
    as (_&_&_&_&_&_&_&_&_&_&_&_&_&Hd).
  exact Hd.
Qed.

Lemma run_subset_disk fuel subset_ind :
  preserves disk_kept (run_subset env fuel subset_ind).
Proof.
  unfold run_subset.
  apply (preserves_bind _ disk_kept_trans); [apply setup_disk | intros _].
  apply (preserves_bind _ disk_kept_trans).
  { destruct subset_ind; [apply (preserves_ret _ disk_kept_refl)|].
    apply (preserves_bind _ disk_kept_trans);
      [apply (preserves_get _ disk_kept_refl) | intros s0].
    apply (preserves_bind _ disk_kept_trans);
      [|intros c; apply (preserves_ret _ disk_kept_refl)].
    unfold np_random_choice.
    destruct (_ && _);
      [apply (preserves_ret _ disk_kept_refl)
      | apply (preserves_raise _ disk_kept_refl)]. }
  intros sub.
  apply (preserves_bind _ disk_kept_trans);
    [apply (preserves_video_filename _ disk_kept_refl disk_kept_trans)
    | intros f].
  apply (preserves_bind _ disk_kept_trans); [apply disk_kept_message | intros _].
  apply (preserves_bind _ disk_kept_trans); [apply predict_disk | intros pm].
  apply (preserves_bind _ disk_kept_trans); [apply disk_kept_message | intros _].
  apply (preserves_bind _ disk_kept_trans);
    [apply (preserves_get _ disk_kept_refl) | intros s1].
  apply (preserves_ret _ disk_kept_refl).
Qed.

(** X2.  [run_subset] never writes a file: whatever indices it is given
    and whatever its outcome, the disk is as it was. *)
Theorem run_subset_writes_nothing fuel subset_ind s :
  disk (fst (run_subset env fuel subset_ind s)) = disk s.
Proof. exact (run_subset_disk fuel subset_ind _ _ _ (run_fst_snd _ s)). Qed.

End NeverTouched.

(** ** More on [pose_prediction_setup] and [load_model] *)

Section SetupMore.
Context (env : Env).

Lemma net_kept_refl s : net_kept s s.
Proof. reflexivity. Qed.

Lemma net_kept_trans a b c : net_kept a b -> net_kept b c -> net_kept a c.
Proof. unfold net_kept. congruence. Qed.

Lemma setup_video_net i : preserves net_kept (setup_video i).
Proof.
  unfold setup_video.
  apply (preserves_bind _ net_kept_trans);
    [apply (preserves_get _ net_kept_refl) | intros s0].
  apply (preserves_bind _ net_kept_trans);
    [apply (preserves_index _ net_kept_refl) | intros ly].
  apply (preserves_bind _ net_kept_trans);
    [apply (preserves_index _ net_kept_refl) | intros lx].
  apply (preserves_bind _ net_kept_trans);
    [apply preserves_modify; reflexivity | intros _].
  apply (preserves_bind _ net_kept_trans).
  { apply (preserves_when _ net_kept_refl), preserves_modify. reflexivity. }
  intros _.
  apply (preserves_bind _ net_kept_trans).
  { apply (preserves_when _ net_kept_refl), preserves_modify. reflexivity. }
  intros _.
  apply (preserves_bind _ net_kept_trans);
    [apply (preserves_gui_attr _ net_kept_refl) | intros g].
  apply (preserves_bind _ net_kept_trans);
    [apply (preserves_get _ net_kept_refl) | intros s1].
  apply preserves_modify. reflexivity.
Qed.

Lemma load_model_post o s s' :
  load_model env o s = (s', Ok tt) -> exists nt, net s' = Some nt.
Proof.
  unfold load_model, bind, when, update_mainwindow_message, modify, lift, ret.
  destruct o as [p|]; destruct (model_params env) as [bps|e]; simpl;
    try discriminate;
    [destruct (load_net env (Some p) bps) | destruct (load_net env None bps)];
    simpl; intros H; try discriminate; injection H as <-; eexists; reflexivity.
Qed.

Lemma setup_success_post s s' :
  pose_prediction_setup env s = (s', Ok tt) ->
  (exists nt, net s' = Some nt) /\ bbox_set s' = true.
Proof.
  unfold pose_prediction_setup. intros H.
  apply bind_inv_ok in H as (sa & s0 & Hget & H). injection Hget as <- <-.
  apply bind_inv_ok in H as (s1 & [] & Hload & H).
  apply bind_inv_ok in H as (sb & s1' & Hget & H). injection Hget as <- <-.
  assert (Hnet : exists nt, net s1 = Some nt).
  { destruct (net s) as [nt|] eqn:En.
    - injection Hload as <-. eauto.
    - simpl in Hload. exact (load_model_post _ _ _ Hload). }
  destruct (bbox_set s1) eqn:Eb; simpl in H.
  - injection H as <-. auto.
  - apply bind_inv_ok in H as (s2 & [] & Hloop & H). injection H as <-.
    pose proof (preserves_for_each _ net_kept_refl net_kept_trans _ _
                  setup_video_net _ _ _ Hloop) as Hk.
    unfold net_kept in Hk. simpl. rewrite Hk. auto.
Qed.

(** X3.  [pose_prediction_setup] is idempotent once it has succeeded: a
    second call changes nothing, so no bbox is derived twice. *)
Theorem setup_twice_is_setup_once s s' :
  pose_prediction_setup env s = (s', Ok tt) ->
  pose_prediction_setup env s' = (s', Ok tt).
Proof.
  intros H. destruct (setup_success_post s s' H) as [[nt Hn] Hb].
  exact (setup_noop env s' nt Hn Hb).
Qed.

Lemma setup_video_no_gui_frame i s ly lx :
  gui s = None -> Ly s !! i = Some ly -> Lx s !! i = Some lx ->
  exists s',
    setup_video i s = (s', Raise (AttributeError "NoneType" "bbox")) /\
    bbox s' = bbox s ++ [full_frame ly lx] /\
    bbox_set s' = bbox_set s /\ gui s' = gui s /\ net s' = net s /\
    Ly s' = Ly s /\ Lx s' = Lx s /\ disk s' = disk s.
Proof.
  intros Hg Hy Hx. destruct s; simpl in *. subst.
  unfold setup_video, bind, get, index, modify, when, gui_attr; simpl.
  rewrite Hy, Hx; simpl.
  destruct (negb (ly - 0 =? lx - 0)),
           (negb (ly - 0 =? 256) || negb (lx - 0 =? 256));
    simpl; eexists; repeat split.
Qed.

Lemma setup_fails_without_gui s nt ly lx :
  bbox_set s = false -> gui s = None -> net s = Some nt ->
  Ly s !! 0%nat = Some ly -> Lx s !! 0%nat = Some lx ->
  exists s',
    pose_prediction_setup env s
    = (s', Raise (AttributeError "NoneType" "bbox")) /\
    bbox s' = bbox s ++ [full_frame ly lx] /\
    bbox_set s' = false /\ gui s' = None /\ net s' = Some nt /\
    Ly s' = Ly s /\ Lx s' = Lx s /\ disk s' = disk s.
Proof.
  intros Hb Hg Hn Hy Hx.
  destruct (setup_video_no_gui_frame 0 s ly lx Hg Hy Hx)
    as (s' & Hrun & Hbox & Hset & Hgui & Hnet & HLy & HLx & Hdisk).
  exists s'.
  split; [|repeat split; congruence].
  unfold pose_prediction_setup.
  unfold bind at 1. unfold get at 1. rewrite Hn. simpl when at 1.
  unfold bind at 1. unfold ret at 1. unfold bind at 1. unfold get at 1.
  rewrite Hb. simpl when. unfold range.
  destruct (Ly s) as [|ly' lys] eqn:ELy; [discriminate|].
  simpl length. simpl seq. simpl for_each.
  apply bind_raise. apply bind_raise. exact Hrun.
Qed.

(** X4.  Without a GUI the failed setup is not idempotent: [bbox_set] is
    never reached, so every further attempt fails the same way and appends
    one more copy of the first video's box. *)
Theorem failed_setup_appends_again s nt ly lx :
  bbox_set s = false -> gui s = None -> net s = Some nt ->
  Ly s !! 0%nat = Some ly -> Lx s !! 0%nat = Some lx ->
  exists s1 s2,
    pose_prediction_setup env s
    = (s1, Raise (AttributeError "NoneType" "bbox")) /\
    pose_prediction_setup env s1
    = (s2, Raise (AttributeError "NoneType" "bbox")) /\
    bbox s2 = bbox s ++ [full_frame ly lx; full_frame ly lx] /\
    bbox_set s2 = false.
Proof.
  intros Hb Hg Hn Hy Hx.
  destruct (setup_fails_without_gui s nt ly lx Hb Hg Hn Hy Hx)
    as (s1 & Hrun1 & Hbox1 & Hb1 & Hg1 & Hn1 & HLy1 & HLx1 & _).
  destruct (setup_fails_without_gui s1 nt ly lx Hb1 Hg1 Hn1
              ltac:(now rewrite HLy1) ltac:(now rewrite HLx1))
    as (s2 & Hrun2 & Hbox2 & Hb2 & _).
  exists s1, s2. repeat split; try assumption.
  rewrite Hbox2, Hbox1, <- app_assoc. reflexivity.
Qed.

Lemma setup_load_failure s e :
  net s = None -> model_params env = Raise e ->
  pose_prediction_setup env s
  = (with_log (log s ++ [Message LoadingModel None]) s, Raise e).
Proof.
  intros Hn He.
  unfold pose_prediction_setup, load_model, bind, get, when,
    update_mainwindow_message, modify, lift, ret.
  rewrite Hn, He. reflexivity.
Qed.

(** X5.  When the instance has no network and the model files cannot be
    read, [run_all] and [run_subset] raise the loader's error at once:
    the only trace is the loading message; no bbox is derived, no frame
    is fetched and nothing is written. *)
Theorem unreadable_model_aborts_before_any_video fuel plot subset_ind s e :
  net s = None -> model_params env = Raise e ->
  run_all env fuel plot s
  = (with_log (log s ++ [Message LoadingModel None]) s, Raise e) /\
  run_subset env fuel subset_ind s
  = (with_log (log s ++ [Message LoadingModel None]) s, Raise e).
Proof.
  intros Hn He. split.
  - unfold run_all. unfold bind at 1. unfold time_time at 1.
    apply bind_raise. exact (setup_load_failure s e Hn He).
  - unfold run_subset. apply bind_raise. exact (setup_load_failure s e Hn He).
Qed.

(** X6.  [load_model] with a model state file marks the instance as
    fine-tuned before it reads anything: when reading fails, the flag
    stays set while network and bodyparts are the old ones, and output
    file names carry the fine-tuned tag from then on. *)
Theorem failed_load_leaves_finetuned_flag path s e :
  model_params env = Raise e ->
  exists s',
    load_model env (Some path) s = (s', Raise e) /\
    finetuned_model s' = true /\
    net s' = net s /\ bodyparts s' = bodyparts s /\
    forall f, table_path s' f
              = os_path.join (output_dir s f)
                  (videoname f ++ "_FacemapPoseFinetuned.h5")%string.
Proof.
  intros He. eexists. split.
  - unfold load_model, bind, when, update_mainwindow_message, modify, lift.
    rewrite He. reflexivity.
  - repeat split.
Qed.

End SetupMore.

Lemma demo_gui_setup_ok :
  snd (pose_prediction_setup demo_env demo_gui_pose) = Ok tt.
Proof. vm_compute. reflexivity. Qed.

Lemma setup_twice_is_setup_once_witness :
  pose_prediction_setup demo_env
    (fst (pose_prediction_setup demo_env demo_gui_pose))
  = (fst (pose_prediction_setup demo_env demo_gui_pose), Ok tt).
Proof.
  exact (setup_twice_is_setup_once demo_env demo_gui_pose _
           (run_result_eta _ _ _ demo_gui_setup_ok)).
Defined.

Lemma failed_setup_appends_again_witness :
  exists s1 s2,
    pose_prediction_setup demo_env demo_cli_pose
    = (s1, Raise (AttributeError "NoneType" "bbox")) /\
    pose_prediction_setup demo_env s1
    = (s2, Raise (AttributeError "NoneType" "bbox")) /\
    bbox s2 = [mkBBox 0 480 0 640; mkBBox 0 480 0 640] /\
    bbox_set s2 = false.
Proof.
  exact (failed_setup_appends_again demo_env demo_cli_pose demo_net 480 640
           eq_refl eq_refl eq_refl eq_refl eq_refl).
Defined.

Lemma unreadable_model_aborts_before_any_video_witness :
  run_all no_model_env 30 true demo_fresh_pose
  = (with_log [Message LoadingModel None] demo_fresh_pose,
     Raise (External "ModelLoadError")) /\
  run_subset no_model_env 30 None demo_fresh_pose
  = (with_log [Message LoadingModel None] demo_fresh_pose,
     Raise (External "ModelLoadError")).
Proof.
  exact (unreadable_model_aborts_before_any_video no_model_env 30 true None
           demo_fresh_pose (External "ModelLoadError") eq_refl eq_refl).
Defined.

Lemma failed_load_leaves_finetuned_flag_witness :
  exists s',
    load_model no_model_env (Some "/models/mine.pt") demo_ready_pose
    = (s', Raise (External "ModelLoadError")) /\
    finetuned_model s' = true /\
    table_path s' "/data/cam0.avi" = "/data/cam0_FacemapPoseFinetuned.h5".
Proof.
  destruct (failed_load_leaves_finetuned_flag no_model_env "/models/mine.pt"
              demo_ready_pose (External "ModelLoadError") eq_refl)
    as (s' & Hrun & Hft & _ & _ & Hpath).
  exists s'. split; [exact Hrun|]. split; [exact Hft|].
  rewrite Hpath. reflexivity.
Defined.

(** ** Edge behaviour of [write_dataframe], [update_gui_pose] and [train] *)

Section Edges.
Context (env : Env).

Lemma write_dataframe_needs_bodyparts_aux data selected s :
  bodyparts s = None ->
  write_dataframe data selected s = (s, Raise TypeError).
Proof. intros H. unfold write_dataframe, bind, get. now rewrite H. Qed.

(** X7.  [write_dataframe] needs keypoint names: with [self.bodyparts]
    None it raises TypeError, with an empty list the table is never bound
    and it raises UnboundLocalError; in both cases for any data and row
    labels, and leaving the instance as it was. *)
Theorem write_dataframe_needs_bodyparts data selected s :
  bodyparts s = None \/ bodyparts s = Some [] ->
  write_dataframe data selected s
  = (s, Raise (match bodyparts s with
               | None => TypeError
               | Some _ => UnboundLocalError "dataFrame"
               end)).
Proof.
  intros [H|H]; unfold write_dataframe, bind, get; rewrite H.
  - reflexivity.
  - unfold ret, lift, raise. destruct selected; reflexivity.
Qed.

(** X8.  An instance that was given a network but no bodyparts predicts
    the whole video and only then fails: the pass of [run_all] fetches
    every frame, raises TypeError when the table is built and writes
    nothing. *)
Theorem run_video_without_bodyparts fuel vid s nt ly lx b frames fns f :
  bodyparts s = None ->
  net s = Some nt ->
  Ly s !! vid = Some ly -> Lx s !! vid = Some lx -> bbox s !! vid = Some b ->
  requested s None = Some frames ->
  forallb (batch_ok env ly lx b (add_padding s) (resize s) nt) frames = true ->
  (length frames <= fuel)%nat ->
  ~ (inference_seconds env frames == 0)%Q ->
  filenames s !! 0%nat = Some fns -> fns !! vid = Some f ->
  exists s' evs,
    run_video env fuel vid s = (s', Raise TypeError) /\
    disk s' = disk s /\
    log s' = log s ++ evs /\
    fetched evs = map (fun x => [x]) frames.
Proof.
  intros Hbp Hnet Hly Hlx Hb Hreq Hok Hfuel Htime Hfns Hf.
  unfold run_video.
  rewrite (bind_ok _ _ _ _ _ (video_filename_ok s fns vid f Hfns Hf)).
  unfold bind at 1. unfold update_mainwindow_message at 1. unfold modify at 1.
  set (s1 := with_log (log s ++ [Message (ProcessingVideo f) (Some true)]) s).
  pose proof (predict_landmarks_run env fuel vid None s1 nt ly lx b frames
                Hnet Hly Hlx Hb Hreq Hok Hfuel Htime) as Hrun.
  simpl in Hrun.
  set (n := Z.of_nat (length frames)) in *.
  set (pd0 := zeros n (length (net_bodyparts nt))) in *.
  destruct (run_passes_spec env ly lx b nt n frames 0 (with_net_mode EvalMode s1) pd0 0%Q ltac:(lia))
    as (Hsame & _ & evs & Hlog & Hfetch & _).
  destruct (run_passes env ly lx b nt n frames 0 (with_net_mode EvalMode s1) pd0 0%Q)
    as [s2 [pd it]]. simpl in *.
  rewrite (bind_ok _ _ _ _ _ Hrun).
  destruct Hsame as (_&_&_&_&_&_&Hbp2&_&_&_&_&_&_&Hdisk).
  assert (Hw : write_dataframe pd None s2 = (s2, Raise TypeError)).
  { rewrite (write_dataframe_needs_bodyparts_aux pd None s2)
      by (rewrite Hbp2; exact Hbp).
    reflexivity. }
  exists s2, ([Message (ProcessingVideo f) (Some true)] ++ evs).
  split; [apply bind_raise; exact Hw|].
  split; [exact Hdisk|].
  split; [rewrite Hlog; simpl; rewrite <- app_assoc; reflexivity|].
  rewrite fetched_app. exact Hfetch.
Qed.

(** X9.  [update_gui_pose] stores the path at index [video_id] only when
    the GUI's list already has that index.  On an empty list the path is
    appended, so it lands at index 0 whatever [video_id] is; on a
    non-empty list that is too short the assignment raises IndexError
    before any GUI method is called. *)
Theorem update_gui_pose_list_update savepath vid s g :
  gui s = Some g ->
  exists s' r,
    update_gui_pose savepath vid s = (s', r) /\
    disk s' = disk s /\
    match poseFilepath g with
    | [] => r = Ok tt /\
            (poseFilepath <$> gui s') = Some [savepath]
    | _ :: _ =>
        if (vid <? length (poseFilepath g))%nat
        then r = Ok tt /\
             (poseFilepath <$> gui s')
             = Some (<[vid := savepath]> (poseFilepath g))
        else r = Raise IndexError /\ s' = s
    end.
Proof.
  intros Hg.
  unfold update_gui_pose, bind, gui_attr, gui_call, record, modify, raise.
  rewrite Hg.
  destruct (poseFilepath g) as [|p0 l] eqn:El; simpl.
  - eexists _, _. split; [reflexivity|]. repeat split.
  - destruct (vid <? S (length l))%nat eqn:Ev.
    + eexists _, _. split; [reflexivity|]. repeat split.
    + eexists _, _. split; [reflexivity|]. repeat split.
Qed.

(** X10.  [train] reads [self.bbox[0]] for its dataset: on an instance
    without any bbox (setup not yet run) it raises IndexError before the
    training is started, and nothing changes. *)
Theorem train_needs_a_bbox trainer s :
  bbox s = [] -> train trainer s = (s, Raise IndexError).
Proof.
  intros Hb. unfold train, bind, get, index. rewrite Hb. reflexivity.
Qed.

(** X11.  A successful [train] installs the trained network and marks the
    instance as fine-tuned, so tables are written under the fine-tuned
    name from then on; it trains on the first video's bbox and leaves
    [self.bodyparts] as it was.  A training that raises changes nothing,
    the flag included. *)
Theorem train_marks_finetuned trainer s b :
  bbox s !! 0%nat = Some b ->
  match trainer b (net s) with
  | Ok nt =>
      exists s',
        train trainer s = (s', Ok nt) /\
        net s' = Some nt /\ finetuned_model s' = true /\
        bodyparts s' = bodyparts s /\ bbox s' = bbox s /\ disk s' = disk s /\
        forall f, table_path s' f
                  = os_path.join (output_dir s f)
                      (videoname f ++ "_FacemapPoseFinetuned.h5")%string
  | Raise e => train trainer s = (s, Raise e)
  end.
Proof.
  intros Hb. unfold train, bind, get, index, lift, modify, ret. rewrite Hb.
  destruct (trainer b (net s)) as [nt|e]; [|reflexivity].
  eexists. split; [reflexivity|]. repeat split.
Qed.

End Edges.

Lemma write_dataframe_needs_bodyparts_witness :
  write_dataframe [[(1 # 1, 2 # 1, 1 # 2)]] None demo_unnamed_pose
  = (demo_unnamed_pose, Raise TypeError).
Proof.
  exact (write_dataframe_needs_bodyparts [[(1 # 1, 2 # 1, 1 # 2)]] None
           demo_unnamed_pose (or_introl eq_refl)).
Defined.

Lemma run_video_without_bodyparts_witness :
  exists s' evs,
    run_video demo_env 3 0 demo_unnamed_pose = (s', Raise TypeError) /\
    disk s' = ∅ /\
    fetched evs = [[0]; [1]; [2]].
Proof.
  destruct (run_video_without_bodyparts demo_env 3 0 demo_unnamed_pose demo_net
              480 640 (mkBBox 0 480 0 640) [0; 1; 2]
              ["/data/cam0.avi"] "/data/cam0.avi"
              eq_refl eq_refl eq_refl eq_refl eq_refl eq_refl eq_refl (le_n 3)
              (demo_time_not_zero [0; 1; 2] ltac:(discriminate))
              eq_refl eq_refl)
    as (s' & evs & Hrun & Hdisk & _ & Hfetch).
  exists s', evs. repeat split; assumption.
Defined.

Lemma update_gui_pose_list_update_witness :
  exists s',
    update_gui_pose "/out/cam1_FacemapPose.h5" 1 demo_gui_ready_pose
    = (s', Ok tt) /\
    (poseFilepath <$> gui s') = Some ["/out/cam1_FacemapPose.h5"].
Proof.
  destruct (update_gui_pose_list_update "/out/cam1_FacemapPose.h5" 1
              demo_gui_ready_pose demo_gui eq_refl)
    as (s' & r & Hrun & _ & Hr & Hl).
  exists s'. rewrite Hrun, Hr. split; [reflexivity | exact Hl].
Defined.

Lemma train_needs_a_bbox_witness :
  train demo_trainer demo_fresh_pose = (demo_fresh_pose, Raise IndexError).
Proof. exact (train_needs_a_bbox demo_trainer demo_fresh_pose eq_refl). Defined.

Lemma train_marks_finetuned_witness :
  exists s',
    train demo_trainer demo_ready_pose = (s', Ok (mkNet ["whisker"])) /\
    finetuned_model s' = true /\
    bodyparts s' = Some ["eye"; "nose"] /\
    table_path s' "/data/cam0.avi" = "/data/cam0_FacemapPoseFinetuned.h5".
Proof.
  destruct (train_marks_finetuned demo_trainer demo_ready_pose
              (mkBBox 0 480 0 640) eq_refl)
    as (s' & Hrun & _ & Hft & Hbp & _ & _ & Hpath).
  exists s'. split; [exact Hrun|]. split; [exact Hft|].
  split; [exact Hbp|]. rewrite Hpath. reflexivity.
Defined.

(** ** [run_subset] on indices of the caller *)

Section RunSubsetGiven.
Context (env : Env).


End RunSubsetGiven.




(** The sample drawn by default, where [run_subset] returns: see
    [run_subset_returns_sample]. *)

Section RunSubsetDefault.
Context (env : Env).


End RunSubsetDefault.


(** ** The shared default of [bbox] *)

Section SharedDefault.
Context (env : Env).

(** X14.  Two instances constructed without a bbox share one list.  When
    both run their setup, the second appends its boxes behind those of
    the first: its [self.bbox[i]] is the box of the first instance's
    video [i], not of its own. *)
Theorem default_bbox_is_shared a b ga gb nta ntb :
  bbox_set a = false -> gui a = Some ga -> net a = Some nta ->
  length (Lx a) = length (Ly a) ->
  bbox_set b = false -> gui b = Some gb -> net b = Some ntb ->
  length (Lx b) = length (Ly b) ->
  let r1 := on_default_bbox (pose_prediction_setup env) [] a in
  let r2 := on_default_bbox (pose_prediction_setup env) (fst r1) b in
  snd (snd r1) = Ok tt /\ snd (snd r2) = Ok tt /\
  fst r1 = zip_with full_frame (Ly a) (Lx a) /\
  bbox (fst (snd r2))
  = zip_with full_frame (Ly a) (Lx a) ++ zip_with full_frame (Ly b) (Lx b) /\
  fst r2 = bbox (fst (snd r2)) /\
  forall i ly lx, Ly a !! i = Some ly -> Lx a !! i = Some lx ->
    bbox (fst (snd r2)) !! i = Some (full_frame ly lx).
Proof.
  intros Hba Hga Hna Hla Hbb Hgb Hnb Hlb r1 r2.
  assert (E1 : r1 = (zip_with full_frame (Ly a) (Lx a),
                     (with_bbox_set true
                        (after_setup_loop ga (zip (Ly a) (Lx a))
                           (with_bbox [] a)), Ok tt))).
  { unfold r1, on_default_bbox.
    rewrite (setup_ok env (with_bbox [] a) ga nta Hba Hga Hna Hla).
    f_equal.
    destruct (after_setup_loop_fields ga (zip (Ly a) (Lx a)) (with_bbox [] a))
      as (_&_&_&_&_&_&_&_&_&_&_&_&Hbox&_).
    simpl. rewrite Hbox. simpl. apply map_zip_full_frame. }
  set (A := zip_with full_frame (Ly a) (Lx a)) in *.
  assert (E2 : r2 = (A ++ zip_with full_frame (Ly b) (Lx b),
                     (with_bbox_set true
                        (after_setup_loop gb (zip (Ly b) (Lx b))
                           (with_bbox A b)), Ok tt))).
  { unfold r2. rewrite E1. unfold on_default_bbox. simpl fst.
    rewrite (setup_ok env (with_bbox A b) gb ntb Hbb Hgb Hnb Hlb).
    f_equal.
    destruct (after_setup_loop_fields gb (zip (Ly b) (Lx b)) (with_bbox A b))
      as (_&_&_&_&_&_&_&_&_&_&_&_&Hbox&_).
    simpl. rewrite Hbox. simpl. now rewrite map_zip_full_frame. }
  assert (Hbox2 : bbox (fst (snd r2)) = A ++ zip_with full_frame (Ly b) (Lx b)).
  { rewrite E2. simpl.
    destruct (after_setup_loop_fields gb (zip (Ly b) (Lx b)) (with_bbox A b))
      as (_&_&_&_&_&_&_&_&_&_&_&_&Hbox&_).
    rewrite Hbox. simpl. now rewrite map_zip_full_frame. }
  split; [now rewrite E1|]. split; [now rewrite E2|].
  split; [now rewrite E1|]. split; [exact Hbox2|].
  split; [rewrite Hbox2, E2; reflexivity|].
  intros i ly lx Hy Hx. rewrite Hbox2.
  assert (HA : A !! i = Some (full_frame ly lx)).
  { unfold A. rewrite lookup_zip_with, Hy. simpl. now rewrite Hx. }
  rewrite lookup_app_l; [exact HA|]. apply lookup_lt_is_Some. eauto.
Qed.

End SharedDefault.

Lemma default_bbox_is_shared_witness :
  let r1 := on_default_bbox (pose_prediction_setup demo_env) [] demo_gui_pose in
  let r2 := on_default_bbox (pose_prediction_setup demo_env) (fst r1)
              demo_gui_square_pose in
  Ly demo_gui_square_pose = [256] /\
  bbox (fst (snd r2)) = [mkBBox 0 480 0 640; mkBBox 0 256 0 256] /\
  bbox (fst (snd r2)) !! 0%nat = Some (mkBBox 0 480 0 640).
Proof.
  destruct (default_bbox_is_shared demo_env demo_gui_pose demo_gui_square_pose
              demo_gui demo_gui demo_net demo_net
              eq_refl eq_refl eq_refl eq_refl eq_refl eq_refl eq_refl eq_refl)
    as (_ & _ & _ & Hbox & _ & Hstale).
  split; [reflexivity|]. split; [exact Hbox|].
  exact (Hstale 0%nat 480 640 eq_refl eq_refl).
Defined.

(** ** Where the outputs go *)

Section OutputPlaces.
Import os_path.
Local Open Scope string_scope.
Context (env : Env).

Lemma endswith_tail c a d :
  d <> "" -> endswith c (String a d) = endswith c d.
Proof.
  intros Hd. unfold endswith. simpl.
  destruct (rcut c d) as [[h t]|] eqn:E; [reflexivity|].
  destruct (Ascii.eqb a c); [|reflexivity].
  destruct d; [contradiction | reflexivity].
Qed.

Lemma endswith_single c a : endswith c (String a "") = Ascii.eqb a c.
Proof. unfold endswith. simpl. now destruct (Ascii.eqb a c). Qed.

Lemma not_endswith_has_other c d :
  d <> "" -> endswith c d = false -> has_other c d = true.
Proof.
  induction d as [|a d IH]; [contradiction|]. intros _ He.
  destruct d as [|b d'].
  - rewrite endswith_single in He. simpl. now rewrite He.
  - rewrite endswith_tail in He by discriminate.
    simpl in *. rewrite (IH ltac:(discriminate) He). apply orb_true_r.
Qed.

Lemma rstrip_added_sep c d :
  d <> "" -> endswith c d = false -> rstrip c (d ++ String c "") = d.
Proof.
  induction d as [|a d IH]; [contradiction|]. intros _ He.
  rewrite app_String. destruct d as [|b d'].
  - rewrite endswith_single in He. rewrite app_empty. simpl.
    now rewrite Ascii.eqb_refl, He.
  - rewrite endswith_tail in He by discriminate.
    cbn [rstrip]. rewrite (IH ltac:(discriminate) He). reflexivity.
Qed.

(** [os.path.split] of [d/name]. *)
Lemma split_dir_name d name :
  d <> "" -> endswith sep d = false -> has_char sep name = false ->
  split (d ++ String sep name) = (d, name).
Proof.
  intros Hd He Hn. unfold split. rewrite (rcut_last sep d name Hn).
  rewrite has_other_app, (not_endswith_has_other sep d Hd He). simpl.
  now rewrite (rstrip_added_sep sep d Hd He).
Qed.

Lemma split_tail_name d name :
  has_char sep name = false -> snd (split (d ++ String sep name)) = name.
Proof.
  intros Hn. unfold split. now rewrite (rcut_last sep d name Hn).
Qed.

(** [os.path.splitext] of [stem.ext]. *)
Lemma splitext_stem_ext stem ext :
  has_char sep stem = false -> has_char sep ext = false ->
  has_char extsep ext = false -> has_other extsep stem = true ->
  splitext (stem ++ String extsep ext) = (stem, String extsep ext).
Proof.
  intros Hs He Hd Ho. unfold splitext.
  rewrite (rcut_none sep (stem ++ String extsep ext))
    by (rewrite has_char_app, Hs; simpl; exact He).
  now rewrite (rcut_last extsep stem ext Hd), Ho.
Qed.

(** X15.  Without a GUI the table of the video [d/stem.ext] is written
    next to the video, as [d/stem_FacemapPose.h5] (or
    [d/stem_FacemapPoseFinetuned.h5]): only the last extension of the
    file name is dropped, and the file that was there is replaced. *)
Theorem cli_table_sits_next_to_video df vid s fns d stem ext :
  gui s = None ->
  filenames s !! 0%nat = Some fns ->
  fns !! vid = Some (d ++ String sep (stem ++ String extsep ext)) ->
  d <> "" -> endswith sep d = false ->
  has_char sep stem = false -> has_other extsep stem = true ->
  has_char sep ext = false -> has_char extsep ext = false ->
  writable env (d ++ String sep (stem ++ pose_suffix (finetuned_model s)))
  = true ->
  save_pose_prediction env df vid s
  = (with_disk
       (<[d ++ String sep (stem ++ pose_suffix (finetuned_model s))
          := HdfTable "df_with_missing" df]> (disk s)) s,
     Ok (d ++ String sep (stem ++ pose_suffix (finetuned_model s)))).
Proof.
  intros Hg Hfns Hf Hd He Hs Ho Hes Hed Hw.
  set (f := d ++ String sep (stem ++ String extsep ext)) in *.
  assert (Hname : has_char sep (stem ++ String extsep ext) = false)
    by (rewrite has_char_app, Hs; simpl; exact Hes).
  assert (Hpath : table_path s f
                  = d ++ String sep (stem ++ pose_suffix (finetuned_model s))).
  { unfold table_path, output_dir, videoname, f. rewrite Hg.
    rewrite (split_dir_name d _ Hd He Hname). simpl fst. simpl snd.
    rewrite (splitext_stem_ext stem ext Hs Hes Hed Ho). simpl fst.
    rewrite join_prefix
      by (rewrite has_char_app, Hs; destruct (finetuned_model s); reflexivity).
    unfold dir_prefix. destruct d as [|a d']; [contradiction|].
    rewrite He. now rewrite string_app_assoc, (app_String sep), app_empty. }
  rewrite (save_pose_prediction_eq env df vid s fns f Hfns Hf), Hpath, Hw.
  reflexivity.
Qed.

(** X16.  With a GUI the output names are made of the save path and the
    file name of the video alone: two videos with the same file name in
    different directories get the same table and metadata paths, and two
    completed passes of [run_all] over them leave two new files, not
    four. *)
Theorem gui_outputs_of_same_name_collide fuel i j s s1 s2 g fns d1 d2 name :
  gui s = Some g ->
  has_char sep name = false ->
  filenames s !! 0%nat = Some fns ->
  fns !! i = Some (d1 ++ String sep name) ->
  fns !! j = Some (d2 ++ String sep name) ->
  run_video env fuel i s = (s1, Ok tt) ->
  run_video env fuel j s1 = (s2, Ok tt) ->
  table_path s (d1 ++ String sep name) = table_path s (d2 ++ String sep name) /\
  metadata_path s (d1 ++ String sep name)
  = metadata_path s (d2 ++ String sep name) /\
  dom (disk s2)
  = {[ table_path s (d1 ++ String sep name);
       metadata_path s (d1 ++ String sep name) ]} ∪ dom (disk s).
Proof.
  intros Hg Hn Hfns Hi Hj Hrun1 Hrun2.
  assert (Hv : videoname (d1 ++ String sep name)
               = videoname (d2 ++ String sep name)).
  { unfold videoname. now rewrite !(split_tail_name _ name Hn). }
  assert (Hdir : output_dir s (d1 ++ String sep name)
                 = output_dir s (d2 ++ String sep name)).
  { unfold output_dir. now rewrite Hg. }
  assert (Ht : table_path s (d1 ++ String sep name)
               = table_path s (d2 ++ String sep name)).
  { unfold table_path. now rewrite Hv, Hdir. }
  assert (Hm : metadata_path s (d1 ++ String sep name)
               = metadata_path s (d2 ++ String sep name)).
  { unfold metadata_path. now rewrite Hv, Hdir. }
  split; [exact Ht|]. split; [exact Hm|].
  pose proof (run_video_naming_kept env fuel i _ _ _ Hrun1) as Hkept.
  destruct (run_video_done env fuel i s s1 fns _ Hfns Hi Hrun1)
    as (df1 & md1 & Hd1).
  assert (Hfns1 : filenames s1 !! 0%nat = Some fns)
    by (destruct Hkept as (-> & _); exact Hfns).
  destruct (run_video_done env fuel j s1 s2 fns _ Hfns1 Hj Hrun2)
    as (df2 & md2 & Hd2).
  destruct (naming_kept_paths _ _ (d2 ++ String sep name) Hkept) as [Ht1 Hm1].
  rewrite Hd2, Ht1, Hm1, Hd1, <- Ht, <- Hm.
  rewrite !dom_insert_L. apply set_eq. intros x.
  rewrite !elem_of_union, !elem_of_singleton. tauto.
Qed.

End OutputPlaces.

Lemma cli_table_sits_next_to_video_witness :
  save_pose_prediction demo_env (mkDataFrame [] [] []) 0 demo_ready_pose
  = (with_disk
       (<["/data/cam0_FacemapPose.h5"
          := HdfTable "df_with_missing" (mkDataFrame [] [] [])]> ∅)
       demo_ready_pose,
     Ok "/data/cam0_FacemapPose.h5").
Proof.
  exact (cli_table_sits_next_to_video demo_env (mkDataFrame [] [] []) 0
           demo_ready_pose ["/data/cam0.avi"] "/data" "cam0" "avi"
           eq_refl eq_refl eq_refl ltac:(discriminate) eq_refl eq_refl eq_refl
           eq_refl eq_refl eq_refl).
Defined.

Lemma demo_same_names_first :
  snd (run_video demo_env 3 0 demo_same_names) = Ok tt.
Proof. vm_compute. reflexivity. Qed.

Lemma demo_same_names_second :
  snd (run_video demo_env 3 1 (fst (run_video demo_env 3 0 demo_same_names)))
  = Ok tt.
Proof. vm_compute. reflexivity. Qed.

Lemma gui_outputs_of_same_name_collide_witness :
  table_path demo_same_names "/a/cam.avi" = "/out/cam_FacemapPose.h5" /\
  table_path demo_same_names "/b/cam.avi" = "/out/cam_FacemapPose.h5" /\
  dom (disk (fst (run_video demo_env 3 1
                    (fst (run_video demo_env 3 0 demo_same_names)))))
  = {[ "/out/cam_FacemapPose.h5";
       "/out/cam_FacemapPose_Facemap_metadata.pkl" ]}.
Proof.
  destruct (gui_outputs_of_same_name_collide demo_env 3 0 1 demo_same_names
              _ _ _ ["/a/cam.avi"; "/b/cam.avi"] "/a" "/b" "cam.avi"
              eq_refl eq_refl eq_refl eq_refl eq_refl
              (run_result_eta _ _ _ demo_same_names_first)
              (run_result_eta _ _ _ demo_same_names_second))
    as (_ & _ & Hdom).
  split; [reflexivity|]. split; [reflexivity|].
  rewrite Hdom. change (disk demo_same_names) with (∅ : gmap string file).
  rewrite dom_empty_L. set_solver.
Defined.

(** ** More on the batch loop *)

Section LoopMore.
Context (env : Env).

Lemma run_passes_progress ly lx b nt n :
  forall frames k s pd it,
    0 <= k ->
    exists evs,
      log (fst (run_passes env ly lx b nt n frames k s pd it)) = log s ++ evs /\
      progress_updates evs
      = List.filter (fun v => progress_due v n)
          (map (fun i => Z.min (k + Z.of_nat i + 2) n) (seq 0 (length frames))).
Proof.
  induction frames as [|f rest IH]; intros k s pd it Hk; simpl.
  - exists []. now rewrite app_nil_r.
  - destruct (IH (k + 1) (after_pass env n k f s)
                (<[Z.to_nat k := batch_row env ly lx b (add_padding s) (resize s) nt f]> pd)
                (it + (pass_t1 env [f] (now s) - pass_t0 env [f] (now s)))%Q
                ltac:(lia))
      as (evs & Hlog & Hupd).
    exists (pass_events env n k f ++ evs).
    split; [rewrite Hlog; simpl; now rewrite <- app_assoc|].
    rewrite progress_updates_app, Hupd. unfold pass_events.
    rewrite (batch_size_1 env).
    replace (k + Z.of_nat 0 + 2) with (k + 1 + 1) by lia.
    rewrite <- seq_shift, map_map.
    assert (Hext : map (fun i => Z.min (k + Z.of_nat (S i) + 2) n)
                       (seq 0 (length rest))
                   = map (fun i => Z.min (k + 1 + Z.of_nat i + 2) n)
                       (seq 0 (length rest))).
    { apply map_ext. intros i. f_equal. lia. }
    rewrite Hext.
    destruct (progress_due (Z.min (k + 1 + 1) n) n); reflexivity.
Qed.

Lemma tested_ends_lookup n count k :
  (k < count)%nat ->
  tested_ends n count !! k = Some (Z.min (Z.of_nat k + 2) n).
Proof.
  intros Hk. unfold tested_ends.
  rewrite list_lookup_fmap, (lookup_seq_lt 0 count k Hk). reflexivity.
Qed.

Lemma tested_ends_range n count v :
  2 <= n -> In v (tested_ends n count) -> 2 <= v <= n.
Proof.
  intros Hn Hv. unfold tested_ends in Hv.
  apply in_map_iff in Hv as (k & <- & _). lia.
Qed.

(** X17.  After the pass for row [k] the progress test looks at the end
    of the next batch, [min(k + 2, n)], not at the number of frames done:
    a completed run of [n] frames has updated the bar after exactly the
    passes whose value passes the test of line 346.  In a run of two or
    more frames every update carries a value between 2 and [n] (1 is
    never tested) and the last two passes test the same value [n]; a run
    of one frame tests the value 1, once. *)
Theorem progress_is_tested_one_batch_ahead fuel vid frame_ind s nt ly lx b
    frames :
  net s = Some nt ->
  Ly s !! vid = Some ly -> Lx s !! vid = Some lx -> bbox s !! vid = Some b ->
  requested s frame_ind = Some frames ->
  forallb (batch_ok env ly lx b (add_padding s) (resize s) nt) frames = true ->
  (length frames <= fuel)%nat ->
  ~ (inference_seconds env frames == 0)%Q ->
  let n := Z.of_nat (length frames) in
  let tested := tested_ends n (length frames) in
  exists s' r evs,
    predict_landmarks env fuel vid frame_ind s = (s', Ok r) /\
    log s' = log s ++ evs /\
    progress_updates evs = List.filter (fun v => progress_due v n) tested /\
    (forall k, (k < length frames)%nat ->
       tested !! k = Some (Z.min (Z.of_nat k + 2) n)) /\
    ((2 <= length frames)%nat ->
       ~ In 1 tested /\
       Forall (fun v => 2 <= v <= n) (progress_updates evs) /\
       tested !! (length frames - 2)%nat = Some n /\
       tested !! (length frames - 1)%nat = Some n) /\
    (length frames = 1%nat -> tested = [1]).
Proof.
  intros Hnet Hly Hlx Hb Hreq Hok Hfuel Htime n tested.
  pose proof (predict_landmarks_run env fuel vid frame_ind s nt ly lx b frames
                Hnet Hly Hlx Hb Hreq Hok Hfuel Htime) as Hrun.
  simpl in Hrun.
  destruct (run_passes_progress ly lx b nt n frames 0
              (with_net_mode EvalMode s)
              (zeros n (length (net_bodyparts nt)))
              0%Q ltac:(lia)) as (evs & Hlog & Hupd).
  assert (Hupd' : progress_updates evs
                  = List.filter (fun v => progress_due v n) tested)
    by (rewrite Hupd; reflexivity).
  eexists _, _, evs. split; [exact Hrun|]. split; [exact Hlog|].
  split; [exact Hupd'|].
  split; [intros k Hk; apply tested_ends_lookup; exact Hk|].
  split.
  - intros H2.
    split; [intros H1; apply (tested_ends_range n (length frames) 1) in H1; lia|].
    split.
    + rewrite Hupd'. apply Forall_forall. intros v Hv.
      apply list_elem_of_In, filter_In in Hv as [Hv _].
      apply (tested_ends_range n (length frames) v); [lia | exact Hv].
    + split; unfold tested; rewrite tested_ends_lookup by lia;
        f_equal; lia.
  - intros H1. unfold tested, n. rewrite H1. reflexivity.
Qed.

Lemma loop_fetch_fails fuel vid nt frame_ind n k pd it s ly lx f e :
  Ly s !! vid = Some ly -> Lx s !! vid = Some lx ->
  0 <= k < n ->
  frame_ind !! Z.to_nat k = Some f ->
  get_frames env (ly, lx) [f] = Raise e ->
  batch_loop env (S fuel) vid nt frame_ind n k (k + 1) pd it s
  = (with_log (log s ++ [GetFrames [f]]) s, Raise e).
Proof.
  intros Hly Hlx Hk Hf G.
  simpl batch_loop.
  replace (k =? n) with false by (symmetry; apply Z.eqb_neq; lia).
  unfold bind at 1. unfold get at 1.
  rewrite (bind_ok _ _ _ _ _ (index_lookup _ _ _ _ Hly)).
  rewrite (bind_ok _ _ _ _ _ (index_lookup _ _ _ _ Hlx)).
  rewrite (slice_single frame_ind k f ltac:(lia) Hf).
  unfold record at 1. unfold bind at 1. unfold modify at 1.
  unfold bind at 1. unfold lift at 1. rewrite G. reflexivity.
Qed.

Lemma loop_unroll_until_failure vid nt frame_ind n ly lx b f post e :
  get_frames env (ly, lx) [f] = Raise e ->
  forall pre k fuel stop s pd it,
    Ly s !! vid = Some ly -> Lx s !! vid = Some lx -> bbox s !! vid = Some b ->
    0 <= k -> n = k + Z.of_nat (length (pre ++ f :: post)) ->
    drop (Z.to_nat k) frame_ind = pre ++ f :: post ->
    length pd = Z.to_nat n ->
    stop = k + 1 ->
    forallb (batch_ok env ly lx b (add_padding s) (resize s) nt) pre = true ->
    (length pre < fuel)%nat ->
    batch_loop env fuel vid nt frame_ind n k stop pd it s
    = (with_log
         (log (fst (run_passes env ly lx b nt n pre k s pd it))
          ++ [GetFrames [f]])
         (fst (run_passes env ly lx b nt n pre k s pd it)),
       Raise e).
Proof.
  intros G.
  induction pre as [|p rest IH];
    intros k fuel stop s pd it Hly Hlx Hb Hk Hn Hdrop Hpd Hstop Hok Hfuel.
  - simpl in *. destruct fuel as [|fuel]; [lia|]. subst stop.
    assert (Hf : frame_ind !! Z.to_nat k = Some f).
    { rewrite <- (Nat.add_0_r (Z.to_nat k)), <- lookup_drop, Hdrop. reflexivity. }
    apply (loop_fetch_fails fuel vid nt frame_ind n k pd it s ly lx f e);
      first [assumption | lia].
  - rewrite length_app in Hn. simpl length in Hn, Hfuel.
    destruct fuel as [|fuel]; [lia|].
    simpl in Hok. apply andb_prop in Hok. destruct Hok as [Hokp Hokr].
    assert (Hp : frame_ind !! Z.to_nat k = Some p).
    { rewrite <- (Nat.add_0_r (Z.to_nat k)), <- lookup_drop, Hdrop. reflexivity. }
    destruct (lookup_lt_is_Some_2 pd (Z.to_nat k)) as [old Hold]; [lia|].
    subst stop.
    rewrite (loop_pass env fuel vid nt frame_ind n k pd it s ly lx b p old)
      by (first [assumption | lia]).
    simpl run_passes.
    apply IH; try assumption; try lia.
    + rewrite length_app. simpl length. lia.
    + replace (Z.to_nat (k + 1)) with (Z.to_nat k + 1)%nat by lia.
      rewrite <- drop_drop, Hdrop. reflexivity.
    + rewrite length_insert. assumption.
    + rewrite (batch_size_1 env). lia.
Qed.

(** X18.  When a frame cannot be fetched, [predict_landmarks] raises the
    error of the frame source as it is: the frame is asked for once,
    nothing after it is fetched, and the rows stored for the frames
    before it are lost with the buffer. *)
Theorem fetch_failure_stops_the_video fuel vid frame_ind s nt ly lx b
    pre f post e :
  net s = Some nt ->
  Ly s !! vid = Some ly -> Lx s !! vid = Some lx -> bbox s !! vid = Some b ->
  requested s frame_ind = Some (pre ++ f :: post) ->
  forallb (batch_ok env ly lx b (add_padding s) (resize s) nt) pre = true ->
  get_frames env (ly, lx) [f] = Raise e ->
  (length pre < fuel)%nat ->
  exists s' evs,
    predict_landmarks env fuel vid frame_ind s = (s', Raise e) /\
    log s' = log s ++ evs /\
    fetched evs = map (fun x => [x]) (pre ++ [f]) /\
    stored evs
    = map (fun i => (Z.of_nat i, Z.of_nat i + 1)) (seq 0 (length pre)).
Proof.
  intros Hnet Hly Hlx Hb Hreq Hok G Hfuel.
  set (frames := pre ++ f :: post) in *.
  set (n := Z.of_nat (length frames)).
  assert (Htf : match frame_ind with
                | None => bind (index_last (cumframes s))
                               (fun t => ret (t, np_arange t))
                | Some l => ret (Z.of_nat (length l), l)
                end s = (s, Ok (n, frames))).
  { destruct frame_ind as [l|]; simpl in Hreq.
    - injection Hreq as ->. reflexivity.
    - unfold index_last, bind.
      destruct (last (cumframes s)) as [t|]; [|discriminate].
      destruct (0 <=? t) eqn:Et; [|discriminate].
      injection Hreq as <-. unfold ret, n, np_arange.
      rewrite length_map, length_seq, Z2Nat.id by lia. reflexivity. }
  pose proof (loop_unroll_until_failure vid nt frames n ly lx b f post e G
                pre 0 fuel (batch_size env) (with_net_mode EvalMode s)
                (zeros n (length (net_bodyparts nt))) 0%Q
                Hly Hlx Hb ltac:(lia) ltac:(unfold n, frames; lia) (drop_0 _)
                ltac:(unfold zeros; rewrite length_replicate; reflexivity)
                (batch_size_1 env) Hok Hfuel) as Hloop.
  destruct (run_passes_spec env ly lx b nt n pre 0 (with_net_mode EvalMode s)
              (zeros n (length (net_bodyparts nt))) 0%Q ltac:(lia))
    as (_ & _ & evs & Hlog & Hfetch & Hstore).
  eexists _, (evs ++ [GetFrames [f]]).
  split.
  { unfold predict_landmarks.
    unfold bind at 1. unfold get at 1.
    rewrite (bind_ok _ _ _ _ _ Htf).
    unfold bind at 1. unfold net_attr at 1. rewrite Hnet.
    replace (n <? 0) with false by (symmetry; apply Z.ltb_ge; lia).
    unfold bind at 1. unfold when at 1. unfold ret at 1.
    unfold bind at 1. unfold modify at 1.
    rewrite (bind_ok _ _ _ _ _ (index_lookup _ _ _ _ Hb)).
    apply bind_raise. exact Hloop. }
  split; [simpl; rewrite Hlog, <- app_assoc; reflexivity|].
  split.
  - rewrite fetched_app, Hfetch, map_app. reflexivity.
  - rewrite stored_app, Hstore. simpl. rewrite app_nil_r.
    apply map_ext. intros i. f_equal; lia.
Qed.

End LoopMore.

Lemma progress_is_tested_one_batch_ahead_witness :
  exists s' r evs,
    predict_landmarks demo_env 20 0 None demo_twenty_frames = (s', Ok r) /\
    progress_updates evs
    = [2; 3; 4; 5; 6; 7; 8; 9; 10; 11; 12; 13; 14; 15; 16; 17; 18; 19; 20; 20].
Proof.
  destruct (progress_is_tested_one_batch_ahead demo_env 20 0 None
              demo_twenty_frames demo_net 480 640 (mkBBox 0 480 0 640)
              (np_arange 20) eq_refl eq_refl eq_refl eq_refl eq_refl eq_refl
              (le_n 20) (demo_time_not_zero (np_arange 20) ltac:(discriminate)))
    as (s' & r & evs & Hrun & _ & Hupd & _).
  exists s', r, evs. split; [exact Hrun | exact Hupd].
Defined.

Lemma fetch_failure_stops_the_video_witness :
  exists s' evs,
    predict_landmarks bad_frame_env 30 0 None demo_short_clip
    = (s', Raise (External "FrameFetchError")) /\
    fetched evs = [[0]; [1]; [2]] /\
    stored evs = [(0, 1); (1, 2)].
Proof.
  destruct (fetch_failure_stops_the_video bad_frame_env 30 0 None
              demo_short_clip demo_net 480 640 (mkBBox 0 480 0 640)
              [0; 1] 2 [3; 4] (External "FrameFetchError")
              eq_refl eq_refl eq_refl eq_refl eq_refl eq_refl eq_refl
              ltac:(simpl; lia))
    as (s' & evs & Hrun & _ & Hfetch & Hstore).
  exists s', evs. repeat split; assumption.
Defined.

(** ** [run_all] from the command line *)

Section RunAllCli.
Context (env : Env).











End RunAllCli.



(** ** [run_all] and the plot *)

Section RunAllPlot.
Context (env : Env).

Lemma naming_kept_of_eq s s' :
  filenames s' = filenames s -> finetuned_model s' = finetuned_model s ->
  gui s' = gui s -> disk s' = disk s -> naming_kept s s'.
Proof.
  intros H1 H2 H3 H4. unfold naming_kept. rewrite H1, H2, H3, H4.
  repeat split. reflexivity.
Qed.

Lemma naming_kept_modify f :
  (forall s, filenames (f s) = filenames s) ->
  (forall s, finetuned_model (f s) = finetuned_model s) ->
  (forall s, gui (f s) = gui s) ->
  (forall s, disk (f s) = disk s) ->
  preserves naming_kept (modify f).
Proof.
  intros H1 H2 H3 H4. apply preserves_modify. intros s.
  apply naming_kept_of_eq; auto.
Qed.

Lemma setup_video_naming_kept i : preserves naming_kept (setup_video i).
Proof.
  unfold setup_video.
  apply (preserves_bind _ naming_kept_trans);
    [apply (preserves_get _ naming_kept_refl) | intros s0].
  apply (preserves_bind _ naming_kept_trans);
    [apply (preserves_index _ naming_kept_refl) | intros ly].
  apply (preserves_bind _ naming_kept_trans);
    [apply (preserves_index _ naming_kept_refl) | intros lx].
  apply (preserves_bind _ naming_kept_trans);
    [apply naming_kept_modify; reflexivity | intros _].
  apply (preserves_bind _ naming_kept_trans).
  { apply (preserves_when _ naming_kept_refl), naming_kept_modify;
      reflexivity. }
  intros _.
  apply (preserves_bind _ naming_kept_trans).
  { apply (preserves_when _ naming_kept_refl), naming_kept_modify;
      reflexivity. }
  intros _.
  apply (preserves_bind _ naming_kept_trans);
    [apply (preserves_gui_attr _ naming_kept_refl) | intros g].
  apply (preserves_bind _ naming_kept_trans);
    [apply (preserves_get _ naming_kept_refl) | intros s1].
  apply naming_kept_modify; reflexivity.
Qed.

Lemma load_default_naming_kept : preserves naming_kept (load_model env None).
Proof.
  unfold load_model.
  apply (preserves_bind _ naming_kept_trans);
    [apply (preserves_ret _ naming_kept_refl) | intros _].
  apply (preserves_bind _ naming_kept_trans);
    [apply naming_kept_modify; reflexivity | intros _].
  apply (preserves_bind _ naming_kept_trans);
    [apply (preserves_lift _ naming_kept_refl) | intros bps].
  apply (preserves_bind _ naming_kept_trans);
    [apply naming_kept_modify; reflexivity | intros _].
  apply (preserves_bind _ naming_kept_trans);
    [apply (preserves_lift _ naming_kept_refl) | intros nt].
  apply (preserves_bind _ naming_kept_trans);
    [apply naming_kept_modify; reflexivity | intros _].
  apply naming_kept_modify; reflexivity.
Qed.

Lemma setup_naming_kept : preserves naming_kept (pose_prediction_setup env).
Proof.
  unfold pose_prediction_setup.
  apply (preserves_bind _ naming_kept_trans);
    [apply (preserves_get _ naming_kept_refl) | intros s0].
  apply (preserves_bind _ naming_kept_trans);
    [apply (preserves_when _ naming_kept_refl), load_default_naming_kept
    | intros _].
  apply (preserves_bind _ naming_kept_trans);
    [apply (preserves_get _ naming_kept_refl) | intros s1].
  apply (preserves_when _ naming_kept_refl).
  apply (preserves_bind _ naming_kept_trans).
  - apply (preserves_for_each _ naming_kept_refl naming_kept_trans).
    intros i. apply setup_video_naming_kept.
  - intros _. apply naming_kept_modify; reflexivity.
Qed.

Lemma naming_kept_no_gui s s' : naming_kept s s' -> gui s = None -> gui s' = None.
Proof.
  intros (_ & _ & H & _) Hg. rewrite Hg in H. now destruct (gui s').
Qed.

Lemma naming_kept_gui s s' g :
  naming_kept s s' -> gui s = Some g ->
  exists g', gui s' = Some g' /\ save_path g' = save_path g.
Proof.
  intros (_ & _ & H & _) Hg. rewrite Hg in H.
  destruct (gui s') as [g'|]; [|discriminate].
  exists g'. split; [reflexivity|]. simpl in H. congruence.
Qed.

(** X20.  Without a GUI the argument [plot] of [run_all] has no effect at
    all: outcome, files, messages and clock are the same for both of its
    values. *)
Theorem plot_is_ignored_without_gui fuel plot s :
  gui s = None -> run_all env fuel plot s = run_all env fuel false s.
Proof.
  intros Hg. destruct plot; [|reflexivity].
  unfold run_all, bind, time_time, get.
  destruct (pose_prediction_setup env s) as [s0 [[]|e]] eqn:E0; [|reflexivity].
  unfold index. destruct (filenames s0 !! 0%nat) as [fns|]; [|reflexivity].
  change (ret fns s0) with (s0, Ok fns). cbv beta iota.
  destruct (for_each (range (length fns)) (run_video env fuel) s0)
    as [s1 [[]|e]] eqn:E1; [|reflexivity].
  pose proof (setup_naming_kept _ _ _ E0) as K0.
  pose proof (for_each_naming_kept env fuel _ _ _ _ E1) as K1.
  rewrite (naming_kept_no_gui _ _ K1 (naming_kept_no_gui _ _ K0 Hg)).
  reflexivity.
Qed.

(** X21.  With a GUI and [plot] set, a completed [run_all] ends on
    [plot_pose_estimates]: after the last video was written it marks the
    pose as loaded, reloads the keypoints and ticks the checkbox; nothing
    is written any more and the elapsed-time message is the last call to
    the host. *)
Theorem run_all_plots_last fuel s g s0 fns s1 :
  gui s = Some g ->
  pose_prediction_setup env s = (s0, Ok tt) ->
  filenames s0 !! 0%nat = Some fns ->
  for_each (range (length fns)) (run_video env fuel) s0 = (s1, Ok tt) ->
  exists s',
    run_all env fuel true s = (s', Ok tt) /\
    (is_pose_loaded <$> gui s') = Some true /\
    (poseFilepath <$> gui s') = (poseFilepath <$> gui s1) /\
    disk s' = disk s1 /\
    log s'
    = log s1 ++ [GuiCall "load_keypoints";
                 GuiCall "keypoints_checkbox.setChecked(True)";
                 Message (TimeElapsed (now s1 - now s)%Q) (Some true)].
Proof.
  intros Hg Hsetup Hfns Hloop.
  pose proof (setup_naming_kept _ _ _ Hsetup) as K0.
  pose proof (for_each_naming_kept env fuel _ _ _ _ Hloop) as K1.
  destruct (naming_kept_gui _ _ g (naming_kept_trans _ _ _ K0 K1) Hg)
    as (g1 & Hg1 & _).
  eexists. split.
  { unfold run_all.
    unfold bind at 1. unfold time_time at 1.
    rewrite (bind_ok _ _ _ _ _ Hsetup).
    unfold bind at 1. unfold get at 1.
    rewrite (bind_ok _ _ _ _ _ (index_lookup _ _ _ _ Hfns)).
    rewrite (bind_ok _ _ _ _ _ Hloop).
    unfold bind at 1. unfold get at 1. rewrite Hg1.
    cbv beta iota delta [andb when plot_pose_estimates bind gui_attr gui_call
                           record modify time_time update_mainwindow_message].
    rewrite Hg1. reflexivity. }
  simpl. rewrite Hg1, <- !app_assoc. repeat split.
Qed.

End RunAllPlot.

Lemma plot_is_ignored_without_gui_witness :
  run_all demo_env 3 true demo_two_videos
  = run_all demo_env 3 false demo_two_videos.
Proof.
  exact (plot_is_ignored_without_gui demo_env 3 true demo_two_videos eq_refl).
Defined.

Lemma demo_gui_run_ok :
  snd (for_each (range 1) (run_video demo_env 3) demo_gui_ready_pose) = Ok tt.
Proof. vm_compute. reflexivity. Qed.

Lemma run_all_plots_last_witness :
  exists s',
    run_all demo_env 3 true demo_gui_ready_pose = (s', Ok tt) /\
    (is_pose_loaded <$> gui s') = Some true /\
    (poseFilepath <$> gui s') = Some ["/out/cam0_FacemapPose.h5"].
Proof.
  destruct (run_all_plots_last demo_env 3 demo_gui_ready_pose demo_gui
              demo_gui_ready_pose ["/data/cam0.avi"] _ eq_refl
              (setup_noop demo_env demo_gui_ready_pose demo_net eq_refl eq_refl)
              eq_refl (run_result_eta _ _ _ demo_gui_run_ok))
    as (s' & Hrun & Hloaded & Hpaths & _).
  exists s'. split; [exact Hrun|]. split; [exact Hloaded|].
  rewrite Hpaths. vm_compute. reflexivity.
Defined.

(** ** Before and around the setup *)

Section AroundSetup.
Context (env : Env).

(** X22.  An instance constructed without a GUI and with [bbox_set] left
    at its default cannot run: [run_all] and [run_subset] both raise the
    AttributeError of the setup, having appended the first video's box
    and written nothing. *)
Theorem instance_without_gui_and_boxes_cannot_run fuel plot subset_ind
    fa bp boxes rs ap nt d s ly lx :
  Pose_init env fa bp boxes false rs ap None (Some nt) d = Ok s ->
  Ly s !! 0%nat = Some ly -> Lx s !! 0%nat = Some lx ->
  exists s',
    run_all env fuel plot s = (s', Raise (AttributeError "NoneType" "bbox")) /\
    run_subset env fuel subset_ind s
    = (s', Raise (AttributeError "NoneType" "bbox")) /\
    bbox s' = boxes ++ [full_frame ly lx] /\
    bbox_set s' = false /\ disk s' = d.
Proof.
  intros Hinit Hly Hlx.
  assert (Hs : gui s = None /\ bbox_set s = false /\ net s = Some nt /\
               bbox s = boxes /\ disk s = d).
  { unfold Pose_init in Hinit.
    destruct (get_frame_details env fa) as [[[cum lys] lxs]|]; [|discriminate].
    destruct (last cum); [|discriminate].
    injection Hinit as <-. repeat split. }
  destruct Hs as (Hg & Hb & Hn & Hbox & Hd).
  destruct (setup_fails_without_gui env s nt ly lx Hb Hg Hn Hly Hlx)
    as (s' & Hrun & Hbox' & Hb' & _ & _ & _ & _ & Hd').
  exists s'. split.
  { unfold run_all. unfold bind at 1. unfold time_time at 1.
    apply bind_raise. exact Hrun. }
  split; [unfold run_subset; apply bind_raise; exact Hrun|].
  repeat split; congruence.
Qed.

(** X23.  [predict_landmarks] called before the setup raises before any
    frame is fetched: AttributeError when there is no network, with
    nothing changed; IndexError when there is a network but no bbox for
    the video, and by then the network has been switched to inference
    mode (line 281 comes before line 285), which is the only change. *)
Theorem predict_landmarks_before_setup fuel vid frame_ind s frames :
  requested s frame_ind = Some frames ->
  net s = None \/ bbox s !! vid = None ->
  predict_landmarks env fuel vid frame_ind s
  = match net s with
    | None => (s, Raise (AttributeError "NoneType" "bodyparts"))
    | Some _ => (with_net_mode EvalMode s, Raise IndexError)
    end.
Proof.
  intros Hreq Hcase.
  set (n := Z.of_nat (length frames)).
  assert (Htf : match frame_ind with
                | None => bind (index_last (cumframes s))
                               (fun t => ret (t, np_arange t))
                | Some l => ret (Z.of_nat (length l), l)
                end s = (s, Ok (n, frames))).
  { destruct frame_ind as [l|]; simpl in Hreq.
    - injection Hreq as ->. reflexivity.
    - unfold index_last, bind.
      destruct (last (cumframes s)) as [t|]; [|discriminate].
      destruct (0 <=? t) eqn:Et; [|discriminate].
      injection Hreq as <-. unfold ret, n, np_arange.
      rewrite length_map, length_seq, Z2Nat.id by lia. reflexivity. }
  unfold predict_landmarks.
  unfold bind at 1. unfold get at 1.
  rewrite (bind_ok _ _ _ _ _ Htf).
  unfold bind at 1. unfold net_attr at 1.
  destruct (net s) as [nt|] eqn:Hn; [|reflexivity].
  destruct Hcase as [Hc|Hc]; [discriminate|].
  replace (n <? 0) with false by (symmetry; apply Z.ltb_ge; lia).
  unfold bind at 1. unfold when at 1. unfold ret at 1.
  unfold bind at 1. unfold modify at 1.
  apply bind_raise. unfold index. now rewrite Hc.
Qed.

Lemma setup_video_bodyparts i :
  preserves (fun a b => bodyparts b = bodyparts a) (setup_video i).
Proof.
  set (R := fun a b : St => bodyparts b = bodyparts a).
  assert (Rrefl : forall a, R a a) by reflexivity.
  assert (Rtrans : forall a b c, R a b -> R b c -> R a c)
    by (unfold R; congruence).
  unfold setup_video.
  apply (preserves_bind _ Rtrans); [apply (preserves_get _ Rrefl) | intros s0].
  apply (preserves_bind _ Rtrans); [apply (preserves_index _ Rrefl) | intros ly].
  apply (preserves_bind _ Rtrans); [apply (preserves_index _ Rrefl) | intros lx].
  apply (preserves_bind _ Rtrans);
    [apply preserves_modify; reflexivity | intros _].
  apply (preserves_bind _ Rtrans).
  { apply (preserves_when _ Rrefl), preserves_modify. reflexivity. }
  intros _.
  apply (preserves_bind _ Rtrans).
  { apply (preserves_when _ Rrefl), preserves_modify. reflexivity. }
  intros _.
  apply (preserves_bind _ Rtrans);
    [apply (preserves_gui_attr _ Rrefl) | intros g].
  apply (preserves_bind _ Rtrans); [apply (preserves_get _ Rrefl) | intros s1].
  apply preserves_modify. reflexivity.
Qed.

(** X24.  When the setup has to load the model, [self.bodyparts] is
    taken from the model's parameter file: the names the caller gave to
    the constructor are replaced, whatever the setup does afterwards. *)
Theorem setup_takes_bodyparts_from_model s bps :
  net s = None -> model_params env = Ok bps ->
  bodyparts (fst (pose_prediction_setup env s)) = Some bps.
Proof.
  intros Hn He.
  set (R := fun a b : St => bodyparts b = bodyparts a).
  assert (Rrefl : forall a, R a a) by reflexivity.
  assert (Rtrans : forall a b c, R a b -> R b c -> R a c)
    by (unfold R; congruence).
  destruct (load_model env None s) as [s1 r1] eqn:Hload.
  assert (Hbp : bodyparts s1 = Some bps).
  { unfold load_model, bind, when, update_mainwindow_message, modify, lift,
      ret in Hload.
    rewrite He in Hload.
    destruct (load_net env None bps); injection Hload as <- _; reflexivity. }
  unfold pose_prediction_setup.
  unfold bind at 1. unfold get at 1. rewrite Hn. simpl when at 1.
  unfold bind at 1. rewrite Hload.
  destruct r1 as [[]|e]; [|exact Hbp].
  unfold bind at 1. unfold get at 1.
  rewrite <- Hbp.
  refine (preserves_when R Rrefl _ _ _ _ _ _ (run_fst_snd _ s1)).
  apply (preserves_bind _ Rtrans).
  - apply (preserves_for_each _ Rrefl Rtrans). intros i.
    apply setup_video_bodyparts.
  - intros _. apply preserves_modify. reflexivity.
Qed.

End AroundSetup.

Lemma instance_without_gui_and_boxes_cannot_run_witness :
  exists s',
    run_all demo_env 30 true demo_cli_pose
    = (s', Raise (AttributeError "NoneType" "bbox")) /\
    run_subset demo_env 30 None demo_cli_pose
    = (s', Raise (AttributeError "NoneType" "bbox")) /\
    bbox s' = [mkBBox 0 480 0 640] /\ disk s' = ∅.
Proof.
  destruct (instance_without_gui_and_boxes_cannot_run demo_env 30 true None
              [["/data/cam0.avi"]] (Some ["eye"; "nose"]) [] false false
              demo_net ∅ demo_cli_pose 480 640 eq_refl eq_refl eq_refl)
    as (s' & Hall & Hsub & Hbox & _ & Hd).
  exists s'. repeat split; assumption.
Defined.

Lemma predict_landmarks_before_setup_witness :
  predict_landmarks demo_env 30 0 None demo_gui_pose
  = (with_net_mode EvalMode demo_gui_pose, Raise IndexError).
Proof.
  exact (predict_landmarks_before_setup demo_env 30 0 None demo_gui_pose
           (np_arange 30) eq_refl (or_intror eq_refl)).
Defined.

Lemma setup_takes_bodyparts_from_model_witness :
  bodyparts (fst (pose_prediction_setup demo_env demo_named_no_net))
  = Some ["eye"; "nose"].
Proof.
  exact (setup_takes_bodyparts_from_model demo_env demo_named_no_net
           ["eye"; "nose"] eq_refl eq_refl).
Defined.

(** ** A model that is read but not loaded *)

Section HalfLoaded.
Context (env : Env).

(** X25.  [load_model] replaces [self.bodyparts] (line 412) before the
    network is built and its state loaded (lines 413-425): when that
    fails, the instance holds the names of the model file next to the
    network it had before (none, on a fresh instance), and, called from
    the setup of an instance without network, the error ends
    [pose_prediction_setup] before any bbox is derived. *)
Theorem failed_state_load_leaves_new_bodyparts o s bps e :
  model_params env = Ok bps -> load_net env o bps = Raise e ->
  exists s',
    load_model env o s = (s', Raise e) /\
    bodyparts s' = Some bps /\
    net s' = net s /\ net_mode s' = net_mode s /\
    bbox s' = bbox s /\ bbox_set s' = bbox_set s /\ disk s' = disk s /\
    (o = None -> net s = None ->
     pose_prediction_setup env s = (s', Raise e)).
Proof.
  intros He Hl.
  set (s0 := match o with
             | Some _ => with_finetuned_model true s
             | None => s
             end).
  assert (Hrun : load_model env o s
                 = (with_bodyparts (Some bps)
                      (with_log (log s0 ++ [Message LoadingModel None]) s0),
                    Raise e)).
  { unfold s0, load_model, bind, when, update_mainwindow_message, modify, lift,
      ret.
    destruct o; simpl; rewrite He; simpl; rewrite Hl; reflexivity. }
  eexists. split; [exact Hrun|].
  unfold s0. repeat split; try (destruct o; reflexivity).
  intros -> Hn. unfold pose_prediction_setup.
  unfold bind at 1. unfold get at 1. rewrite Hn. simpl when at 1.
  apply bind_raise. exact Hrun.
Qed.

End HalfLoaded.

Lemma failed_state_load_leaves_new_bodyparts_witness :
  exists s',
    pose_prediction_setup bad_state_env demo_named_no_net
    = (s', Raise (External "StateLoadError")) /\
    bodyparts demo_named_no_net = Some ["whisker"] /\
    bodyparts s' = Some ["eye"; "nose"] /\
    net s' = None /\ bbox s' = [].
Proof.
  destruct (failed_state_load_leaves_new_bodyparts bad_state_env None
              demo_named_no_net ["eye"; "nose"] (External "StateLoadError")
              eq_refl eq_refl)
    as (s' & _ & Hbp & Hnet & _ & Hbox & _ & _ & Hsetup).
  exists s'. split; [exact (Hsetup eq_refl eq_refl)|].
  split; [reflexivity|]. split; [exact Hbp|].
  split; [exact Hnet | exact Hbox].
Defined.
